(** * wee_database: date-window resolution and the null-string scan

    A shallow embedding of [bin/wee_database.py]: the functions
    [_parse_dates], [check_type], [set_type] and [check_strings], the
    checks on the options and the choice of the action in [main], and the
    list of names in [dropColumns], together with the fragments of the
    Python runtime they call ([datetime.datetime], [datetime.timedelta],
    [datetime.strptime], [int], [float], [str], [bytes.decode],
    [str.split], [list.remove]).

    Python exceptions are values of type [exn]; a computation that may
    raise has type [result A]. *)

From Stdlib Require Import ZArith List String Ascii Bool Lia DecimalString DecimalPos.
From Stdlib.Strings Require Import Byte.
From Stdlib Require Import SpecFloat.
Import ListNotations.
Local Open Scope string_scope.
Local Open Scope Z_scope.


(** ** Exceptions and results *)

(** The exception classes that occur in the embedded code.
    [UnicodeDecodeError] is a subclass of [ValueError] and is caught by
    [except ValueError]; [OverflowError], [TypeError] and [IndexError] are
    not.  [ViolatedPrecondition] is [weewx.ViolatedPrecondition] and
    [NoColumnError] is [weedb.NoColumnError]. *)
Inductive exn : Type :=
| ValueError (msg : string)
| UnicodeDecodeError (msg : string)
| OverflowError (msg : string)
| TypeError (msg : string)
| IndexError (msg : string)
| ViolatedPrecondition (msg : string)
| NoColumnError (msg : string).

Inductive result (A : Type) : Type :=
| Ok (a : A)
| Raise (e : exn).
Arguments Ok {A} a.
Arguments Raise {A} e.

Definition bind {A B : Type} (r : result A) (k : A -> result B) : result B :=
  match r with
  | Ok a => k a
  | Raise e => Raise e
  end.

Notation "x <- r ;; k" := (bind r (fun x => k))
  (at level 61, r at next level, right associativity).

(** [isinstance(e, ValueError)] *)
Definition is_ValueError (e : exn) : bool :=
  match e with
  | ValueError _ | UnicodeDecodeError _ => true
  | _ => false
  end.

(** [try: r  except ValueError: h] *)
Definition try_except_ValueError {A : Type} (r : result A) (h : result A)
  : result A :=
  match r with
  | Ok a => Ok a
  | Raise e => if is_ValueError e then h else Raise e
  end.

(** ** [datetime]: dates as ordinals *)

Module DateTime.

(** Constants and helpers of the [datetime] module. *)
Definition _MAXORDINAL : Z := 3652059.

Definition _is_leap (year : Z) : bool :=
  (year mod 4 =? 0) && (negb (year mod 100 =? 0) || (year mod 400 =? 0)).

Definition _days_before_year (year : Z) : Z :=
  let y := year - 1 in
  y * 365 + y / 4 - y / 100 + y / 400.

Definition _DAYS_IN_MONTH : list Z :=
  [-1; 31; 28; 31; 30; 31; 30; 31; 31; 30; 31; 30; 31].

Definition _DAYS_BEFORE_MONTH : list Z :=
  [-1; 0; 31; 59; 90; 120; 151; 181; 212; 243; 273; 304; 334].

Definition _days_in_month (year month : Z) : Z :=
  if (month =? 2) && _is_leap year then 29
  else nth (Z.to_nat month) _DAYS_IN_MONTH 0.

Definition _days_before_month (year month : Z) : Z :=
  nth (Z.to_nat month) _DAYS_BEFORE_MONTH 0
  + (if (2 <? month) && _is_leap year then 1 else 0).

Definition _ymd2ord (year month day : Z) : Z :=
  _days_before_year year + _days_before_month year month + day.

(** A naive [datetime.datetime] value.  The calendar date is held as its
    proleptic Gregorian ordinal ([date.toordinal()], day 1 is 0001-01-01) and
    the time of day as seconds since midnight, which is the normal form
    [datetime.__add__] computes in; [datetime_new] is the constructor taking
    the calendar fields. *)
Record datetime : Type := mk_datetime {
  ordinal : Z;
  second_of_day : Z;
  microsecond : Z
}.

(** A normalised [datetime.timedelta]. *)
Record timedelta : Type := mk_timedelta {
  days : Z;
  seconds : Z;
  microseconds : Z
}.

Definition in_range (lo x hi : Z) : bool := (lo <=? x) && (x <=? hi).

(** [datetime.datetime(year, month, day, hour, minute, second, microsecond)]:
    the field checks of the constructor, each raising [ValueError]. *)
Definition datetime_new (year month day hour minute second usec : Z)
  : result datetime :=
  if negb (in_range 1 year 9999) then
    Raise (ValueError "year is out of range")
  else if negb (in_range 1 month 12) then
    Raise (ValueError "month must be in 1..12")
  else if negb (in_range 1 day (_days_in_month year month)) then
    Raise (ValueError "day is out of range for month")
  else if negb (in_range 0 hour 23) then
    Raise (ValueError "hour must be in 0..23")
  else if negb (in_range 0 minute 59) then
    Raise (ValueError "minute must be in 0..59")
  else if negb (in_range 0 second 59) then
    Raise (ValueError "second must be in 0..59")
  else if negb (in_range 0 usec 999999) then
    Raise (ValueError "microsecond must be in 0..999999")
  else
    Ok (mk_datetime (_ymd2ord year month day)
                    (hour * 3600 + minute * 60 + second) usec).

(** [timedelta(days=n)] and [timedelta(seconds=n)], normalised. *)
Definition timedelta_days (n : Z) : timedelta := mk_timedelta n 0 0.
Definition timedelta_seconds (n : Z) : timedelta :=
  mk_timedelta (n / 86400) (n mod 86400) 0.

(** [datetime.__add__(self, timedelta)]: carries are propagated with floor
    division; a date outside [1 .. _MAXORDINAL] raises [OverflowError]. *)
Definition datetime_add (d : datetime) (t : timedelta) : result datetime :=
  let us := microsecond d + microseconds t in
  let s := second_of_day d + seconds t + us / 1000000 in
  let n := ordinal d + days t + s / 86400 in
  if (0 <? n) && (n <=? _MAXORDINAL) then
    Ok (mk_datetime n (s mod 86400) (us mod 1000000))
  else
    Raise (OverflowError "date value out of range").

(** [a < b] on datetimes: by date, then by time of day.  The ordinal orders
    the dates as their calendar fields do ([ymd2ord_monotone] below). *)
Definition datetime_ltb (a b : datetime) : bool :=
  (ordinal a <? ordinal b)
  || ((ordinal a =? ordinal b)
      && ((second_of_day a <? second_of_day b)
          || ((second_of_day a =? second_of_day b)
              && (microsecond a <? microsecond b)))).

(** [a <= b] *)
Definition datetime_leb (a b : datetime) : bool :=
  (ordinal a <? ordinal b)
  || ((ordinal a =? ordinal b)
      && ((second_of_day a <? second_of_day b)
          || ((second_of_day a =? second_of_day b)
              && (microsecond a <=? microsecond b)))).

(** The values the constructor can produce. *)
Definition normal (d : datetime) : Prop :=
  0 < ordinal d <= _MAXORDINAL
  /\ 0 <= second_of_day d < 86400
  /\ 0 <= microsecond d < 1000000.

(** Midnight at the start of a day. *)
Definition is_midnight (d : datetime) : Prop :=
  second_of_day d = 0 /\ microsecond d = 0.

(** [p] holds of [z], [z + 1], ..., [z + n - 1]; used to check a property
    of every year by evaluation. *)
Fixpoint all_from (p : Z -> bool) (z : Z) (n : nat) : bool :=
  match n with
  | O => true
  | S n' => p z && all_from p (z + 1) n'
  end.

(** The days of year [y] have their ordinals in [1 .. _MAXORDINAL], and the
    next year begins the day after its last. *)
Definition year_ok (y : Z) : bool :=
  (0 <=? _days_before_year y)
  && (_days_before_year y + 365 + (if _is_leap y then 1 else 0)
      <=? _MAXORDINAL)
  && (_days_before_year (y + 1)
      =? _days_before_year y + 365 + (if _is_leap y then 1 else 0)).

(** A calendar date the constructor accepts. *)
Definition valid_date (year month day : Z) : Prop :=
  1 <= year <= 9999 /\ 1 <= month <= 12
  /\ 1 <= day <= _days_in_month year month.

(** [(year, month, day) < (year', month', day')], field by field. *)
Definition date_lt (y m d y' m' d' : Z) : Prop :=
  y < y' \/ (y = y' /\ (m < m' \/ (m = m' /\ d < d'))).

End DateTime.
Import DateTime.

(** ** ASCII text: characters, and the text [int] accepts *)

Module AsciiText.

Definition code (c : ascii) : Z := Z.of_N (N_of_ascii c).

Definition between (lo hi : ascii) (c : ascii) : bool :=
  in_range (code lo) (code c) (code hi).

Definition is_char (x : ascii) : ascii -> bool := Ascii.eqb x.

Definition is_digit : ascii -> bool := between "0" "9".

Definition digit_value (c : ascii) : Z := code c - code "0".

(** The lower-case letter of an upper-case one. *)
Definition lower (c : ascii) : ascii :=
  if between "A" "Z" c then ascii_of_N (N_of_ascii c + 32) else c.

(** The characters [int] and [float] strip: space, [\t \n \v \f \r]. *)
Definition is_space (c : ascii) : bool :=
  Ascii.eqb c " " || in_range 9 (code c) 13.

Fixpoint lstrip (s : list ascii) : list ascii :=
  match s with
  | c :: s' => if is_space c then lstrip s' else s
  | [] => []
  end.

Definition strip (s : list ascii) : list ascii :=
  rev (lstrip (rev (lstrip s))).

(** [digit (["_"] digit)*]: the digits of a digit part, underscores
    dropped; [after_digit] tells whether the previous character was a
    digit, the only place where an underscore or the end may follow. *)
Fixpoint digitpart (after_digit : bool) (s : list ascii) : option (list Z) :=
  match s with
  | [] => if after_digit then Some [] else None
  | c :: s' =>
      if is_digit c then option_map (cons (digit_value c)) (digitpart true s')
      else if Ascii.eqb c "_" && after_digit then digitpart false s'
      else None
  end.

Definition decimal_value (ds : list Z) : Z :=
  fold_left (fun acc d => acc * 10 + d) ds 0.

(** An optional sign, split off. *)
Definition split_sign (s : list ascii) : bool * list ascii :=
  match s with
  | "-"%char :: s' => (true, s')
  | "+"%char :: s' => (false, s')
  | _ => (false, s)
  end.

(** [int(s)] in base 10 on ASCII text: white space around an optional sign
    and a digit part.  [None] stands for [ValueError].  The limit that
    recent interpreters put on the number of digits is not modelled. *)
Definition int_of_text (s : list ascii) : option Z :=
  let (neg, body) := split_sign (strip s) in
  match digitpart false body with
  | Some ds => Some (if neg then - decimal_value ds else decimal_value ds)
  | None => None
  end.

End AsciiText.

(** ** [datetime.datetime.strptime] on ASCII text *)

(** [_strptime] turns the format into a regular expression, matches it at
    the start of the string with [re.match], requires the match to reach
    the end of the string, and builds the [datetime] from the groups.  The
    model follows it on ASCII text; the decimal digits outside ASCII, which
    [\d] and [int] also accept, are not digits here. *)
Module Strptime.
Import AsciiText.

(** A regular-expression item: a literal character of the format, or the
    named group of a directive, given as its alternatives in order, each a
    sequence of character classes. *)
Inductive token : Type :=
| Lit (c : ascii)
| Group (name : ascii) (alts : list (list (ascii -> bool))).

(** The groups [_strptime] substitutes for the directives:
    [%Y] is [\d\d\d\d], [%m] is [1[0-2]|0[1-9]|[1-9]],
    [%d] is [3[01]|[12]\d|0[1-9]|[1-9]| [1-9]],
    [%H] is [2[0-3]|[0-1]\d|\d], [%M] is [[0-5]\d|\d]. *)
Definition directive (c : ascii) : option (list (list (ascii -> bool))) :=
  if is_char "Y" c then Some [[is_digit; is_digit; is_digit; is_digit]]
  else if is_char "m" c then
    Some [[is_char "1"; between "0" "2"]; [is_char "0"; between "1" "9"];
          [between "1" "9"]]
  else if is_char "d" c then
    Some [[is_char "3"; between "0" "1"]; [between "1" "2"; is_digit];
          [is_char "0"; between "1" "9"]; [between "1" "9"];
          [is_char " "; between "1" "9"]]
  else if is_char "H" c then
    Some [[is_char "2"; between "0" "3"]; [between "0" "1"; is_digit]; [is_digit]]
  else if is_char "M" c then Some [[between "0" "5"; is_digit]; [is_digit]]
  else None.

(** The format compiled to its items.  The fragment covers the directives
    above and literal characters other than white space and [%]. *)
Fixpoint compile (fmt : list ascii) : option (list token) :=
  match fmt with
  | [] => Some []
  | c :: rest =>
      if Ascii.eqb c "%" then
        match rest with
        | d :: rest' =>
            match directive d, compile rest' with
            | Some alts, Some ts => Some (Group d alts :: ts)
            | _, _ => None
            end
        | [] => None
        end
      else if is_space c then None
      else option_map (cons (Lit c)) (compile rest)
  end.

(** The format is matched with [re.IGNORECASE]. *)
Definition eqb_nocase (a b : ascii) : bool := Ascii.eqb (lower a) (lower b).

Fixpoint match_seq (cs : list (ascii -> bool)) (s : list ascii)
  : option (list ascii * list ascii) :=
  match cs, s with
  | [], _ => Some ([], s)
  | p :: cs', c :: s' =>
      if p c then
        match match_seq cs' s' with
        | Some (m, r) => Some (c :: m, r)
        | None => None
        end
      else None
  | _ :: _, [] => None
  end.

(** [re.match]: the first match in backtracking order, with the text of
    each group and the unmatched rest of the input. *)
Fixpoint match_tokens (ts : list token) (s : list ascii)
  : option (list (ascii * list ascii) * list ascii) :=
  match ts with
  | [] => Some ([], s)
  | Lit c :: ts' =>
      match s with
      | x :: s' => if eqb_nocase c x then match_tokens ts' s' else None
      | [] => None
      end
  | Group name alts :: ts' =>
      (fix try (alts : list (list (ascii -> bool))) :=
         match alts with
         | [] => None
         | a :: alts' =>
             match match_seq a s with
             | Some (m, r) =>
                 match match_tokens ts' r with
                 | Some (gs, r') => Some ((name, m) :: gs, r')
                 | None => try alts'
                 end
             | None => try alts'
             end
         end) alts
  end.

Fixpoint group (name : ascii) (gs : list (ascii * list ascii))
  : option (list ascii) :=
  match gs with
  | [] => None
  | (n, m) :: gs' => if Ascii.eqb n name then Some m else group name gs'
  end.

(** [int(found_dict[name])], or the default of a directive that the
    format does not have. *)
Definition field (name : ascii) (default : Z) (gs : list (ascii * list ascii))
  : result Z :=
  match group name gs with
  | None => Ok default
  | Some m =>
      match int_of_text m with
      | Some z => Ok z
      | None => Raise (ValueError "invalid literal for int() with base 10")
      end
  end.

(** The names of the groups of a compiled format. *)
Definition token_names (ts : list token) : list ascii :=
  flat_map (fun t => match t with Group n _ => [n] | Lit _ => [] end) ts.

(** [datetime.datetime.strptime(data_string, format)]. *)
Definition strptime_ascii (data_string format : string) : result datetime :=
  match compile (list_ascii_of_string format) with
  | None => Raise (ValueError "bad directive in format")
  | Some ts =>
      match match_tokens ts (list_ascii_of_string data_string) with
      | None => Raise (ValueError "time data does not match format")
      | Some (gs, rest) =>
          match rest with
          | _ :: _ => Raise (ValueError "unconverted data remains")
          | [] =>
              year <- field "Y" 1900 gs ;;
              month <- field "m" 1 gs ;;
              day <- field "d" 1 gs ;;
              hour <- field "H" 0 gs ;;
              minute <- field "M" 0 gs ;;
              datetime_new year month day hour minute 0 0
          end
      end
  end.

End Strptime.
Import Strptime.

(** ** Command-line options *)

(** The fields of the [optparse] options object that the embedded
    functions read.  A string option is [None] when absent; the verbs are
    flags. *)
Record options : Type := mk_options {
  date : option string;
  from_date : option string;
  to_date : option string;
  rebuild_daily : bool;
  reweight : bool;
  calc_missing : bool;
  dry_run : bool
}.

(** Truth value of an optional string: [None] and [''] are false.  The
    result is the string itself when it is true. *)
Definition truthy (o : option string) : option string :=
  match o with
  | Some s => if (s =? "")%string then None else Some s
  | None => None
  end.

Definition is_true (o : option string) : bool :=
  match truthy o with Some _ => true | None => false end.

(** ['T' in s] *)
Definition contains_T (s : string) : bool :=
  existsb (Ascii.eqb "T") (list_ascii_of_string s).

(** ** [_parse_dates] *)

Section ParseDates.

(** [datetime.datetime.strptime]; [strptime_ascii] is its model on ASCII
    text. *)
Variable strptime : string -> string -> result datetime.

Definition window : Type := (option datetime * option datetime)%type.

(** The [if options.from_date:] block: the value of [_from_dt] after it. *)
Definition resolve_from (options : options) : result (option datetime) :=
  match truthy (from_date options) with
  | Some from_s =>
      (* we have a --from but is it valid *)
      try_except_ValueError
        (d <- (if contains_T from_s
               then strptime from_s "%Y-%m-%dT%H:%M"
               else strptime from_s "%Y-%m-%d") ;;
         Ok (Some d))
        (Raise (ValueError "Invalid --from option specified."))
  | None => Ok None
  end.

(** The [if options.to_date:] block: the value of [_to_dt] after it. *)
Definition resolve_to (options : options) : result (option datetime) :=
  match truthy (to_date options) with
  | Some to_s =>
      (* we have a --to but is it valid *)
      try_except_ValueError
        (if contains_T to_s then
           d <- strptime to_s "%Y-%m-%dT%H:%M" ;; Ok (Some d)
         else
           d <- strptime to_s "%Y-%m-%d" ;;
           if rebuild_daily options || reweight options then
             Ok (Some d)
           else if calc_missing options then
             d' <- datetime_add d (timedelta_days 1) ;; Ok (Some d')
           else
             d' <- datetime_add d (timedelta_days 1) ;; Ok (Some d'))
        (Raise (ValueError "Invalid --to option specified."))
  | None => Ok None
  end.

Definition _parse_dates (options : options) : result window :=
  match truthy (date options) with
  | Some date_s =>
      (* we have a --date option, make sure we are not over specified *)
      if is_true (from_date options) || is_true (to_date options) then
        Raise (ValueError
          "Specify either --date or a --from and --to combination; not both")
      else
        _from_dt <- try_except_ValueError
                      (strptime date_s "%Y-%m-%d")
                      (Raise (ValueError "Invalid --date option specified.")) ;;
        if rebuild_daily options || reweight options then
          Ok (Some _from_dt, Some _from_dt)
        else if calc_missing options then
          _to_dt <- datetime_add _from_dt (timedelta_days 1) ;;
          _from_dt' <- datetime_add _from_dt (timedelta_seconds 1) ;;
          Ok (Some _from_dt', Some _to_dt)
        else
          _to_dt <- datetime_add _from_dt (timedelta_days 1) ;;
          Ok (Some _from_dt, Some _to_dt)
  | None =>
      (* we don't have --date so now look for --from and --to *)
      _from_dt <- resolve_from options ;;
      _to_dt <- resolve_to options ;;
      (* if we have both make sure from is no later than to *)
      match _from_dt, _to_dt with
      | Some f, Some t =>
          if datetime_ltb t f then
            Raise (ViolatedPrecondition "--from value is later than --to value.")
          else Ok (_from_dt, _to_dt)
      | _, _ => Ok (_from_dt, _to_dt)
      end
  end.

End ParseDates.

(** ** Python values read from the archive *)

(** A [float] is an IEEE 754 binary64 number. *)
Module Float.

Definition prec : Z := 53.
Definition emax : Z := 1024.

Definition float : Type := spec_float.

Definition inf : float := S754_infinity false.
Definition nan : float := S754_nan.

(** [int(x)] for a float: truncation toward zero; NaN raises [ValueError],
    an infinity raises [OverflowError]. *)
Definition int_of_float (x : float) : result Z :=
  match x with
  | S754_nan => Raise (ValueError "cannot convert float NaN to integer")
  | S754_infinity _ =>
      Raise (OverflowError "cannot convert float infinity to integer")
  | S754_zero _ => Ok 0
  | S754_finite s m e =>
      let v := if 0 <=? e then Zpos m * 2 ^ e else Zpos m / 2 ^ (- e) in
      Ok (if s then - v else v)
  end.

(** [float(n)] for an int: round to nearest, ties to even; a result beyond
    the largest finite float raises [OverflowError]. *)
Definition float_of_int (n : Z) : result float :=
  match binary_normalize prec emax n 0 false with
  | S754_infinity _ => Raise (OverflowError "int too large to convert to float")
  | x => Ok x
  end.

(** The float nearest to [m * 10^e], for [m >= 0], with sign [neg]. *)
Definition float_of_decimal (neg : bool) (m e : Z) : float :=
  match m with
  | Zpos p =>
      if 0 <=? e then binary_round prec emax neg (p * Z.to_pos (10 ^ e)) 0
      else SFdiv prec emax (S754_finite neg p 0)
                 (S754_finite false (Z.to_pos (10 ^ (- e))) 0)
  | _ => S754_zero neg
  end.

End Float.
Import Float.

(** The values the storage driver hands back for a cell: [None], [int],
    [float], [str] and [bytes].  A [str] is held as the bytes of its UTF-8
    encoding. *)
Inductive pyval : Type :=
| PyNone
| PyInt (n : Z)
| PyFloat (x : float)
| PyStr (s : string)
| PyBytes (b : list byte).

(** ** Text conversions on ASCII text *)

Module AsciiNumbers.
Import AsciiText.

(** Case-insensitive comparison with a lower-case word. *)
Definition is_word (w : string) (s : list ascii) : bool :=
  (string_of_list_ascii (map lower s) =? w)%string.

(** A maximal run of digits and underscores, split from what follows. *)
Fixpoint span_digits (s : list ascii) : list ascii * list ascii :=
  match s with
  | c :: s' =>
      if is_digit c || Ascii.eqb c "_" then
        let (a, b) := span_digits s' in (c :: a, b)
      else ([], s)
  | [] => ([], [])
  end.

(** A digit part that may be absent. *)
Definition opt_digitpart (s : list ascii) : option (list Z) :=
  match s with
  | [] => Some []
  | _ => digitpart false s
  end.

(** [exponent ::= ("e" | "E") [sign] digitpart], or nothing. *)
Definition exponent (s : list ascii) : option Z :=
  match s with
  | [] => Some 0
  | c :: s' =>
      if Ascii.eqb (lower c) "e" then
        let (neg, body) := split_sign s' in
        match digitpart false body with
        | Some ds => Some (if neg then - decimal_value ds else decimal_value ds)
        | None => None
        end
      else None
  end.

(** [float(s)] on ASCII text; [None] stands for [ValueError].
    [floatvalue ::= [sign] (floatnumber | "inf" | "infinity" | "nan")],
    [floatnumber ::= ([digitpart] "." digitpart | digitpart ["."]) [exponent]]. *)
Definition float_of_text (s : list ascii) : option float :=
  let (neg, body) := split_sign (strip s) in
  if is_word "inf" body || is_word "infinity" body then
    Some (S754_infinity neg)
  else if is_word "nan" body then Some S754_nan
  else
    let (ipart, rest) := span_digits body in
    let (fpart, rest') :=
      match rest with
      | "."%char :: r => span_digits r
      | _ => ([], rest)
      end in
    match ipart, fpart with
    | [], [] => None
    | _, _ =>
        match opt_digitpart ipart, opt_digitpart fpart, exponent rest' with
        | Some i, Some f, Some e =>
            Some (float_of_decimal neg (decimal_value (i ++ f)%list)
                                   (e - Z.of_nat (List.length f)))
        | _, _, _ => None
        end
    end.

(** [str(n)] for an int. *)
Definition str_of_int (n : Z) : string := NilZero.string_of_int (Z.to_int n).

(** *** [repr] of a float: the shortest digits that read back *)

(** [decpt num den]: the [k] with [10^(k-1) <= num/den < 10^k]. *)
Fixpoint count_up (fuel : nat) (n : Z) : Z :=
  match fuel with
  | O => 0
  | S fuel' => if n <? 1 then 0 else 1 + count_up fuel' (n / 10)
  end.

Fixpoint count_down (fuel : nat) (num den : Z) : Z :=
  match fuel with
  | O => 0
  | S fuel' => if den <=? num * 10 then 0 else 1 + count_down fuel' (num * 10) den
  end.

Definition decpt (num den : Z) : Z :=
  if den <=? num then count_up 400 (num / den)
  else - count_down 400 num den.

(** The candidates with [p] digits next to [num/den], scaled by
    [10^(k-p)]: the one below and the one above, with twice the remainder
    to tell which is nearer. *)
Definition candidates (num den k p : Z) : Z * Z * comparison :=
  let n := if 0 <=? p - k then num * 10 ^ (p - k) else num in
  let d := if 0 <=? p - k then den else den * 10 ^ (k - p) in
  let lo := n / d in
  (lo, lo + 1, (2 * (n - lo * d)) ?= d).

Definition reads_back (x : float) (m e : Z) : bool :=
  match x, float_of_decimal false m e with
  | S754_finite _ m1 e1, S754_finite _ m2 e2 => (Pos.eqb m1 m2) && (e1 =? e2)
  | _, _ => false
  end.

(** The shortest decimal [(digits, exponent)] that reads back as [x],
    nearest to [x] among those of its length. *)
Fixpoint shortest (fuel : nat) (x : float) (num den k p : Z) : Z * Z :=
  let '(lo, hi, c) := candidates num den k p in
  let e := k - p in
  let ok_lo := reads_back x lo e in
  let ok_hi := reads_back x hi e in
  let pick_lo :=
    match c with
    | Lt => true
    | Gt => false
    | Eq => Z.even lo
    end in
  match fuel with
  | O => (if pick_lo then lo else hi, e)
  | S fuel' =>
      if ok_lo && ok_hi then (if pick_lo then lo else hi, e)
      else if ok_lo then (lo, e)
      else if ok_hi then (hi, e)
      else shortest fuel' x num den k (p + 1)
  end.

Fixpoint strip_zeros (fuel : nat) (m e : Z) : Z * Z :=
  match fuel with
  | O => (m, e)
  | S fuel' =>
      if (m mod 10 =? 0) && negb (m =? 0) then strip_zeros fuel' (m / 10) (e + 1)
      else (m, e)
  end.

Definition zeros (n : Z) : string :=
  string_of_list_ascii (repeat "0"%char (Z.to_nat n)).

Definition two_digits (n : Z) : string :=
  if n <? 10 then "0" ++ str_of_int n else str_of_int n.

(** The layout of [repr]: scientific when the decimal point falls more
    than three places before or sixteen after the first digit. *)
Definition layout (digits : string) (point : Z) : string :=
  let n := Z.of_nat (String.length digits) in
  if (point <=? -4) || (16 <? point) then
    let mant :=
      match digits with
      | String c EmptyString => String c EmptyString
      | String c rest => String c ("." ++ rest)
      | EmptyString => EmptyString
      end in
    let e := point - 1 in
    mant ++ (if e <? 0 then "e-" ++ two_digits (- e) else "e+" ++ two_digits e)
  else if point <=? 0 then "0." ++ zeros (- point) ++ digits
  else if n <=? point then digits ++ zeros (point - n) ++ ".0"
  else substring 0 (Z.to_nat point) digits ++ "."
       ++ substring (Z.to_nat point) (Z.to_nat (n - point)) digits.

(** [str(x)] for a float, which is [repr(x)]. *)
Definition str_of_float (x : float) : string :=
  match x with
  | S754_nan => "nan"
  | S754_infinity s => if s then "-inf" else "inf"
  | S754_zero s => if s then "-0.0" else "0.0"
  | S754_finite s m e =>
      let num := if 0 <=? e then Zpos m * 2 ^ e else Zpos m in
      let den := if 0 <=? e then 1 else 2 ^ (- e) in
      let k := decpt num den in
      let '(d, e10) := shortest 17 x num den k 1 in
      let '(d', e10') := strip_zeros 20 d e10 in
      let digits := str_of_int d' in
      (if s then "-" else "")
      ++ layout digits (e10' + Z.of_nat (String.length digits))
  end.

End AsciiNumbers.

(** *** [bytes.decode('utf-8')] *)

Module Utf8.

Definition byte_code (b : byte) : Z := Z.of_N (Byte.to_N b).

Definition is_cont (b : byte) : bool := in_range 128 (byte_code b) 191.

(** Well-formed UTF-8 as the strict decoder accepts it: no overlong forms,
    no surrogates, nothing above U+10FFFF. *)
Fixpoint utf8_valid (bs : list byte) : bool :=
  match bs with
  | [] => true
  | b0 :: r1 =>
      let c := byte_code b0 in
      if c <=? 127 then utf8_valid r1
      else
        match r1 with
        | [] => false
        | b1 :: r2 =>
            if in_range 194 c 223 then is_cont b1 && utf8_valid r2
            else
              match r2 with
              | [] => false
              | b2 :: r3 =>
                  let c1 := byte_code b1 in
                  if in_range 224 c 239 then
                    (if c =? 224 then in_range 160 c1 191
                     else if c =? 237 then in_range 128 c1 159
                     else is_cont b1)
                    && is_cont b2 && utf8_valid r3
                  else
                    match r3 with
                    | [] => false
                    | b3 :: r4 =>
                        if in_range 240 c 244 then
                          (if c =? 240 then in_range 144 c1 191
                           else if c =? 244 then in_range 128 c1 143
                           else is_cont b1)
                          && is_cont b2 && is_cont b3 && utf8_valid r4
                        else false
                    end
              end
        end
  end.

Definition decode (bs : list byte) : option string :=
  if utf8_valid bs then Some (string_of_list_byte bs) else None.

End Utf8.

(** ** The text conversions of the runtime *)

(** The conversions between text and numbers that [int], [float], [str] and
    [bytes.decode] perform.  [None] stands for the [ValueError] (for
    [bytes_decode_utf8], the [UnicodeDecodeError]) these raise on text they
    do not accept; they raise nothing else. *)
Class TextConversions : Type := {
  int_of_str : string -> option Z;
  int_of_bytes : list byte -> option Z;
  float_of_str : string -> option float;
  float_of_bytes : list byte -> option float;
  str_of_int : Z -> string;
  str_of_float : float -> string;
  bytes_decode_utf8 : list byte -> option string
}.

(** The conversions on ASCII text.  Digits and white space outside ASCII,
    which [int] and [float] also accept in a [str], are not text this
    instance converts. *)
Definition ascii_text : TextConversions := {|
  int_of_str s := AsciiText.int_of_text (list_ascii_of_string s);
  int_of_bytes b :=
    AsciiText.int_of_text (list_ascii_of_string (string_of_list_byte b));
  float_of_str s := AsciiNumbers.float_of_text (list_ascii_of_string s);
  float_of_bytes b :=
    AsciiNumbers.float_of_text (list_ascii_of_string (string_of_list_byte b));
  str_of_int := AsciiNumbers.str_of_int;
  str_of_float := AsciiNumbers.str_of_float;
  bytes_decode_utf8 := Utf8.decode
|}.

(** ** [check_type] and [set_type] *)

Definition isinstance_int (val : pyval) : bool :=
  match val with PyInt _ => true | _ => false end.

Definition isinstance_float (val : pyval) : bool :=
  match val with PyFloat _ => true | _ => false end.

Definition isinstance_str (val : pyval) : bool :=
  match val with PyStr _ => true | _ => false end.

Definition is_None (val : pyval) : bool :=
  match val with PyNone => true | _ => false end.

Definition check_type (val : pyval) (expected : string) : result bool :=
  if (expected =? "INTEGER")%string then Ok (isinstance_int val)
  else if (expected =? "REAL")%string then Ok (isinstance_float val)
  else if (expected =? "STR")%string || (expected =? "TEXT")%string then
    Ok (isinstance_str val)
  else Raise (ValueError ("Unknown type " ++ expected)).

Section Coercion.
Context {text : TextConversions}.

Definition of_text {A : Type} (o : option A) (msg : string) : result A :=
  match o with
  | Some a => Ok a
  | None => Raise (ValueError msg)
  end.

(** [int(val)] *)
Definition py_int (val : pyval) : result Z :=
  match val with
  | PyNone => Raise (TypeError "int() argument must not be 'NoneType'")
  | PyInt n => Ok n
  | PyFloat x => int_of_float x
  | PyStr s => of_text (int_of_str s) "invalid literal for int() with base 10"
  | PyBytes b => of_text (int_of_bytes b) "invalid literal for int() with base 10"
  end.

(** [float(val)] *)
Definition py_float (val : pyval) : result float :=
  match val with
  | PyNone => Raise (TypeError "float() argument must not be 'NoneType'")
  | PyInt n => float_of_int n
  | PyFloat x => Ok x
  | PyStr s => of_text (float_of_str s) "could not convert string to float"
  | PyBytes b => of_text (float_of_bytes b) "could not convert string to float"
  end.

(** [val.decode('utf-8')] if [val] is [bytes], else [str(val)] *)
Definition py_text (val : pyval) : result string :=
  match val with
  | PyBytes b =>
      match bytes_decode_utf8 b with
      | Some s => Ok s
      | None => Raise (UnicodeDecodeError "'utf-8' codec can't decode")
      end
  | PyNone => Ok "None"
  | PyInt n => Ok (str_of_int n)
  | PyFloat x => Ok (str_of_float x)
  | PyStr s => Ok s
  end.

Definition set_type (val : pyval) (target : string) : result pyval :=
  if (target =? "INTEGER")%string then n <- py_int val ;; Ok (PyInt n)
  else if (target =? "REAL")%string then x <- py_float val ;; Ok (PyFloat x)
  else if (target =? "STR")%string || (target =? "TEXT")%string then
    s <- py_text val ;; Ok (PyStr s)
  else Raise (ValueError ("Unknown type " ++ target)).

End Coercion.

(** ** The archive table *)

(** Structural equality of cell values. *)
Definition float_eqb (x y : float) : bool :=
  match x, y with
  | S754_zero s, S754_zero t => Bool.eqb s t
  | S754_infinity s, S754_infinity t => Bool.eqb s t
  | S754_nan, S754_nan => true
  | S754_finite s m e, S754_finite t n f =>
      Bool.eqb s t && Pos.eqb m n && (e =? f)
  | _, _ => false
  end.

Definition pyval_eqb (a b : pyval) : bool :=
  match a, b with
  | PyNone, PyNone => true
  | PyInt m, PyInt n => m =? n
  | PyFloat x, PyFloat y => float_eqb x y
  | PyStr s, PyStr t => (s =? t)%string
  | PyBytes s, PyBytes t =>
      (string_of_list_byte s =? string_of_list_byte t)%string
  | _, _ => false
  end.

(** [l[i] = v] on a list that has an index [i]. *)
Fixpoint list_set {A : Type} (l : list A) (i : nat) (v : A) : list A :=
  match l, i with
  | [], _ => []
  | _ :: l', O => v :: l'
  | x :: l', S i' => x :: list_set l' i' v
  end.

Fixpoint index_of (name : string) (names : list string) : option nat :=
  match names with
  | [] => None
  | n :: names' =>
      if (n =? name)%string then Some O
      else option_map S (index_of name names')
  end.

(** [l[i]], raising [IndexError] out of range. *)
Definition index {A : Type} (l : list A) (i : nat) : result A :=
  match nth_error l i with
  | Some a => Ok a
  | None => Raise (IndexError "index out of range")
  end.

(** Modelled from the spec: the storage collaborator ([weewx.manager] and
    [weedb], which are not part of this file).  It holds the archive table:
    the schema as an ordered list of [(columnName, declaredType)], and the
    rows in ascending order of the time key, which is the first column. *)
Record dbmanager : Type := mk_dbmanager {
  schema : list (string * string);
  archive : list (list pyval)
}.

(** Modelled from the spec: [genSchemaOf('archive')], of which the scan
    reads the name ([column[1]]) and the declared type ([column[2]]). *)
Definition genSchemaOf (db : dbmanager) : list (string * string) := schema db.

(** Modelled from the spec: [genBatchRows()], the ordered row stream of the
    table, with the rows as they are when the stream is requested: a point
    write made while the stream is consumed goes to the row under
    examination, which has been read. *)
Definition genBatchRows (db : dbmanager) : list (list pyval) := archive db.

(** Modelled from the spec: what a point write does to one row: the rows
    whose time key is [timestamp] get [new_value] in column [i]. *)
Definition update_row (timestamp : pyval) (i : nat) (new_value : pyval)
    (row : list pyval) : list pyval :=
  match row with
  | key :: _ =>
      if pyval_eqb key timestamp then list_set row i new_value else row
  | [] => row
  end.

(** Code that raises and writes to the table: the table is threaded
    through, and what was written before an exception stays written. *)
Definition M (A : Type) : Type := dbmanager -> result A * dbmanager.

Definition ret {A : Type} (a : A) : M A := fun db => (Ok a, db).

Definition lift {A : Type} (r : result A) : M A := fun db => (r, db).

Definition bindM {A B : Type} (m : M A) (k : A -> M B) : M B :=
  fun db =>
    match m db with
    | (Ok a, db') => k a db'
    | (Raise e, db') => (Raise e, db')
    end.

Notation "x <~ m ;; k" := (bindM m (fun x => k))
  (at level 61, m at next level, right associativity).

(** [for x in xs: body], with the loop-carried variables in [s]. *)
Fixpoint for_each {A S : Type} (xs : list A) (body : A -> S -> M S) (s : S)
  : M S :=
  match xs with
  | [] => ret s
  | x :: xs' => s' <~ body x s ;; for_each xs' body s'
  end.

(** Modelled from the spec: [updateValue(timestamp, obs_type, new_value)],
    the point write "update column X at time-key T to value V", with the
    "no such column" error for a column the table does not have. *)
Definition updateValue (timestamp : pyval) (obs_type : string)
    (new_value : pyval) : M unit :=
  fun db =>
    match index_of obs_type (map fst (schema db)) with
    | None => (Raise (NoColumnError obs_type), db)
    | Some i =>
        (Ok tt,
         mk_dbmanager (schema db)
                      (map (update_row timestamp i new_value) (archive db)))
    end.

(** ** [check_strings] *)

(** An entry of [_found]: the 3-tuple [(record[0], obs_list[icol],
    record[icol])] of a check, or the 4-tuple of a repair, which has the
    corrected value as well. *)
Inductive found_item : Type :=
| Found3 (timestamp : pyval) (obs : string) (val : pyval)
| Found4 (timestamp : pyval) (obs : string) (val corrected_value : pyval).

(** [len(item) == 4] *)
Definition len_is_4 (item : found_item) : bool :=
  match item with Found4 _ _ _ _ => true | Found3 _ _ _ => false end.


(** The summary line that is printed, with the numbers it shows. *)
Inductive summary : Type :=
| NoNullStrings
    (* "No null strings found." *)
| AllFixed (dry_run : bool) (fixed total : nat)
    (* "%d of %d null strings found were fixed."
       (dry run: "... would have been fixed.") *)
| CouldNotFixAll (dry_run : bool) (fixed total : nat)
    (* "Could not fix all null strings. %d of %d null strings found were
       fixed." (dry run: "... would have been fixed.") *)
| FoundOnly (total : nat).
    (* "%d null strings were found. Recommend running --fix-strings to fix
       these strings." *)

(** What a scan that ends without an exception leaves behind: the number
    of records read, the list [_found], the count [fixed] and the summary.
    What is printed and logged on the way (the progress line, the list of
    entries, the timing) is not part of the model, and formatting it is
    taken not to raise. *)
Record report : Type := mk_report {
  records : nat;
  _found : list found_item;
  fixed : nat;
  outcome : summary
}.

Section Scan.
Context {text : TextConversions}.

(** The body of [for icol in range(len(record))]. *)
Definition check_column (fix_ dry_run : bool) (obs_list obs_type_list : list string)
    (record : list pyval) (icol : nat) (_found : list found_item)
  : M (list found_item) :=
  val <~ lift (index record icol) ;;
  if is_None val then ret _found
  else
    expected <~ lift (index obs_type_list icol) ;;
    good <~ lift (check_type val expected) ;;
    if good then ret _found
    else
      timestamp <~ lift (index record 0) ;;
      obs <~ lift (index obs_list icol) ;;
      if fix_ then
        (* coerce to the correct type. If it can't be done, then set it
           to None. *)
        corrected_value <~ lift (try_except_ValueError
                                   (set_type val expected) (Ok PyNone)) ;;
        (* update the database with the new value but only if it's not a
           dry run *)
        _ <~ (if dry_run then ret tt
              else updateValue timestamp obs corrected_value) ;;
        ret (_found ++ [Found4 timestamp obs val corrected_value])%list
      else
        ret (_found ++ [Found3 timestamp obs val])%list.

(** The body of [for record in dbmanager.genBatchRows()]. *)
Definition check_record (fix_ dry_run : bool) (obs_list obs_type_list : list string)
    (record : list pyval) (st : nat * list found_item)
  : M (nat * list found_item) :=
  let (records, _found) := st in
  _found' <~ for_each (seq 0 (List.length record))
                      (check_column fix_ dry_run obs_list obs_type_list record)
                      _found ;;
  ret (S records, _found').

(** The end of [check_strings]: the count [fixed] and the choice of the
    summary line. *)
Definition summarise (fix_ dry_run : bool) (_found : list found_item)
  : nat * summary :=
  let fixed := List.length (filter len_is_4 _found) in
  let total := List.length _found in
  (fixed,
   if (total =? 0)%nat then NoNullStrings
   else if (fixed =? total)%nat then AllFixed dry_run fixed total
   else if fix_ then CouldNotFixAll dry_run fixed total
   else FoundOnly total).

(** [check_strings(config_dict, db_binding, options, fix)], on the manager
    that [config_dict] and [db_binding] open. *)
Definition check_strings (options : options) (fix_ : bool) : M report :=
  fun dbmanager =>
    let obs_list := map fst (genSchemaOf dbmanager) in
    let obs_type_list := map snd (genSchemaOf dbmanager) in
    (st <~ for_each (genBatchRows dbmanager)
                    (check_record fix_ (dry_run options) obs_list obs_type_list)
                    (O, []) ;;
     let (records, _found) := st in
     let (fixed, line) := summarise fix_ (dry_run options) _found in
     ret (mk_report records _found fixed line)) dbmanager.

End Scan.


(** The declared type names the type test knows. *)
Definition known_type (declared : string) : bool :=
  (declared =? "INTEGER")%string || (declared =? "REAL")%string
  || (declared =? "STR")%string || (declared =? "TEXT")%string.

(** The type test as the spec words it, on those names: a null value is
    never a violation; otherwise ['INTEGER'] requires an int, ['REAL'] a
    float, ['STR'] and ['TEXT'] a str. *)
Definition spec_violation (val : pyval) (declared : string) : bool :=
  negb (is_None val)
  && (if (declared =? "INTEGER")%string then negb (isinstance_int val)
      else if (declared =? "REAL")%string then negb (isinstance_float val)
      else if (declared =? "STR")%string || (declared =? "TEXT")%string
      then negb (isinstance_str val)
      else false).

(** The entry of a cell in the report of a check, if it is a violation. *)
Definition cell_entry (record : list pyval) (cell : pyval * (string * string))
  : list found_item :=
  let '(val, (obs, declared)) := cell in
  if spec_violation val declared then [Found3 (hd PyNone record) obs val]
  else [].

(** The violations of a record: for each column in order, the cell when it
    is a violation. *)
Definition spec_found_in (schema : list (string * string))
    (record : list pyval) : list found_item :=
  flat_map (cell_entry record) (combine record schema).

(** The violations of a table: those of each record in order. *)
Definition spec_found (schema : list (string * string))
    (rows : list (list pyval)) : list found_item :=
  flat_map (spec_found_in schema) rows.

(** ** Well-formed tables *)

(** A record whose time key is an int. *)
Definition has_int_key (record : list pyval) : Prop :=
  exists key rest, record = PyInt key :: rest.

(** The archive tables the program creates: the column names are distinct,
    the declared types are among those the type test knows, the first
    column is the time key, declared ['INTEGER'] and holding an int in
    every record, and no record has more cells than there are columns. *)
Definition wf_table (db : dbmanager) : Prop :=
  NoDup (map fst (schema db))
  /\ Forall (fun col => known_type (snd col) = true) (schema db)
  /\ (exists obs rest, schema db = (obs, "INTEGER") :: rest)
  /\ Forall (fun record =>
               (List.length record <= List.length (schema db))%nat
               /\ has_int_key record)
            (archive db).

(** The cell in column [c] of [row], if there is one, is not a violation. *)
Definition cell_ok (schema : list (string * string)) (row : list pyval)
    (c : nat) : Prop :=
  match nth_error row c, nth_error schema c with
  | Some v, Some (_, declared) => spec_violation v declared = false
  | _, _ => True
  end.

(** What a row read as [srow] may have become in the table when the
    repair has examined the first [k] of its columns: [crow] has the same
    time key and as many cells, each of its cells is as it was read or is
    not a violation, and the first [k] are not violations. *)
Definition row_inv (schema : list (string * string)) (k : nat)
    (srow crow : list pyval) : Prop :=
  List.length crow = List.length srow
  /\ hd PyNone crow = hd PyNone srow
  /\ (forall c, nth_error crow c = nth_error srow c \/ cell_ok schema crow c)
  /\ (forall c, (c < k)%nat -> cell_ok schema crow c).

(** A row of the table that the repair is done with. *)
Definition row_done (schema : list (string * string))
    (srow crow : list pyval) : Prop :=
  row_inv schema (List.length srow) srow crow.

(** The table while the repair examines the row read as [srow], with [k]
    of its columns examined: before it are the rows read as [sdone], after
    it those that will be read as [spend]. *)
Definition table_inv (schema : list (string * string))
    (sdone : list (list pyval)) (srow : list pyval) (k : nat)
    (spend : list (list pyval)) (table : list (list pyval)) : Prop :=
  exists cdone crow cpend,
    table = (cdone ++ crow :: cpend)%list
    /\ Forall2 (row_done schema) sdone cdone
    /\ row_inv schema k srow crow
    /\ Forall2 (row_inv schema 0) spend cpend.

(** ** Example tables *)

Definition no_options : options :=
  mk_options None None None false false false false.


(** The float 72.3. *)
Definition float_72_3 : float := S754_finite false 5087660204045107 (-46).

(** Two violations under a [REAL] column: text that is a number, and text
    that is not. *)
Definition two_violations_db : dbmanager :=
  mk_dbmanager
    [("dateTime", "INTEGER"); ("outTemp", "REAL")]
    [[PyInt 1000; PyStr "72.3"];
     [PyInt 1300; PyStr "abc"]].

(** An infinite float under an [INTEGER] column. *)
Definition infinity_db : dbmanager :=
  mk_dbmanager
    [("dateTime", "INTEGER"); ("usUnits", "INTEGER"); ("interval", "INTEGER")]
    [[PyInt 1000; PyInt 1; PyFloat inf]].


(** ** Decimal numerals *)



(** ** The scan, cell by cell *)





Section RepairedTable.
Context {text : TextConversions}.

(** What a repair leaves in a cell: the value itself when it is no
    violation; otherwise the coerced value, or [None] when the coercion
    raises. *)
Definition repaired_cell (cell : pyval * (string * string)) : pyval :=
  let '(val, (_, declared)) := cell in
  if spec_violation val declared then
    match set_type val declared with
    | Ok v => v
    | Raise _ => PyNone
    end
  else val.

Definition repaired_row (schema : list (string * string))
    (record : list pyval) : list pyval :=
  map repaired_cell (combine record schema).

(** The entry of a cell in the report of a repair, if it is a violation. *)
Definition repair_entry (record : list pyval)
    (cell : pyval * (string * string)) : list found_item :=
  let '(val, (obs, declared)) := cell in
  if spec_violation val declared
  then [Found4 (hd PyNone record) obs val (repaired_cell cell)]
  else [].

Definition repair_found (schema : list (string * string))
    (rows : list (list pyval)) : list found_item :=
  flat_map (fun record => flat_map (repair_entry record)
                                   (combine record schema)) rows.

(** The row read as [record] when the repair has examined the first [k]
    of its columns. *)
Definition partly_repaired (schema : list (string * string)) (k : nat)
    (record : list pyval) : list pyval :=
  (repaired_row (firstn k schema) (firstn k record) ++ skipn k record)%list.

End RepairedTable.

(** The time keys of the rows. *)
Definition time_keys (rows : list (list pyval)) : list pyval :=
  map (hd PyNone) rows.


(** ** [dropColumns]: the names to drop *)

(** [s.split(sep)] for a separator of one character.  There is always a
    first word; [split_words] gives it and the words after it. *)
Fixpoint split_words (sep : ascii) (s : string) : string * list string :=
  match s with
  | EmptyString => (EmptyString, [])
  | String c s' =>
      let (w, ws) := split_words sep s' in
      if Ascii.eqb c sep then (EmptyString, w :: ws) else (String c w, ws)
  end.

Definition split (sep : ascii) (s : string) : list string :=
  let (w, ws) := split_words sep s in w :: ws.

(** [l.remove(x)]: the list without the first item equal to [x];
    [ValueError] when there is none. *)
Fixpoint list_remove (x : string) (l : list string) : result (list string) :=
  match l with
  | [] => Raise (ValueError "list.remove(x): x not in list")
  | y :: l' =>
      if (y =? x)%string then Ok l'
      else l'' <- list_remove x l' ;; Ok (y :: l'')
  end.

(** The start of [dropColumns]: the value of [drop_list] when the user is
    asked to confirm.  [", ".join(drop_list)] is [String.concat ", "]. *)
Definition drop_list_of (drop_columns : string) : result (list string) :=
  let drop_list := split "," drop_columns in
  (* In case the user ended the list of columns to be dropped with a
     comma, search for an empty column name *)
  try_except_ValueError (list_remove "" drop_list) (Ok drop_list).

(** A column name as the option takes it: not empty, and without a comma. *)
Definition column_name (name : string) : Prop :=
  name <> "" /\ ~ In ","%char (list_ascii_of_string name).

(** ** [main]: the checks on the options, and the choice of the action *)

Module Main.

(** The options object that [optparse] builds for the command line.  A
    verb or option declared with [action='store_true'] and no default is
    [None] when absent and [True] when given: [false] stands for [None],
    which is also its truth value.  An option of type [str] is [None] when
    absent, and may be the empty text.  [dry_run] has the default [False]. *)
Record cli : Type := mk_cli {
  create : bool;
  reconfigure : bool;
  transfer : bool;
  add_column : option string;
  type : option string;
  rename_column : option string;
  to_name : option string;
  drop_columns : option string;
  check : bool;
  update : bool;
  calc_missing : bool;
  check_strings : bool;
  fix_strings : bool;
  drop_daily : bool;
  rebuild_daily : bool;
  reweight : bool;
  date : option string;
  from_date : option string;
  to_date : option string;
  dest_binding : option string;
  dry_run : bool
}.

(** [x is not None] *)
Definition is_not_None {A : Type} (x : option A) : bool :=
  match x with Some _ => true | None => false end.

(** [sum(x is not None for x in [...])] *)
Definition verbs (options : cli) : nat :=
  list_sum (map Nat.b2n
    [create options; reconfigure options; transfer options;
     is_not_None (add_column options); is_not_None (rename_column options);
     is_not_None (drop_columns options); check options; update options;
     calc_missing options; check_strings options; fix_strings options;
     drop_daily options; rebuild_daily options; reweight options]).

(** [sys.exit(status)] and [sys.exit(message)] *)
Inductive sys_exit : Type :=
| ExitStatus (status : Z)
| ExitMessage (message : string).

(** The checks at the start of [main], on the options and the number of
    positional arguments: the exit they end in, if any. *)
Definition check_options (options : cli) (nargs : nat) : option sys_exit :=
  if (1 <? nargs)%nat then Some (ExitStatus 2)
  else if negb (verbs options =? 1)%nat then
    Some (ExitMessage "Must specify one and only one verb.")
  else if is_true (type options) && negb (is_true (add_column options)) then
    Some (ExitMessage "Option --type can only be used with option --add-column")
  else if is_true (to_name options) && negb (is_true (rename_column options))
  then
    Some (ExitMessage
            "Option --to-name can only be used with option --rename-column")
  else if is_true (rename_column options) && negb (is_true (to_name options))
  then Some (ExitMessage "Option --rename-column requires option --to-name")
  else if is_true (date options)
          && negb (calc_missing options || rebuild_daily options
                   || reweight options) then
    Some (ExitMessage
            "Option --date can only be used with options --calc-missing, --rebuild-daily, or --reweight")
  else if is_true (from_date options)
          && negb (calc_missing options || rebuild_daily options
                   || reweight options) then
    Some (ExitMessage
            "Option --from can only be used with options --calc-missing, --rebuild-daily, or --reweight")
  else if is_true (to_date options)
          && negb (calc_missing options || rebuild_daily options
                   || reweight options) then
    Some (ExitMessage
            "Option --to can only be used with options --calc-missing, --rebuild-daily, or --reweight")
  else if is_true (dest_binding options) && negb (transfer options) then
    Some (ExitMessage
            "Option --dest-binding can only be used with option --transfer")
  else None.

(** The options as [_parse_dates] and [check_strings] read them. *)
Definition options_of (o : cli) : options :=
  mk_options (date o) (from_date o) (to_date o)
             (rebuild_daily o) (reweight o) (calc_missing o) (dry_run o).

(** The function [main] calls, with the arguments it takes from the
    options: the values it passes, or the options object as the function
    reads it ([transferDatabase] reads [dest_binding] and [dry_run]).
    [config_dict] and [db_binding] are left out. *)
Inductive action : Type :=
| Call_createMainDatabase (dry_run : bool)
| Call_reconfigMainDatabase (dry_run : bool)
| Call_transferDatabase (dest_binding : option string) (dry_run : bool)
| Call_addColumn (column_name : string) (column_type : option string)
    (dry_run : bool)
| Call_renameColumn (old_column_name : string) (new_column_name : option string)
    (dry_run : bool)
| Call_dropColumns (drop_columns : string) (dry_run : bool)
| Call_check (options : options)
| Call_update (options : options)
| Call_calc_missing (options : options)
| Call_check_strings (options : options) (fix_ : bool)
| Call_dropDaily (dry_run : bool)
| Call_rebuildDaily (options : options)
| Call_reweight (options : options).

(** The [if options.create: ... elif ...] chain of [main]: the first verb
    whose value is true decides; [None] when none is.  [main] gets here
    when the checks pass and the configuration file names a database for
    the binding. *)
Definition dispatch (o : cli) : option action :=
  if create o then Some (Call_createMainDatabase (dry_run o))
  else if reconfigure o then Some (Call_reconfigMainDatabase (dry_run o))
  else if transfer o then
    Some (Call_transferDatabase (dest_binding o) (dry_run o))
  else match truthy (add_column o) with
  | Some name => Some (Call_addColumn name (type o) (dry_run o))
  | None =>
  match truthy (rename_column o) with
  | Some name => Some (Call_renameColumn name (to_name o) (dry_run o))
  | None =>
  match truthy (drop_columns o) with
  | Some names => Some (Call_dropColumns names (dry_run o))
  | None =>
  if check o then Some (Call_check (options_of o))
  else if update o then Some (Call_update (options_of o))
  else if calc_missing o then Some (Call_calc_missing (options_of o))
  else if check_strings o then Some (Call_check_strings (options_of o) false)
  else if fix_strings o then Some (Call_check_strings (options_of o) true)
  else if drop_daily o then Some (Call_dropDaily (dry_run o))
  else if rebuild_daily o then Some (Call_rebuildDaily (options_of o))
  else if reweight o then Some (Call_reweight (options_of o))
  else None
  end end end.

(** The actions that resolve a date window with [_parse_dates]. *)
Definition resolves_window (a : option action) : bool :=
  match a with
  | Some (Call_calc_missing _) | Some (Call_rebuildDaily _)
  | Some (Call_reweight _) => true
  | _ => false
  end.

End Main.

(** ** Example command lines *)

(** [--add-column=] with the empty text as the name. *)
Definition cli_add_column_empty : Main.cli :=
  Main.mk_cli false false false (Some "") None None None None
              false false false false false false false false
              None None None None false.

(** [--calc-missing --date=2023-06-15] *)
Definition cli_calc_missing_date : Main.cli :=
  Main.mk_cli false false false None None None None None
              false false true false false false false false
              (Some "2023-06-15") None None None false.

(** ** Dates written as [YYYY-mm-dd] *)

Module DateText.
Import AsciiText.

(** The character of a decimal digit. *)
Definition digit_char (n : Z) : ascii := ascii_of_N (Z.to_N (48 + n)).

(** A number below 100 with two digits, and one below 10000 with four:
    ["%02d"] and ["%04d"]. *)
Definition two_digits_text (n : Z) : string :=
  String (digit_char (n / 10)) (String (digit_char (n mod 10)) "").

Definition four_digits_text (n : Z) : string :=
  String (digit_char (n / 1000))
    (String (digit_char (n / 100 mod 10))
       (String (digit_char (n / 10 mod 10))
          (String (digit_char (n mod 10)) ""))).

(** The text [YYYY-mm-dd] of a date, as the usage text of the program
    writes the values of [--date], [--from] and [--to]. *)
Definition date_text (year month day : Z) : string :=
  four_digits_text year ++ "-" ++ two_digits_text month
  ++ "-" ++ two_digits_text day.

(** The part of the text after the year is matched by the part of the
    format after [%Y], and the month and the day are read from it. *)
Definition month_day_ok (month day : Z) : bool :=
  match compile (list_ascii_of_string "-%m-%d") with
  | None => false
  | Some ts =>
      match match_tokens ts
              (list_ascii_of_string
                 ("-" ++ two_digits_text month ++ "-" ++ two_digits_text day))
      with
      | Some (gs, []) =>
          match group "Y" gs, field "m" 1 gs, field "d" 1 gs,
                field "H" 0 gs, field "M" 0 gs with
          | None, Ok m, Ok d, Ok 0, Ok 0 => (m =? month) && (d =? day)
          | _, _, _, _, _ => false
          end
      | _ => false
      end
  end.

(** The text [YYYY-mm-ddTHH:MM] of a date and a time. *)
Definition date_time_text (year month day hour minute : Z) : string :=
  date_text year month day ++ "T" ++ two_digits_text hour
  ++ ":" ++ two_digits_text minute.

(** The alternatives of a directive. *)
Definition alts_of (c : ascii) : list (list (ascii -> bool)) :=
  match directive c with
  | Some alts => alts
  | None => []
  end.

(** The first alternative that accepts the start of a text beginning with
    [c1], [c2] takes both characters. *)
Fixpoint takes_both (alts : list (list (ascii -> bool))) (c1 c2 : ascii)
  : bool :=
  match alts with
  | [] => false
  | [p1; p2] :: alts' => (p1 c1 && p2 c2) || takes_both alts' c1 c2
  | [p1] :: alts' => negb (p1 c1) && takes_both alts' c1 c2
  | _ :: _ => false
  end.

(** A number written with two digits is matched whole by the directive
    [c], and read back. *)
Definition two_digits_ok (c : ascii) (n : Z) : bool :=
  takes_both (alts_of c) (digit_char (n / 10)) (digit_char (n mod 10))
  && match int_of_text [digit_char (n / 10); digit_char (n mod 10)] with
     | Some n' => n' =? n
     | None => false
     end.

End DateText.

Section RepairStops.
Context {text : TextConversions}.



End RepairStops.


(** * Properties *)

(** ** Dates *)

Lemma all_from_spec p n : forall lo z,
  all_from p lo n = true -> lo <= z < lo + Z.of_nat n -> p z = true.
Proof.
  induction n as [| n IH]; intros lo z H Hz; [lia |].
  cbn [all_from] in H. apply andb_prop in H. destruct H as [H1 H2].
  destruct (Z.eq_dec z lo) as [-> | Hne]; [exact H1 |].
  apply (IH (lo + 1)); [exact H2 | lia].
Qed.

Lemma calendar_table : all_from year_ok 1 (Z.to_nat 9999) = true.
Proof. vm_compute. reflexivity. Qed.

Lemma day_of_year_range y m d :
  1 <= m <= 12 -> 1 <= d <= _days_in_month y m ->
  1 <= _days_before_month y m + d <= 365 + (if _is_leap y then 1 else 0).
Proof.
  intros Hm Hd.
  assert (C : m = 1 \/ m = 2 \/ m = 3 \/ m = 4 \/ m = 5 \/ m = 6 \/ m = 7
               \/ m = 8 \/ m = 9 \/ m = 10 \/ m = 11 \/ m = 12) by lia.
  unfold _days_before_month, _days_in_month in *.
  destruct (_is_leap y);
    repeat match goal with H : _ \/ _ |- _ => destruct H end;
    subst m; cbv -[Z.add Z.le Z.lt] in *; lia.
Qed.

(** Every calendar day of the years 1 to 9999 has its ordinal in
    [1 .. _MAXORDINAL]. *)
Lemma ymd2ord_range y m d :
  1 <= y <= 9999 -> 1 <= m <= 12 -> 1 <= d <= _days_in_month y m ->
  0 < _ymd2ord y m d <= _MAXORDINAL.
Proof.
  intros Hy Hm Hd.
  assert (T : year_ok y = true)
    by (apply (all_from_spec _ _ _ _ calendar_table); lia).
  unfold year_ok in T. apply andb_prop in T. destruct T as [T _].
  apply andb_prop in T. destruct T as [T1 T2].
  apply Z.leb_le in T1, T2.
  pose proof (day_of_year_range y m d Hm Hd).
  unfold _ymd2ord. lia.
Qed.

Lemma year_step y :
  1 <= y <= 9999 ->
  _days_before_year (y + 1)
  = _days_before_year y + 365 + (if _is_leap y then 1 else 0).
Proof.
  intros Hy.
  assert (T : year_ok y = true)
    by (apply (all_from_spec _ _ _ _ calendar_table); lia).
  unfold year_ok in T. apply andb_prop in T. destruct T as [_ T].
  apply Z.eqb_eq in T. exact T.
Qed.

Lemma days_before_year_monotone y y' :
  1 <= y -> y <= y' -> y' <= 10000 ->
  _days_before_year y <= _days_before_year y'.
Proof.
  intros Hy Hle Hy'. replace y' with (y + Z.of_nat (Z.to_nat (y' - y))) in * by lia.
  induction (Z.to_nat (y' - y)) as [| n IH].
  - rewrite Z.add_0_r. lia.
  - assert (IH' : _days_before_year y <= _days_before_year (y + Z.of_nat n))
      by (apply IH; lia).
    replace (y + Z.of_nat (S n)) with (y + Z.of_nat n + 1) by lia.
    rewrite year_step by lia. destruct (_is_leap (y + Z.of_nat n)); lia.
Qed.

Lemma month_order y m d m' d' :
  1 <= m <= 12 -> 1 <= m' <= 12 -> m < m' ->
  1 <= d <= _days_in_month y m -> 1 <= d' ->
  _days_before_month y m + d < _days_before_month y m' + d'.
Proof.
  intros Hm Hm' Hlt Hd Hd'.
  assert (C : m = 1 \/ m = 2 \/ m = 3 \/ m = 4 \/ m = 5 \/ m = 6 \/ m = 7
               \/ m = 8 \/ m = 9 \/ m = 10 \/ m = 11) by lia.
  assert (C' : m' = 2 \/ m' = 3 \/ m' = 4 \/ m' = 5 \/ m' = 6 \/ m' = 7
                \/ m' = 8 \/ m' = 9 \/ m' = 10 \/ m' = 11 \/ m' = 12) by lia.
  unfold _days_before_month, _days_in_month in *.
  destruct (_is_leap y);
    repeat match goal with H : _ \/ _ |- _ => destruct H end;
    subst m m'; try lia; cbv -[Z.add Z.le Z.lt] in *; lia.
Qed.

(** The ordinal orders the calendar dates as their fields do, so comparing
    and subtracting ordinals is comparing and subtracting dates. *)
Lemma ymd2ord_monotone y m d y' m' d' :
  valid_date y m d -> valid_date y' m' d' ->
  date_lt y m d y' m' d' -> _ymd2ord y m d < _ymd2ord y' m' d'.
Proof.
  intros (Hy & Hm & Hd) (Hy' & Hm' & Hd') [Hlt | [<- [Hlt | [<- Hlt]]]];
    unfold _ymd2ord.
  - pose proof (day_of_year_range y m d Hm Hd).
    pose proof (day_of_year_range y' m' d' Hm' Hd').
    pose proof (year_step y Hy).
    pose proof (days_before_year_monotone (y + 1) y' ltac:(lia) ltac:(lia)
                  ltac:(lia)).
    lia.
  - pose proof (month_order y m d m' d' Hm Hm' Hlt Hd ltac:(lia)). lia.
  - lia.
Qed.

(** The last ordinal is 9999-12-31, and of no other date. *)
Lemma last_day y m d :
  valid_date y m d ->
  (_ymd2ord y m d = _MAXORDINAL <-> y = 9999 /\ m = 12 /\ d = 31).
Proof.
  intros V.
  assert (V' : valid_date 9999 12 31) by (repeat split; vm_compute; discriminate).
  assert (L : _ymd2ord 9999 12 31 = _MAXORDINAL) by reflexivity.
  split; [| intros (-> & -> & ->); exact L].
  intros E.
  destruct (Z.eq_dec y 9999) as [-> | Hy].
  - destruct (Z.eq_dec m 12) as [-> | Hm].
    + destruct (Z.eq_dec d 31) as [-> | Hd]; [auto |].
      assert (Hlt : date_lt 9999 12 d 9999 12 31).
      { destruct V as (_ & _ & Hd'). change (_days_in_month 9999 12) with 31 in Hd'.
        unfold date_lt. lia. }
      pose proof (ymd2ord_monotone _ _ _ _ _ _ V V' Hlt). lia.
    + assert (Hlt : date_lt 9999 m d 9999 12 31)
        by (destruct V as (_ & ? & _); unfold date_lt; lia).
      pose proof (ymd2ord_monotone _ _ _ _ _ _ V V' Hlt). lia.
  - assert (Hlt : date_lt y m d 9999 12 31)
      by (destruct V as (? & _ & _); unfold date_lt; lia).
    pose proof (ymd2ord_monotone _ _ _ _ _ _ V V' Hlt). lia.
Qed.

Lemma datetime_new_fields y m d h mi sec us dt :
  datetime_new y m d h mi sec us = Ok dt ->
  dt = mk_datetime (_ymd2ord y m d) (h * 3600 + mi * 60 + sec) us
  /\ 1 <= y <= 9999 /\ 1 <= m <= 12 /\ 1 <= d <= _days_in_month y m
  /\ 0 <= h <= 23 /\ 0 <= mi <= 59 /\ 0 <= sec <= 59 /\ 0 <= us <= 999999.
Proof.
  unfold datetime_new, in_range.
  repeat match goal with
         | |- context [if negb ?b then _ else _] =>
             destruct b eqn:?; cbn [negb]; [| discriminate]
         end.
  intros E; injection E as <-.
  repeat match goal with
         | H : (_ && _)%bool = true |- _ => apply andb_prop in H; destruct H
         | H : (_ <=? _) = true |- _ => apply Z.leb_le in H
         end.
  repeat split; assumption.
Qed.

Lemma datetime_new_normal y m d h mi sec us dt :
  datetime_new y m d h mi sec us = Ok dt -> normal dt.
Proof.
  intros E. apply datetime_new_fields in E.
  destruct E as (-> & Hy & Hm & Hd & Hh & Hmi & Hs & Hus).
  unfold normal; cbn [ordinal second_of_day microsecond].
  split; [apply ymd2ord_range; assumption | lia].
Qed.

(** *** The ASCII [strptime] *)

Lemma bind_Ok {A B} (r : result A) (k : A -> result B) b :
  bind r k = Ok b -> exists a, r = Ok a /\ k a = Ok b.
Proof. destruct r as [a | e]; cbn; [eauto | discriminate]. Qed.

(** What [strptime_ascii] returns, the [datetime] constructor built. *)
Lemma strptime_ascii_normal s fmt d :
  strptime_ascii s fmt = Ok d -> normal d.
Proof.
  unfold strptime_ascii.
  destruct (compile _) as [ts |]; [| discriminate].
  destruct (match_tokens _ _) as [[gs [| c rest]] |]; try discriminate.
  intros E.
  repeat (apply bind_Ok in E; destruct E as (? & _ & E)).
  eapply datetime_new_normal; eassumption.
Qed.

Lemma match_tokens_names ts : forall s gs r,
  match_tokens ts s = Some (gs, r) -> map fst gs = token_names ts.
Proof.
  induction ts as [| t ts IH]; intros s gs r.
  - cbn. intros E; injection E as <- <-. reflexivity.
  - destruct t as [c | name alts]; cbn [match_tokens token_names flat_map].
    + destruct s as [| x s']; [discriminate |].
      destruct (eqb_nocase c x); [apply IH | discriminate].
    + induction alts as [| a alts IHa]; [discriminate |].
      destruct (match_seq a s) as [[m r0] |]; [| exact IHa].
      destruct (match_tokens ts r0) as [[gs0 r1] |] eqn:E0; [| exact IHa].
      intros E; injection E as <- <-. cbn. f_equal. eapply IH; eassumption.
Qed.

Lemma group_absent name gs :
  ~ In name (map fst gs) -> group name gs = None.
Proof.
  induction gs as [| [n m] gs IH]; cbn; [reflexivity |].
  intros H. destruct (Ascii.eqb n name) eqn:E.
  - apply Ascii.eqb_eq in E. tauto.
  - apply IH. tauto.
Qed.

(** With the format [%Y-%m-%d] the time of day is midnight. *)
Lemma strptime_ascii_date_midnight s d :
  strptime_ascii s "%Y-%m-%d" = Ok d -> is_midnight d.
Proof.
  unfold strptime_ascii.
  destruct (compile _) as [ts |] eqn:C; [| discriminate].
  destruct (match_tokens _ _) as [[gs [| c rest]] |] eqn:Mt; try discriminate.
  apply match_tokens_names in Mt.
  assert (N : option_map token_names
                (compile (list_ascii_of_string "%Y-%m-%d"))
              = Some ["Y"; "m"; "d"]%char) by reflexivity.
  rewrite C in N. injection N as N. rewrite N in Mt.
  assert (HH : field "H" 0 gs = Ok 0).
  { unfold field. rewrite group_absent; [reflexivity |].
    rewrite Mt. cbn. intuition discriminate. }
  assert (HM : field "M" 0 gs = Ok 0).
  { unfold field. rewrite group_absent; [reflexivity |].
    rewrite Mt. cbn. intuition discriminate. }
  rewrite HH, HM. intros E.
  repeat (apply bind_Ok in E; destruct E as (? & ? & E)).
  repeat match goal with H : Ok 0 = Ok _ |- _ => injection H as <- end.
  apply datetime_new_fields in E. destruct E as (-> & _).
  split; reflexivity.
Qed.

(** *** Arithmetic on normal datetimes *)

Lemma datetime_ltb_false_leb a b :
  datetime_ltb b a = false -> datetime_leb a b = true.
Proof. unfold datetime_ltb, datetime_leb. lia. Qed.

Lemma datetime_leb_refl a : datetime_leb a a = true.
Proof. unfold datetime_leb. lia. Qed.

Lemma add_one_day d :
  normal d ->
  datetime_add d (timedelta_days 1)
  = if ordinal d <? _MAXORDINAL
    then Ok (mk_datetime (ordinal d + 1) (second_of_day d) (microsecond d))
    else Raise (OverflowError "date value out of range").
Proof.
  intros (Ho & Hs & Hu). unfold datetime_add, timedelta_days.
  cbn [days seconds microseconds].
  rewrite !Z.add_0_r, (Z.div_small (microsecond d)), Z.add_0_r by lia.
  rewrite (Z.div_small (second_of_day d)), Z.add_0_r by lia.
  rewrite !Z.mod_small by lia.
  destruct (ordinal d <? _MAXORDINAL) eqn:E.
  - apply Z.ltb_lt in E.
    replace ((0 <? ordinal d + 1) && (ordinal d + 1 <=? _MAXORDINAL))%bool
      with true by lia.
    reflexivity.
  - apply Z.ltb_ge in E.
    replace ((0 <? ordinal d + 1) && (ordinal d + 1 <=? _MAXORDINAL))%bool
      with false by lia.
    reflexivity.
Qed.

Lemma add_one_second d :
  normal d ->
  datetime_add d (timedelta_seconds 1)
  = if second_of_day d <? 86399
    then Ok (mk_datetime (ordinal d) (second_of_day d + 1) (microsecond d))
    else if ordinal d <? _MAXORDINAL
    then Ok (mk_datetime (ordinal d + 1) 0 (microsecond d))
    else Raise (OverflowError "date value out of range").
Proof.
  intros (Ho & Hs & Hu). unfold datetime_add, timedelta_seconds.
  change (1 / 86400) with 0. change (1 mod 86400) with 1.
  cbn [days seconds microseconds].
  rewrite !Z.add_0_r, (Z.div_small (microsecond d)), Z.add_0_r by lia.
  rewrite (Z.mod_small (microsecond d)) by lia.
  destruct (second_of_day d <? 86399) eqn:E.
  - apply Z.ltb_lt in E.
    rewrite (Z.div_small (second_of_day d + 1)), Z.add_0_r by lia.
    rewrite Z.mod_small by lia.
    replace ((0 <? ordinal d) && (ordinal d <=? _MAXORDINAL))%bool
      with true by lia.
    reflexivity.
  - apply Z.ltb_ge in E.
    assert (S : second_of_day d = 86399) by lia. rewrite S.
    change ((86399 + 1) / 86400) with 1. change ((86399 + 1) mod 86400) with 0.
    destruct (ordinal d <? _MAXORDINAL) eqn:E'.
    + apply Z.ltb_lt in E'.
      replace ((0 <? ordinal d + 1) && (ordinal d + 1 <=? _MAXORDINAL))%bool
        with true by lia.
      reflexivity.
    + apply Z.ltb_ge in E'.
      replace ((0 <? ordinal d + 1) && (ordinal d + 1 <=? _MAXORDINAL))%bool
        with false by lia.
      reflexivity.
Qed.

(** *** The resolved window *)

Section ParseDatesFacts.

(** The facts hold of any [strptime] that returns values the [datetime]
    constructor builds, at midnight when the format has no time of day;
    [strptime_ascii] is one. *)
Variable strptime : string -> string -> result datetime.
Hypothesis strptime_normal :
  forall s fmt d, strptime s fmt = Ok d -> normal d.
Hypothesis strptime_date_midnight :
  forall s d, strptime s "%Y-%m-%d" = Ok d -> is_midnight d.

(** C3.  With a valid [--date] and rebuild-daily or reweight as the consumer,
    the window is one instant: start and end are both the parsed date, which
    is midnight at the start of that day. *)
Theorem date_rebuild_window (o : options) (s : string) (d : datetime) :
  truthy (date o) = Some s ->
  is_true (from_date o) = false -> is_true (to_date o) = false ->
  (rebuild_daily o || reweight o)%bool = true ->
  strptime s "%Y-%m-%d" = Ok d ->
  _parse_dates strptime o = Ok (Some d, Some d) /\ is_midnight d.
Proof.
  intros Hd Hf Ht Hv Hp. split; [| eapply strptime_date_midnight; eassumption].
  unfold _parse_dates. rewrite Hd, Hf, Ht. cbn [orb].
  rewrite Hp. cbn [try_except_ValueError bind]. rewrite Hv. reflexivity.
Qed.

(** C2, amended.  With a valid [--date] and calc-missing as the consumer,
    the window runs from one second after midnight of that day to midnight
    of the next day, for every date but the last one the calendar has
    (9999-12-31), where adding the day raises [OverflowError]. *)
Theorem date_calc_missing_window (o : options) (s : string) (d : datetime) :
  truthy (date o) = Some s ->
  is_true (from_date o) = false -> is_true (to_date o) = false ->
  (rebuild_daily o || reweight o)%bool = false -> calc_missing o = true ->
  strptime s "%Y-%m-%d" = Ok d ->
  _parse_dates strptime o
  = if ordinal d <? _MAXORDINAL
    then Ok (Some (mk_datetime (ordinal d) 1 0),
             Some (mk_datetime (ordinal d + 1) 0 0))
    else Raise (OverflowError "date value out of range").
Proof.
  intros Hd Hf Ht Hv Hc Hp.
  pose proof (strptime_normal _ _ _ Hp) as Hn.
  destruct (strptime_date_midnight _ _ Hp) as [Hs Hu].
  unfold _parse_dates. rewrite Hd, Hf, Ht. cbn [orb].
  rewrite Hp. cbn [try_except_ValueError bind]. rewrite Hv, Hc.
  rewrite add_one_day by assumption.
  destruct (ordinal d <? _MAXORDINAL); [| reflexivity].
  cbn [bind]. rewrite add_one_second by assumption.
  rewrite Hs, Hu. reflexivity.
Qed.

(** A date-only [--to]: what the [--to] block yields. *)
Lemma resolve_to_date_only (o : options) (s : string) (d : datetime) :
  truthy (to_date o) = Some s -> contains_T s = false ->
  strptime s "%Y-%m-%d" = Ok d ->
  resolve_to strptime o
  = if (rebuild_daily o || reweight o)%bool then Ok (Some d)
    else if ordinal d <? _MAXORDINAL
    then Ok (Some (mk_datetime (ordinal d + 1) 0 0))
    else Raise (OverflowError "date value out of range").
Proof.
  intros Ht HT Hp.
  pose proof (strptime_normal _ _ _ Hp) as Hn.
  destruct (strptime_date_midnight _ _ Hp) as [Hs Hu].
  unfold resolve_to. rewrite Ht, HT, Hp. cbn [bind].
  destruct (rebuild_daily o || reweight o)%bool; [reflexivity |].
  assert (A : (if calc_missing o
               then d' <- datetime_add d (timedelta_days 1);; Ok (Some d')
               else d' <- datetime_add d (timedelta_days 1);; Ok (Some d'))
              = (d' <- datetime_add d (timedelta_days 1);; Ok (Some d')))
    by (destruct (calc_missing o); reflexivity).
  rewrite A, add_one_day by assumption.
  destruct (ordinal d <? _MAXORDINAL); [| reflexivity].
  cbn [try_except_ValueError bind]. rewrite Hs, Hu. reflexivity.
Qed.

(** C1.  When [--to] is date-only and resolution returns a window, the end
    of the window is the parsed day itself (its midnight) for rebuild-daily
    and reweight, and midnight of the following day for calc-missing (as
    for any other consumer). *)
Theorem to_date_only_end (o : options) (s : string) (d : datetime)
    (f t : option datetime) :
  truthy (to_date o) = Some s -> contains_T s = false ->
  strptime s "%Y-%m-%d" = Ok d ->
  _parse_dates strptime o = Ok (f, t) ->
  is_midnight d
  /\ ((rebuild_daily o || reweight o)%bool = true -> t = Some d)
  /\ ((rebuild_daily o || reweight o)%bool = false ->
      t = Some (mk_datetime (ordinal d + 1) 0 0)).
Proof.
  intros Ht HT Hp.
  pose proof (resolve_to_date_only o s d Ht HT Hp) as R.
  intros H. split; [eapply strptime_date_midnight; eassumption |].
  revert H. unfold _parse_dates.
  destruct (truthy (date o)) as [ds |].
  { assert (Hto : is_true (to_date o) = true)
      by (unfold is_true; rewrite Ht; reflexivity).
    rewrite Hto, orb_true_r. discriminate. }
  destruct (resolve_from strptime o) as [f0 | e]; [| discriminate].
  cbn [bind]. rewrite R.
  assert (E : forall t0 : datetime,
             match f0 with
             | Some f1 =>
                 if datetime_ltb t0 f1
                 then Raise (ViolatedPrecondition
                               "--from value is later than --to value.")
                 else Ok (f0, Some t0)
             | None => Ok (f0, Some t0)
             end = Ok (f, t) -> t = Some t0).
  { intros t0. destruct f0 as [f1 |];
      try destruct (datetime_ltb t0 f1); try discriminate;
      intros E; injection E as _ <-; reflexivity. }
  destruct (rebuild_daily o || reweight o)%bool.
  - cbn [bind]. intros H. apply E in H.
    split; [intros _; exact H | discriminate].
  - destruct (ordinal d <? _MAXORDINAL); [| discriminate].
    cbn [bind]. intros H. apply E in H.
    split; [discriminate | intros _; exact H].
Qed.

(** C5.  A window returned with both bounds has [start <= end], in the
    [--date] branch as in the [--from]/[--to] branch; and when [--from] and
    [--to] resolve to [f] and [t], the result is the exception
    [ViolatedPrecondition] if [t < f] and exactly [(f, t)] otherwise: the
    bounds are neither swapped nor clamped. *)
Theorem window_ordered_or_rejected (o : options) :
  (forall s e : datetime,
      _parse_dates strptime o = Ok (Some s, Some e) -> datetime_leb s e = true)
  /\ (forall f t : datetime,
         truthy (date o) = None ->
         resolve_from strptime o = Ok (Some f) ->
         resolve_to strptime o = Ok (Some t) ->
         _parse_dates strptime o
         = if datetime_ltb t f
           then Raise (ViolatedPrecondition
                         "--from value is later than --to value.")
           else Ok (Some f, Some t)).
Proof.
  split.
  - intros s e. unfold _parse_dates.
    destruct (truthy (date o)) as [ds |].
    + destruct (is_true (from_date o) || is_true (to_date o))%bool;
        [discriminate |].
      destruct (strptime ds "%Y-%m-%d") as [d | ex] eqn:Hp;
        [| cbn; destruct (is_ValueError ex); discriminate].
      pose proof (strptime_normal _ _ _ Hp) as Hn.
      cbn [try_except_ValueError bind].
      destruct (rebuild_daily o || reweight o)%bool.
      { intros E; injection E as <- <-. apply datetime_leb_refl. }
      assert (D : forall k : datetime -> result window,
                 (ordinal d < _MAXORDINAL ->
                    k (mk_datetime (ordinal d + 1) (second_of_day d)
                                   (microsecond d)) = Ok (Some s, Some e) ->
                    datetime_leb s e = true) ->
                 bind (datetime_add d (timedelta_days 1)) k
                 = Ok (Some s, Some e) -> datetime_leb s e = true).
      { intros k Hk. rewrite add_one_day by assumption.
        destruct (ordinal d <? _MAXORDINAL) eqn:Ho; [| discriminate].
        apply Z.ltb_lt in Ho. cbn [bind]. apply Hk, Ho. }
      destruct (calc_missing o); apply D; intros Ho.
      * rewrite add_one_second by assumption.
        destruct Hn as (? & ? & ?).
        destruct (second_of_day d <? 86399) eqn:Hs.
        -- cbn [bind]. intros E; injection E as <- <-.
           unfold datetime_leb; cbn. lia.
        -- apply Z.ltb_ge in Hs.
           destruct (ordinal d <? _MAXORDINAL); [| discriminate].
           cbn [bind]. intros E; injection E as <- <-.
           unfold datetime_leb; cbn. lia.
      * intros E; injection E as <- <-. unfold datetime_leb; cbn. lia.
    + destruct (resolve_from strptime o) as [[f |] | ex]; [| | discriminate];
        cbn [bind];
        (destruct (resolve_to strptime o) as [[t |] | ex']; [| | discriminate]);
        cbn [bind]; try discriminate.
      destruct (datetime_ltb t f) eqn:L; [discriminate |].
      intros E; injection E as <- <-. apply datetime_ltb_false_leb, L.
  - intros f t Hd Hf Ht. unfold _parse_dates. rewrite Hd, Hf, Ht. reflexivity.
Qed.

End ParseDatesFacts.

(** *** The window on concrete command lines *)

(** [--rebuild-daily --date=2023-06-15]: start and end are both midnight
    of 2023-06-15, the day with ordinal 738686. *)
Lemma date_rebuild_window_witness :
  _parse_dates strptime_ascii
    (mk_options (Some "2023-06-15") None None true false false false)
  = Ok (Some (mk_datetime 738686 0 0), Some (mk_datetime 738686 0 0))
  /\ is_midnight (mk_datetime 738686 0 0).
Proof.
  apply (date_rebuild_window strptime_ascii strptime_ascii_date_midnight
           _ "2023-06-15");
    vm_compute; reflexivity.
Defined.

(** [--calc-missing --date=2023-06-15] resolves to start 2023-06-15T00:00:01
    and end 2023-06-16T00:00:00. *)
Lemma date_calc_missing_window_witness :
  _parse_dates strptime_ascii
    (mk_options (Some "2023-06-15") None None false false true false)
  = Ok (Some (mk_datetime 738686 1 0), Some (mk_datetime 738687 0 0)).
Proof.
  apply (date_calc_missing_window strptime_ascii strptime_ascii_normal
           strptime_ascii_date_midnight _ "2023-06-15"
           (mk_datetime 738686 0 0));
    vm_compute; reflexivity.
Defined.

Example datetime_2023_06_15_00_00_01 :
  datetime_new 2023 6 15 0 0 1 0 = Ok (mk_datetime 738686 1 0).
Proof. reflexivity. Qed.

Example datetime_2023_06_16_00_00_00 :
  datetime_new 2023 6 16 0 0 0 0 = Ok (mk_datetime 738687 0 0).
Proof. reflexivity. Qed.

(** [--calc-missing --date=9999-12-31]: the date is valid, and resolution
    raises [OverflowError] instead of returning a window. *)
Lemma date_calc_missing_last_day :
  strptime_ascii "9999-12-31" "%Y-%m-%d" = Ok (mk_datetime _MAXORDINAL 0 0)
  /\ _parse_dates strptime_ascii
       (mk_options (Some "9999-12-31") None None false false true false)
     = Raise (OverflowError "date value out of range").
Proof. split; vm_compute; reflexivity. Qed.

(** [--calc-missing --from=2023-06-01 --to=2023-06-30]: the end is midnight
    of 2023-07-01. *)
Lemma to_date_only_end_witness :
  _parse_dates strptime_ascii
    (mk_options None (Some "2023-06-01") (Some "2023-06-30")
                false false true false)
  = Ok (Some (mk_datetime 738672 0 0), Some (mk_datetime 738702 0 0))
  /\ Some (mk_datetime 738702 0 0) = Some (mk_datetime (738701 + 1) 0 0).
Proof.
  split; [vm_compute; reflexivity |].
  refine (proj2 (proj2 (to_date_only_end strptime_ascii strptime_ascii_normal
            strptime_ascii_date_midnight
            (mk_options None (Some "2023-06-01") (Some "2023-06-30")
                        false false true false)
            "2023-06-30" (mk_datetime 738701 0 0)
            (Some (mk_datetime 738672 0 0)) (Some (mk_datetime 738702 0 0))
            _ _ _ _)) _);
    vm_compute; reflexivity.
Defined.

(** [--rebuild-daily --from=2023-06-01 --to=2023-06-30]: the end stays at
    midnight of 2023-06-30. *)
Example to_date_only_end_rebuild :
  _parse_dates strptime_ascii
    (mk_options None (Some "2023-06-01") (Some "2023-06-30")
                true false false false)
  = Ok (Some (mk_datetime 738672 0 0), Some (mk_datetime 738701 0 0)).
Proof. vm_compute. reflexivity. Qed.

(** [--calc-missing --date=2023-06-15] returns an ordered window, and
    [--calc-missing --from=2023-07-02 --to=2023-06-30] is rejected. *)
Lemma window_ordered_or_rejected_witness :
  datetime_leb (mk_datetime 738686 1 0) (mk_datetime 738687 0 0) = true
  /\ _parse_dates strptime_ascii
       (mk_options None (Some "2023-07-02") (Some "2023-06-30")
                   false false true false)
     = Raise (ViolatedPrecondition "--from value is later than --to value.").
Proof.
  split.
  - apply (proj1 (window_ordered_or_rejected strptime_ascii
                    strptime_ascii_normal
                    (mk_options (Some "2023-06-15") None None
                                false false true false))).
    vm_compute; reflexivity.
  - apply (proj2 (window_ordered_or_rejected strptime_ascii
                    strptime_ascii_normal
                    (mk_options None (Some "2023-07-02") (Some "2023-06-30")
                                false false true false))
             (mk_datetime 738703 0 0) (mk_datetime 738702 0 0));
      vm_compute; reflexivity.
Defined.

(** ** The type test and the coercion *)

Lemma known_type_cases t :
  known_type t = true ->
  t = "INTEGER" \/ t = "REAL" \/ t = "STR" \/ t = "TEXT".
Proof.
  unfold known_type. intros H.
  repeat (apply orb_prop in H; destruct H as [H | H]);
    apply String.eqb_eq in H; auto.
Qed.

Lemma unknown_type_eqb t :
  t <> "INTEGER" -> t <> "REAL" -> t <> "STR" -> t <> "TEXT" ->
  (t =? "INTEGER")%string = false /\ (t =? "REAL")%string = false
  /\ (t =? "STR")%string = false /\ (t =? "TEXT")%string = false.
Proof. intros. repeat split; apply String.eqb_neq; assumption. Qed.

(** C10.  For a declared type name other than ['INTEGER'], ['REAL'],
    ['STR'] and ['TEXT'], the type test and the coercion both raise
    [ValueError("Unknown type ...")], whatever the value. *)
Theorem unknown_type_raises {text : TextConversions} (val : pyval) (t : string) :
  t <> "INTEGER" -> t <> "REAL" -> t <> "STR" -> t <> "TEXT" ->
  check_type val t = Raise (ValueError ("Unknown type " ++ t))
  /\ set_type val t = Raise (ValueError ("Unknown type " ++ t)).
Proof.
  intros H1 H2 H3 H4.
  destruct (unknown_type_eqb t H1 H2 H3 H4) as (E1 & E2 & E3 & E4).
  unfold check_type, set_type. rewrite E1, E2, E3, E4. split; reflexivity.
Qed.

(** The name ['STRING'] is not accepted by either function. *)
Lemma unknown_type_raises_witness :
  check_type (PyStr "abc") "STRING" = Raise (ValueError "Unknown type STRING")
  /\ set_type (text := ascii_text) (PyStr "abc") "STRING"
     = Raise (ValueError "Unknown type STRING").
Proof.
  apply (unknown_type_raises (text := ascii_text) (PyStr "abc") "STRING");
    discriminate.
Defined.

(** On a name the code knows and a value that is not null, the type test
    fails exactly on the spec's violations. *)
Lemma check_type_known val t :
  known_type t = true -> is_None val = false ->
  check_type val t = Ok (negb (spec_violation val t)).
Proof.
  intros K N. unfold check_type, spec_violation. rewrite N. cbn [negb andb].
  destruct (known_type_cases t K) as [-> | [-> | [-> | ->]]];
    cbn; rewrite negb_involutive; reflexivity.
Qed.

(** A coerced value passes the type test. *)
Lemma set_type_check_type {text : TextConversions} val t v :
  set_type val t = Ok v -> check_type v t = Ok true.
Proof.
  unfold set_type, check_type.
  destruct (t =? "INTEGER")%string.
  { destruct (py_int val); cbn; [| discriminate].
    intros E; injection E as <-; reflexivity. }
  destruct (t =? "REAL")%string.
  { destruct (py_float val); cbn; [| discriminate].
    intros E; injection E as <-; reflexivity. }
  destruct ((t =? "STR")%string || (t =? "TEXT")%string)%bool; [| discriminate].
  destruct (py_text val); cbn; [| discriminate].
  intros E; injection E as <-; reflexivity.
Qed.

(** ** Loops that raise and write *)

Lemma bindM_Ok {A B} (m : M A) (k : A -> M B) db b db' :
  bindM m k db = (Ok b, db') ->
  exists a db1, m db = (Ok a, db1) /\ k a db1 = (Ok b, db').
Proof.
  unfold bindM. destruct (m db) as [[a | e] db1]; [eauto | discriminate].
Qed.

(** A property of the loop-carried variables that every iteration keeps
    holds when the loop ends. *)
Lemma for_each_invariant {A S} (P : S -> Prop) (body : A -> S -> M S) xs :
  (forall x s db s' db', P s -> body x s db = (Ok s', db') -> P s') ->
  forall s db s' db',
    P s -> for_each xs body s db = (Ok s', db') -> P s'.
Proof.
  intros Hb. induction xs as [| x xs IH]; intros s db s' db' Hs.
  - cbn. intros E; injection E as <- _. exact Hs.
  - cbn [for_each]. intros E. apply bindM_Ok in E.
    destruct E as (s1 & db1 & E1 & E2). eauto.
Qed.



(** ** The scan *)

Section ScanFacts.
Context {text : TextConversions}.

Lemma index_of_In name names :
  In name names -> exists i, index_of name names = Some i.
Proof.
  induction names as [| n names IH]; [contradiction |].
  intros H. cbn. destruct (String.eqb_spec n name) as [_ | Hne]; [eauto |].
  destruct H as [H | H]; [contradiction |].
  destruct (IH H) as (i & ->). cbn. eauto.
Qed.

(** A point write to a column of the schema succeeds and keeps the
    schema. *)
Lemma updateValue_column ts obs v db :
  In obs (map fst (schema db)) ->
  exists table, updateValue ts obs v db = (Ok tt, mk_dbmanager (schema db) table).
Proof.
  intros H. unfold updateValue. destruct (index_of_In _ _ H) as (i & ->). eauto.
Qed.







(** *** What a check finds *)

Lemma index_Some {A} (l : list A) i a : nth_error l i = Some a -> index l i = Ok a.
Proof. unfold index. intros ->. reflexivity. Qed.

Lemma skipn_nth_error {A} (l : list A) : forall k a,
  nth_error l k = Some a -> skipn k l = a :: skipn (S k) l.
Proof.
  induction l as [| x l IH]; intros [| k] a; cbn; try discriminate.
  - intros E; injection E as ->. reflexivity.
  - intros E. apply IH in E. exact E.
Qed.

Lemma check_column_check dry schema record icol found db val obs declared :
  nth_error record icol = Some val ->
  nth_error schema icol = Some (obs, declared) ->
  known_type declared = true ->
  check_column false dry (map fst schema) (map snd schema) record icol found db
  = (Ok (found ++ cell_entry record (val, (obs, declared)))%list, db).
Proof.
  intros Hv Hc K. unfold check_column, bindM, lift, ret, cell_entry.
  rewrite (index_Some _ _ _ Hv).
  destruct (is_None val) eqn:N.
  { unfold spec_violation. rewrite N. cbn. rewrite app_nil_r. reflexivity. }
  rewrite (index_Some _ _ declared) by (rewrite nth_error_map, Hc; reflexivity).
  rewrite (check_type_known _ _ K N).
  destruct (spec_violation val declared); cbn [negb].
  - assert (H0 : index record 0 = Ok (hd PyNone record)).
    { destruct record as [| x r]; [destruct icol; discriminate | reflexivity]. }
    rewrite H0.
    rewrite (index_Some _ _ obs) by (rewrite nth_error_map, Hc; reflexivity).
    reflexivity.
  - rewrite app_nil_r. reflexivity.
Qed.

Lemma check_columns_check dry schema record db :
  Forall (fun col => known_type (snd col) = true) schema ->
  (List.length record <= List.length schema)%nat ->
  forall n k found,
    (k + n = List.length record)%nat ->
    for_each (seq k n)
             (check_column false dry (map fst schema) (map snd schema) record)
             found db
    = (Ok (found ++ flat_map (cell_entry record)
                             (combine (skipn k record) (skipn k schema)))%list,
       db).
Proof.
  intros K L. induction n as [| n IH]; intros k found Hk.
  - cbn [seq for_each ret]. rewrite skipn_all2 by lia. cbn.
    rewrite app_nil_r. reflexivity.
  - cbn [seq for_each]. unfold bindM.
    destruct (nth_error record k) as [val |] eqn:Hv;
      [| apply nth_error_None in Hv; lia].
    destruct (nth_error schema k) as [[obs declared] |] eqn:Hc;
      [| apply nth_error_None in Hc; lia].
    assert (Kd : known_type declared = true).
    { rewrite Forall_forall in K.
      apply (K (obs, declared)). eapply nth_error_In; eassumption. }
    rewrite (check_column_check dry schema record k found db _ _ _ Hv Hc Kd).
    rewrite IH by lia.
    rewrite (skipn_nth_error _ _ _ Hv), (skipn_nth_error _ _ _ Hc).
    cbn [combine flat_map]. rewrite app_assoc. reflexivity.
Qed.

Lemma check_records_check dry schema db rows :
  Forall (fun col => known_type (snd col) = true) schema ->
  Forall (fun record => (List.length record <= List.length schema)%nat) rows ->
  forall n found,
    for_each rows (check_record false dry (map fst schema) (map snd schema))
             (n, found) db
    = (Ok ((n + List.length rows)%nat, (found ++ spec_found schema rows)%list),
       db).
Proof.
  intros K. induction rows as [| record rows IH]; intros L n found.
  - cbn. rewrite Nat.add_0_r, app_nil_r. reflexivity.
  - inversion L as [| ? ? Lr Lrows]; subst.
    cbn [for_each]. unfold bindM at 1. unfold check_record at 1.
    unfold bindM at 1.
    rewrite (check_columns_check dry schema record db K Lr
               (List.length record) 0 found eq_refl).
    cbn [skipn ret]. rewrite IH by assumption.
    unfold spec_found. cbn [flat_map List.length].
    rewrite app_assoc, Nat.add_succ_r. reflexivity.
Qed.







(** *** What a repair records *)

(** What the repair of a violation records and writes: the coerced value
    when the coercion returns one, [None] when it raises [ValueError] (or
    its subclass [UnicodeDecodeError]); any other exception ends the scan. *)
Lemma repair_records_coercion dry sch record icol found db val obs declared :
  schema db = sch ->
  nth_error record icol = Some val ->
  nth_error sch icol = Some (obs, declared) ->
  check_type val declared = Ok false -> is_None val = false ->
  check_column true dry (map fst sch) (map snd sch) record icol found db
  = match set_type val declared with
    | Ok v =>
        (Ok (found ++ [Found4 (hd PyNone record) obs val v])%list,
         if dry then db
         else snd (updateValue (hd PyNone record) obs v db))
    | Raise e =>
        if is_ValueError e then
          (Ok (found ++ [Found4 (hd PyNone record) obs val PyNone])%list,
           if dry then db
           else snd (updateValue (hd PyNone record) obs PyNone db))
        else (Raise e, db)
    end.
Proof.
  intros Hs Hv Hc T N. unfold check_column, bindM, lift, ret.
  rewrite (index_Some _ _ _ Hv), N.
  rewrite (index_Some _ _ declared) by (rewrite nth_error_map, Hc; reflexivity).
  rewrite T.
  assert (H0 : index record 0 = Ok (hd PyNone record)).
  { destruct record as [| x r]; [destruct icol; discriminate | reflexivity]. }
  rewrite H0.
  rewrite (index_Some _ _ obs) by (rewrite nth_error_map, Hc; reflexivity).
  assert (U : forall v, exists table,
             updateValue (hd PyNone record) obs v db
             = (Ok tt, mk_dbmanager (schema db) table)).
  { intros v. apply updateValue_column. rewrite Hs.
    apply (in_map fst sch (obs, declared)). eapply nth_error_In; eassumption. }
  destruct (set_type val declared) as [v | e]; cbn [try_except_ValueError].
  - destruct dry; [reflexivity |]. destruct (U v) as (t & ->). reflexivity.
  - destruct (is_ValueError e); [| reflexivity].
    destruct dry; [reflexivity |]. destruct (U PyNone) as (t & ->). reflexivity.
Qed.

(** An iteration leaves [_found] as it is or adds one entry to it, a
    4-tuple in a repair and a 3-tuple in a check. *)
Lemma check_column_found fix_ dry obs types record icol found db found' db' :
  check_column fix_ dry obs types record icol found db = (Ok found', db') ->
  found' = found
  \/ exists item, found' = (found ++ [item])%list /\ len_is_4 item = fix_.
Proof.
  unfold check_column, bindM, lift, ret.
  destruct (index record icol) as [val |]; [| discriminate].
  destruct (is_None val); [intros E; injection E as <- _; auto |].
  destruct (index types icol) as [expected |]; [| discriminate].
  destruct (check_type val expected) as [[|] |]; try discriminate.
  { intros E; injection E as <- _; auto. }
  destruct (index record 0) as [ts |]; [| discriminate].
  destruct (index obs icol) as [name |]; [| discriminate].
  destruct fix_.
  - destruct (try_except_ValueError _ _) as [v |]; [| discriminate].
    destruct dry; [| destruct (updateValue ts name v db) as [[[] | e] d]];
      try discriminate;
      intros E; injection E as <- _; right; eexists; split; reflexivity.
  - intros E; injection E as <- _. right; eexists; split; reflexivity.
Qed.

Lemma check_record_found fix_ dry obs types record n found db n' found' db' :
  check_record fix_ dry obs types record (n, found) db = (Ok (n', found'), db') ->
  Forall (fun item => len_is_4 item = fix_) found ->
  n' = S n /\ Forall (fun item => len_is_4 item = fix_) found'.
Proof.
  unfold check_record. intros E P. apply bindM_Ok in E.
  destruct E as (f1 & db1 & E1 & E2). unfold ret in E2. injection E2 as <- <- _.
  split; [reflexivity |].
  refine (for_each_invariant (Forall (fun item => len_is_4 item = fix_))
            _ _ _ found db f1 db1 P E1).
  intros icol s d s' d' Ps Eb. apply check_column_found in Eb.
  destruct Eb as [-> | (item & -> & Hi)]; [exact Ps |].
  apply Forall_app. split; [exact Ps | constructor; [exact Hi | constructor]].
Qed.

Lemma filter_all {A} (p : A -> bool) l :
  Forall (fun a => p a = true) l -> filter p l = l.
Proof.
  induction 1 as [| a l Ha _ IH]; [reflexivity |].
  cbn. rewrite Ha, IH. reflexivity.
Qed.

(** C4, amended.  In a repair every entry of [_found] is counted as fixed,
    also those whose replacement is [None]: the count [fixed] is the number
    of violations found, and the summary is "No null strings found." when
    there are none and "N of N null strings found were fixed." otherwise,
    never "Could not fix all null strings". *)
Theorem repair_counts_every_entry (o : options) (db db' : dbmanager)
    (rep : report) :
  check_strings o true db = (Ok rep, db') ->
  fixed rep = List.length (_found rep)
  /\ outcome rep = match _found rep with
                   | [] => NoNullStrings
                   | found => AllFixed (dry_run o) (List.length found)
                                       (List.length found)
                   end.
Proof.
  unfold check_strings. intros E. apply bindM_Ok in E.
  destruct E as ([n found] & db1 & E1 & E2).
  assert (P : Forall (fun item => len_is_4 item = true) found).
  { refine (for_each_invariant
              (fun st : nat * list found_item =>
                 Forall (fun item => len_is_4 item = true) (snd st))
              _ _ _ (O, []) db (n, found) db1 (Forall_nil _) E1).
    intros record [n0 f0] d [n1 f1] d' Ps Eb.
    apply check_record_found in Eb; [apply Eb | exact Ps]. }
  unfold summarise, ret in E2. rewrite (filter_all _ _ P) in E2.
  injection E2 as <- _. cbn [fixed _found outcome].
  split; [reflexivity |].
  destruct found as [| item found]; [reflexivity |].
  cbn [List.length Nat.eqb]. rewrite Nat.eqb_refl. reflexivity.
Qed.

End ScanFacts.

(** *** The scan on concrete tables *)




(** The repair of [two_violations_db]: one value is coerced, the other is
    replaced by [None], and the summary is "2 of 2 null strings found were
    fixed." *)
Lemma repair_with_sentinel_is_all_fixed :
  check_strings (text := ascii_text) no_options true two_violations_db
  = (Ok (mk_report 2
           [Found4 (PyInt 1000) "outTemp" (PyStr "72.3") (PyFloat float_72_3);
            Found4 (PyInt 1300) "outTemp" (PyStr "abc") PyNone]
           2 (AllFixed false 2 2)),
     mk_dbmanager
       [("dateTime", "INTEGER"); ("outTemp", "REAL")]
       [[PyInt 1000; PyFloat float_72_3];
        [PyInt 1300; PyNone]]).
Proof. vm_compute. reflexivity. Qed.

Lemma repair_counts_every_entry_witness :
  fixed (mk_report 2
           [Found4 (PyInt 1000) "outTemp" (PyStr "72.3") (PyFloat float_72_3);
            Found4 (PyInt 1300) "outTemp" (PyStr "abc") PyNone]
           2 (AllFixed false 2 2)) = 2%nat
  /\ AllFixed false 2 2 = AllFixed (dry_run no_options) 2 2.
Proof.
  apply (repair_counts_every_entry (text := ascii_text) no_options
           two_violations_db
           (mk_dbmanager
              [("dateTime", "INTEGER"); ("outTemp", "REAL")]
              [[PyInt 1000; PyFloat float_72_3]; [PyInt 1300; PyNone]])).
  vm_compute. reflexivity.
Defined.

(** C7.  The repair of [infinity_db]: the coercion [int(inf)] raises
    [OverflowError], which [except ValueError] does not catch, so no
    replacement is recorded and the scan ends with the exception. *)
Theorem repair_raises_on_infinity :
  set_type (text := ascii_text) (PyFloat inf) "INTEGER"
  = Raise (OverflowError "cannot convert float infinity to integer")
  /\ check_strings (text := ascii_text) no_options true infinity_db
     = (Raise (OverflowError "cannot convert float infinity to integer"),
        infinity_db).
Proof. split; vm_compute; reflexivity. Qed.

(** C9.  The repair of [infinity_db] ends with the [OverflowError] of the
    coercion, the value is still in the table, and a second scan reports it
    again. *)
Theorem check_after_repair_of_infinity :
  fst (check_strings (text := ascii_text) no_options true infinity_db)
  = Raise (OverflowError "cannot convert float infinity to integer")
  /\ check_strings (text := ascii_text) no_options false
       (snd (check_strings (text := ascii_text) no_options true infinity_db))
     = (Ok (mk_report 1 [Found3 (PyInt 1000) "interval" (PyFloat inf)]
                      0 (FoundOnly 1)),
        infinity_db).
Proof. split; vm_compute; reflexivity. Qed.

(** ** Repair, then check *)

Lemma length_list_set {A} (l : list A) : forall i v,
  List.length (list_set l i v) = List.length l.
Proof.
  induction l as [| x l IH]; intros [| i] v; cbn; try reflexivity.
  rewrite IH. reflexivity.
Qed.

Lemma nth_error_list_set_eq {A} (l : list A) : forall i v,
  (i < List.length l)%nat -> nth_error (list_set l i v) i = Some v.
Proof.
  induction l as [| x l IH]; intros [| i] v; cbn; try lia; [reflexivity |].
  intros H. apply IH. lia.
Qed.

Lemma nth_error_list_set_ne {A} (l : list A) : forall i j v,
  i <> j -> nth_error (list_set l i v) j = nth_error l j.
Proof.
  induction l as [| x l IH]; intros [| i] [| j] v H; cbn; try reflexivity;
    try contradiction.
  apply IH. congruence.
Qed.

Lemma hd_list_set {A} (d : A) (l : list A) i v :
  i <> O -> hd d (list_set l i v) = hd d l.
Proof. destruct l, i; cbn; congruence. Qed.

Lemma index_of_nth_error names : forall k obs,
  NoDup names -> nth_error names k = Some obs -> index_of obs names = Some k.
Proof.
  induction names as [| n names IH]; intros [| k] obs ND; cbn;
    try discriminate.
  - intros E; injection E as ->. rewrite String.eqb_refl. reflexivity.
  - intros E. inversion ND as [| ? ? Hn ND']; subst.
    destruct (String.eqb_spec n obs) as [-> | _].
    + exfalso. apply Hn. eapply nth_error_In; eassumption.
    + rewrite (IH k obs ND' E). reflexivity.
Qed.

Lemma in_combine_nth_error {A B} (l1 : list A) : forall (l2 : list B) a b,
  In (a, b) (combine l1 l2) ->
  exists n, nth_error l1 n = Some a /\ nth_error l2 n = Some b.
Proof.
  induction l1 as [| x l1 IH]; intros [| y l2] a b; cbn; try contradiction.
  intros [E | H].
  - injection E as -> ->. exists O. split; reflexivity.
  - destruct (IH _ _ _ H) as (n & H1 & H2). exists (S n). split; assumption.
Qed.

Lemma flat_map_nil {A B} (f : A -> list B) l :
  (forall x, In x l -> f x = []) -> flat_map f l = [].
Proof.
  induction l as [| x l IH]; intros H; [reflexivity |].
  cbn. rewrite (H x) by (left; reflexivity). apply IH.
  intros; apply H; right; assumption.
Qed.

(** A row whose cells are all passed over has no violations. *)
Lemma spec_found_in_ok schema row :
  (forall c, cell_ok schema row c) -> spec_found_in schema row = [].
Proof.
  intros H. unfold spec_found_in. apply flat_map_nil.
  intros [val [obs declared]] Hin.
  apply in_combine_nth_error in Hin. destruct Hin as (n & Hv & Hc).
  specialize (H n). unfold cell_ok in H. rewrite Hv, Hc in H.
  unfold cell_entry. rewrite H. reflexivity.
Qed.

(** A point write of a value that is not a violation in its column, to a
    column other than the time key, keeps [row_inv]. *)
Lemma row_inv_update schema k srow crow ts c v obs declared :
  nth_error schema c = Some (obs, declared) ->
  spec_violation v declared = false -> c <> O ->
  row_inv schema k srow crow ->
  row_inv schema k srow (update_row ts c v crow).
Proof.
  intros Hc Hv H0 (L & K & Hany & Hlt). unfold update_row.
  destruct crow as [| key crest] eqn:Ecrow; [repeat split; assumption |].
  destruct (pyval_eqb key ts); [| repeat split; assumption].
  rewrite <- Ecrow in *. clear Ecrow key crest.
  assert (Hok : forall c', cell_ok schema crow c' ->
                           cell_ok schema (list_set crow c v) c').
  { intros c' Hc'. unfold cell_ok in *.
    destruct (Nat.eq_dec c c') as [<- | Hne].
    - destruct (Nat.lt_ge_cases c (List.length crow)) as [Hl | Hl].
      + rewrite nth_error_list_set_eq, Hc by assumption. exact Hv.
      + replace (nth_error (list_set crow c v) c) with (@None pyval);
          [exact I |].
        symmetry. apply nth_error_None. rewrite length_list_set. exact Hl.
    - rewrite nth_error_list_set_ne by assumption. exact Hc'. }
  split; [rewrite length_list_set; exact L |].
  split; [rewrite hd_list_set by assumption; exact K |].
  split.
  - intros c'. destruct (Nat.eq_dec c c') as [<- | Hne].
    + right. destruct (Hany c) as [E | Hc'].
      * unfold cell_ok.
        destruct (Nat.lt_ge_cases c (List.length crow)) as [Hl | Hl].
        -- rewrite nth_error_list_set_eq, Hc by assumption. exact Hv.
        -- replace (nth_error (list_set crow c v) c) with (@None pyval);
             [exact I |].
           symmetry. apply nth_error_None. rewrite length_list_set. exact Hl.
      * apply Hok, Hc'.
    + destruct (Hany c') as [E | Hc'].
      * left. rewrite nth_error_list_set_ne by assumption. exact E.
      * right. apply Hok, Hc'.
  - intros c' Hc'. apply Hok, Hlt, Hc'.
Qed.

(** The write that repairs cell [c] of the row under examination. *)
Lemma row_inv_repair schema c srow crow key v obs declared :
  nth_error schema c = Some (obs, declared) ->
  spec_violation v declared = false -> c <> O ->
  (c < List.length srow)%nat -> hd PyNone srow = PyInt key ->
  row_inv schema c srow crow ->
  row_inv schema (S c) srow (update_row (PyInt key) c v crow).
Proof.
  intros Hc Hv H0 Hl Hk Inv.
  pose proof (row_inv_update schema c srow crow (PyInt key) c v obs declared
                Hc Hv H0 Inv) as (L & K & Hany & Hlt).
  repeat split; try assumption.
  intros c' Hc'. destruct (Nat.eq_dec c' c) as [-> | Hne];
    [| apply Hlt; lia].
  destruct Inv as (L0 & K0 & _ & _). unfold update_row.
  destruct crow as [| key' crest] eqn:Ecrow; [cbn in L0; lia |].
  cbn [hd] in K0. rewrite K0, Hk. cbn [pyval_eqb]. rewrite Z.eqb_refl.
  cbn [List.length] in L0.
  unfold cell_ok.
  rewrite nth_error_list_set_eq, Hc by (cbn [List.length]; lia). exact Hv.
Qed.

(** A cell that was read as no violation is none in the table. *)
Lemma row_inv_pass schema c srow crow :
  match nth_error srow c, nth_error schema c with
  | Some v, Some (_, declared) => spec_violation v declared = false
  | _, _ => True
  end ->
  row_inv schema c srow crow -> row_inv schema (S c) srow crow.
Proof.
  intros Hs (L & K & Hany & Hlt). repeat split; try assumption.
  intros c' Hc'. destruct (Nat.eq_dec c' c) as [-> | Hne];
    [| apply Hlt; lia].
  destruct (Hany c) as [E | Hok]; [| exact Hok].
  unfold cell_ok. rewrite E. exact Hs.
Qed.

Lemma Forall2_map_keep {A B} (R : A -> B -> Prop) (f : B -> B) l l' :
  (forall a b, R a b -> R a (f b)) -> Forall2 R l l' -> Forall2 R l (map f l').
Proof.
  intros Hf. induction 1 as [| a b l l' Hab _ IH]; cbn; constructor; auto.
Qed.

Lemma check_type_true_ok val declared :
  check_type val declared = Ok true -> spec_violation val declared = false.
Proof.
  unfold check_type, spec_violation.
  destruct (declared =? "INTEGER")%string.
  { intros E; injection E as ->. apply andb_false_r. }
  destruct (declared =? "REAL")%string.
  { intros E; injection E as ->. apply andb_false_r. }
  destruct ((declared =? "STR")%string || (declared =? "TEXT")%string)%bool.
  { intros E; injection E as ->. apply andb_false_r. }
  intros _. apply andb_false_r.
Qed.

Section RepairFacts.
Context {text : TextConversions}.

Variable sch : list (string * string).
Hypothesis names_distinct : NoDup (map fst sch).
Hypothesis types_known : Forall (fun col => known_type (snd col) = true) sch.
Hypothesis key_column : exists obs rest, sch = (obs, "INTEGER") :: rest.

(** What the repair writes is no violation. *)
Lemma corrected_value_ok val declared v :
  try_except_ValueError (set_type val declared) (Ok PyNone) = Ok v ->
  spec_violation v declared = false.
Proof.
  destruct (set_type val declared) as [v' | e] eqn:E; cbn.
  - intros E'; injection E' as <-.
    apply check_type_true_ok. eapply set_type_check_type; eassumption.
  - destruct (is_ValueError e); [| discriminate].
    intros E'; injection E' as <-. reflexivity.
Qed.

(** One iteration of the repair over the columns of a row. *)
Lemma repair_column sdone srow spend k found table found' db' :
  has_int_key srow -> (List.length srow <= List.length sch)%nat ->
  (k < List.length srow)%nat ->
  table_inv sch sdone srow k spend table ->
  check_column true false (map fst sch) (map snd sch) srow k found
               (mk_dbmanager sch table) = (Ok found', db') ->
  schema db' = sch /\ table_inv sch sdone srow (S k) spend (archive db').
Proof.
  intros (key & srest & Hsrow) Hlen Hk Inv.
  destruct (nth_error srow k) as [val |] eqn:Hv;
    [| apply nth_error_None in Hv; lia].
  destruct (nth_error sch k) as [[obs declared] |] eqn:Hc;
    [| apply nth_error_None in Hc; lia].
  assert (Kd : known_type declared = true).
  { rewrite Forall_forall in types_known.
    apply (types_known (obs, declared)). eapply nth_error_In; eassumption. }
  assert (Pass : spec_violation val declared = false ->
                 table_inv sch sdone srow (S k) spend table).
  { intros Hs. destruct Inv as (cdone & crow & cpend & -> & Hd & Hr & Hp).
    exists cdone, crow, cpend.
    split; [reflexivity |]. split; [exact Hd |]. split; [| exact Hp].
    apply row_inv_pass; [rewrite Hv, Hc; exact Hs | exact Hr]. }
  destruct (is_None val) eqn:N.
  { unfold check_column, bindM, lift, ret.
    rewrite (index_Some _ _ _ Hv), N. intros E; injection E as _ <-.
    split; [reflexivity |]. apply Pass. unfold spec_violation.
    rewrite N. reflexivity. }
  pose proof (check_type_known val declared Kd N) as T.
  destruct (spec_violation val declared) eqn:V; cbn [negb] in T.
  2:{ unfold check_column, bindM, lift, ret.
      rewrite (index_Some _ _ _ Hv), N.
      rewrite (index_Some _ _ declared)
        by (rewrite nth_error_map, Hc; reflexivity).
      rewrite T. intros E; injection E as _ <-.
      split; [reflexivity |]. apply Pass. reflexivity. }
  assert (H0 : k <> O).
  { intros ->. destruct key_column as (obs0 & rest & Hsch).
    rewrite Hsrow in Hv. rewrite Hsch in Hc. cbn in Hv, Hc.
    injection Hv as <-. injection Hc as _ <-. discriminate V. }
  rewrite (repair_records_coercion false sch srow k found
             (mk_dbmanager sch table) val obs declared eq_refl Hv Hc T N).
  assert (Hts : hd PyNone srow = PyInt key) by (rewrite Hsrow; reflexivity).
  assert (W : forall v, spec_violation v declared = false ->
              schema (snd (updateValue (hd PyNone srow) obs v
                                       (mk_dbmanager sch table))) = sch
              /\ table_inv sch sdone srow (S k) spend
                   (archive (snd (updateValue (hd PyNone srow) obs v
                                              (mk_dbmanager sch table))))).
  { intros v Hvok. unfold updateValue. cbn [schema archive].
    rewrite (index_of_nth_error (map fst sch) k obs names_distinct)
      by (rewrite nth_error_map, Hc; reflexivity).
    cbn [snd schema archive]. split; [reflexivity |].
    destruct Inv as (cdone & crow & cpend & -> & Hd & Hr & Hp).
    rewrite Hts, map_app. cbn [map].
    eexists _, _, _. split; [reflexivity |]. split; [| split].
    - apply Forall2_map_keep; [| exact Hd].
      intros a b. apply (row_inv_update sch _ a b _ k v obs declared Hc Hvok H0).
    - apply (row_inv_repair sch k srow crow key v obs declared Hc Hvok H0 Hk
               Hts Hr).
    - apply Forall2_map_keep; [| exact Hp].
      intros a b. apply (row_inv_update sch _ a b _ k v obs declared Hc Hvok H0). }
  pose proof (corrected_value_ok val declared) as Cv.
  destruct (set_type val declared) as [v | e]; cbn in Cv.
  - intros E; injection E as _ <-. apply W, Cv. reflexivity.
  - destruct (is_ValueError e); [| discriminate].
    intros E; injection E as _ <-. apply W. reflexivity.
Qed.

(** The loop over the columns of a row. *)
Lemma repair_columns sdone srow spend :
  has_int_key srow -> (List.length srow <= List.length sch)%nat ->
  forall n k found table found' db',
    (k + n = List.length srow)%nat ->
    table_inv sch sdone srow k spend table ->
    for_each (seq k n)
             (check_column true false (map fst sch) (map snd sch) srow)
             found (mk_dbmanager sch table) = (Ok found', db') ->
    schema db' = sch
    /\ table_inv sch sdone srow (List.length srow) spend (archive db').
Proof.
  intros Hkey Hlen. induction n as [| n IH]; intros k found table found' db' Hk Inv.
  - cbn. intros E; injection E as _ <-. cbn [schema archive].
    split; [reflexivity |]. replace (List.length srow) with k by lia. exact Inv.
  - cbn [seq for_each]. intros E. apply bindM_Ok in E.
    destruct E as (f1 & db1 & E1 & E2).
    apply (repair_column sdone srow spend k found table f1 db1 Hkey Hlen) in E1;
      [| lia | exact Inv].
    destruct E1 as (Hs1 & Inv1). destruct db1 as [sch1 table1].
    cbn [schema archive] in Hs1, Inv1. subst sch1.
    apply (IH (S k) f1 table1 found' db'); [lia | exact Inv1 | exact E2].
Qed.

(** The loop over the records. *)
Lemma repair_records : forall spend sdone cdone cpend st st' db',
  Forall (fun record => (List.length record <= List.length sch)%nat
                        /\ has_int_key record) spend ->
  Forall2 (row_done sch) sdone cdone ->
  Forall2 (row_inv sch 0) spend cpend ->
  for_each spend (check_record true false (map fst sch) (map snd sch))
           st (mk_dbmanager sch (cdone ++ cpend)) = (Ok st', db') ->
  schema db' = sch /\ Forall2 (row_done sch) (sdone ++ spend) (archive db').
Proof.
  induction spend as [| srow spend IH];
    intros sdone cdone cpend st st' db' Hwf Hd Hp.
  - inversion Hp; subst. cbn. intros E; injection E as _ <-.
    cbn [schema archive]. rewrite !app_nil_r. split; [reflexivity | exact Hd].
  - inversion Hp as [| ? crow ? cpend' Hr Hp']; subst.
    inversion Hwf as [| ? ? [Hlen Hkey] Hwf']; subst.
    cbn [for_each]. intros E. apply bindM_Ok in E.
    destruct E as ([n1 f1] & db1 & E1 & E2).
    unfold check_record in E1. destruct st as [n0 f0].
    apply bindM_Ok in E1. destruct E1 as (f1' & db1' & E1 & E1').
    unfold ret in E1'. injection E1' as _ _ <-.
    apply (repair_columns sdone srow spend Hkey Hlen (List.length srow) O f0
             (cdone ++ crow :: cpend') f1' db1' eq_refl) in E1;
      [| exists cdone, crow, cpend';
         split; [reflexivity |]; split; [exact Hd |]; split; assumption].
    destruct E1 as (Hs1 & (cdone1 & crow1 & cpend1 & Ht & Hd1 & Hr1 & Hp1)).
    destruct db1' as [sch1 table1]. cbn [schema archive] in Hs1, Ht.
    subst sch1 table1.
    replace (cdone1 ++ crow1 :: cpend1)%list
      with ((cdone1 ++ [crow1]) ++ cpend1)%list in E2
      by (rewrite <- app_assoc; reflexivity).
    apply (IH (sdone ++ [srow])%list) in E2; try assumption.
    + rewrite <- app_assoc in E2. exact E2.
    + apply Forall2_app; [exact Hd1 | constructor; [exact Hr1 | constructor]].
Qed.

End RepairFacts.

Lemma row_inv_refl schema row : row_inv schema 0 row row.
Proof.
  repeat split; [left; reflexivity | intros c Hc; inversion Hc].
Qed.

Lemma row_done_clean schema srow crow :
  row_done schema srow crow -> spec_found_in schema crow = [].
Proof.
  intros (L & _ & _ & Hlt). apply spec_found_in_ok. intros c.
  destruct (Nat.lt_ge_cases c (List.length srow)) as [Hc | Hc];
    [apply Hlt, Hc |].
  unfold cell_ok.
  replace (nth_error crow c) with (@None pyval); [exact I |].
  symmetry. apply nth_error_None. lia.
Qed.

(** A check of a table without violations reads every record and reports
    none. *)
Lemma check_of_clean_table {text : TextConversions} (o : options)
    (db : dbmanager) :
  Forall (fun col => known_type (snd col) = true) (schema db) ->
  Forall (fun record => (List.length record <= List.length (schema db))%nat)
         (archive db) ->
  spec_found (schema db) (archive db) = [] ->
  check_strings o false db
  = (Ok (mk_report (List.length (archive db)) [] 0 NoNullStrings), db).
Proof.
  intros K L C. unfold check_strings, genSchemaOf, genBatchRows.
  unfold bindM at 1.
  rewrite (check_records_check (dry_run o) (schema db) db (archive db) K L 0 []).
  cbn [app Nat.add]. rewrite C. reflexivity.
Qed.

(** When the repair of a well-formed table ends without an exception, a
    check of the table it leaves reports no violation. *)
Theorem repair_then_check_clean {text : TextConversions} (o o' : options)
    (db db' : dbmanager) (rep : report) :
  wf_table db -> dry_run o = false ->
  check_strings o true db = (Ok rep, db') ->
  check_strings o' false db'
  = (Ok (mk_report (List.length (archive db)) [] 0 NoNullStrings), db').
Proof.
  intros (ND & K & Hkey & Hrows) Hdry E.
  unfold check_strings, genSchemaOf, genBatchRows in E. rewrite Hdry in E.
  apply bindM_Ok in E. destruct E as (st & db1 & E1 & E2).
  destruct st as [n found]. unfold ret in E2.
  destruct (summarise true false found) as [fx line]. injection E2 as _ <-.
  destruct db as [sch rows]. cbn [schema archive] in *.
  apply (repair_records sch ND K Hkey rows [] [] rows (O, []) (n, found) db1
           Hrows (Forall2_nil _)) in E1.
  2:{ clear. induction rows; constructor; [apply row_inv_refl | assumption]. }
  destruct E1 as (Hs & Hd). cbn [app] in Hd.
  rewrite (Forall2_length Hd).
  apply check_of_clean_table.
  - rewrite Hs. exact K.
  - rewrite Hs. clear - Hd Hrows. induction Hd as [| s c ss cs Hsc _ IH];
      constructor.
    + inversion Hrows as [| ? ? [Hl _] _]; subst.
      destruct Hsc as (L & _). lia.
    + inversion Hrows; subst. apply IH. assumption.
  - rewrite Hs. unfold spec_found. apply flat_map_nil.
    intros crow Hin. clear - Hd Hin.
    induction Hd as [| s c ss cs Hsc _ IH]; [contradiction |].
    destruct Hin as [<- | Hin];
      [eapply row_done_clean; eassumption | apply IH, Hin].
Qed.

(** The repair of [two_violations_db] and the check after it. *)
Lemma repair_then_check_clean_witness :
  check_strings (text := ascii_text) no_options false
    (mk_dbmanager
       [("dateTime", "INTEGER"); ("outTemp", "REAL")]
       [[PyInt 1000; PyFloat float_72_3]; [PyInt 1300; PyNone]])
  = (Ok (mk_report 2 [] 0 NoNullStrings),
     mk_dbmanager
       [("dateTime", "INTEGER"); ("outTemp", "REAL")]
       [[PyInt 1000; PyFloat float_72_3]; [PyInt 1300; PyNone]]).
Proof.
  apply (repair_then_check_clean (text := ascii_text) no_options no_options
           two_violations_db _
           (mk_report 2
              [Found4 (PyInt 1000) "outTemp" (PyStr "72.3") (PyFloat float_72_3);
               Found4 (PyInt 1300) "outTemp" (PyStr "abc") PyNone]
              2 (AllFixed false 2 2))).
  - repeat split.
    + repeat constructor; cbn; intuition discriminate.
    + repeat constructor.
    + eexists _, _. reflexivity.
    + repeat constructor; eexists _, _; reflexivity.
  - reflexivity.
  - vm_compute. reflexivity.
Defined.

(** ** More on the resolved window *)

(** The only exception of [datetime.__add__]. *)
Lemma datetime_add_raises d t e :
  datetime_add d t = Raise e -> e = OverflowError "date value out of range".
Proof.
  unfold datetime_add.
  destruct ((0 <? _) && (_ <=? _MAXORDINAL))%bool; [discriminate |].
  intros E; injection E as <-. reflexivity.
Qed.

(** [strptime_ascii] raises [ValueError] and nothing else. *)
Lemma strptime_ascii_raises s fmt e :
  strptime_ascii s fmt = Raise e -> is_ValueError e = true.
Proof.
  unfold strptime_ascii.
  destruct (compile _) as [ts |]; [| intros E; injection E as <-; reflexivity].
  destruct (match_tokens _ _) as [[gs [| c rest]] |];
    try (intros E; injection E as <-; reflexivity).
  assert (F : forall name default (k : Z -> result datetime),
             (forall z, k z = Raise e -> is_ValueError e = true) ->
             bind (field name default gs) k = Raise e ->
             is_ValueError e = true).
  { intros name default k Hk. unfold field.
    destruct (group name gs) as [m |]; [| apply Hk].
    destruct (AsciiText.int_of_text m); [apply Hk |].
    cbn. intros E; injection E as <-. reflexivity. }
  apply F; intros year. apply F; intros month. apply F; intros day.
  apply F; intros hour. apply F; intros minute.
  unfold datetime_new.
  repeat match goal with
         | |- (if ?b then _ else _) = _ -> _ =>
             destruct b; [intros E; injection E as <-; reflexivity |]
         end.
  discriminate.
Qed.

Section ParseDatesEdges.

Variable strptime : string -> string -> result datetime.
Hypothesis strptime_normal :
  forall s fmt d, strptime s fmt = Ok d -> normal d.
Hypothesis strptime_date_midnight :
  forall s d, strptime s "%Y-%m-%d" = Ok d -> is_midnight d.
Hypothesis strptime_raises :
  forall s fmt e, strptime s fmt = Raise e -> is_ValueError e = true.

(** A parse under [except ValueError]: the handler replaces whatever
    [strptime] raises. *)
Lemma try_strptime {A} (s fmt : string) (k : datetime -> result A)
    (h : result A) :
  try_except_ValueError (bind (strptime s fmt) k) h
  = match strptime s fmt with
    | Ok d => try_except_ValueError (k d) h
    | Raise _ => h
    end.
Proof.
  destruct (strptime s fmt) as [d | e] eqn:E; [reflexivity |].
  cbn. rewrite (strptime_raises _ _ _ E). reflexivity.
Qed.

Lemma resolve_from_raises o e :
  resolve_from strptime o = Raise e ->
  e = ValueError "Invalid --from option specified.".
Proof.
  unfold resolve_from. destruct (truthy (from_date o)) as [s |]; [| discriminate].
  destruct (contains_T s); rewrite try_strptime;
    destruct (strptime s _); cbn; try discriminate;
    intros E; injection E as <-; reflexivity.
Qed.

Lemma resolve_to_raises o e :
  resolve_to strptime o = Raise e ->
  e = ValueError "Invalid --to option specified."
  \/ e = OverflowError "date value out of range".
Proof.
  unfold resolve_to. destruct (truthy (to_date o)) as [s |]; [| discriminate].
  destruct (contains_T s); rewrite try_strptime;
    (destruct (strptime s _) as [d |];
     [| intros E; injection E as <-; left; reflexivity]).
  - discriminate.
  - destruct (rebuild_daily o || reweight o)%bool; [discriminate |].
    assert (A : forall r : result (option datetime),
               try_except_ValueError
                 (d' <- datetime_add d (timedelta_days 1);; Ok (Some d'))
                 (Raise (ValueError "Invalid --to option specified."))
               = Raise e ->
               e = OverflowError "date value out of range").
    { intros _. destruct (datetime_add d (timedelta_days 1)) as [d' | e']
        eqn:Ea; [discriminate |].
      apply datetime_add_raises in Ea. subst e'. cbn.
      intros E; injection E as <-. reflexivity. }
    destruct (calc_missing o); intros E; right; apply (A (Ok None)), E.
Qed.

(** Every exception that [_parse_dates] raises is one of six: the four
    [ValueError]s about the options, [ViolatedPrecondition], and the
    [OverflowError] of a day added past the last date.  What [strptime]
    itself raises never gets out. *)
Theorem parse_dates_raises_only (o : options) (e : exn) :
  _parse_dates strptime o = Raise e ->
  In e [ValueError
          "Specify either --date or a --from and --to combination; not both";
        ValueError "Invalid --date option specified.";
        ValueError "Invalid --from option specified.";
        ValueError "Invalid --to option specified.";
        ViolatedPrecondition "--from value is later than --to value.";
        OverflowError "date value out of range"].
Proof.
  unfold _parse_dates. destruct (truthy (date o)) as [s |].
  - destruct (is_true (from_date o) || is_true (to_date o))%bool;
      [intros E; injection E as <-; cbn; tauto |].
    destruct (strptime s "%Y-%m-%d") as [d | e0] eqn:P.
    + cbn [try_except_ValueError bind].
      destruct (rebuild_daily o || reweight o)%bool; [discriminate |].
      assert (A : forall k : datetime -> result window,
                 (forall d', k d' = Raise e ->
                             e = OverflowError "date value out of range") ->
                 bind (datetime_add d (timedelta_days 1)) k = Raise e ->
                 e = OverflowError "date value out of range").
      { intros k Hk. destruct (datetime_add d (timedelta_days 1)) as [d' | e']
          eqn:Ea; [apply Hk |].
        apply datetime_add_raises in Ea. subst e'.
        intros E; injection E as <-. reflexivity. }
      destruct (calc_missing o); intros E; apply A in E;
        try (subst e; cbn; tauto); intros d'; try discriminate.
      destruct (datetime_add d (timedelta_seconds 1)) as [d2 | e2] eqn:Eb;
        [discriminate |].
      apply datetime_add_raises in Eb. subst e2.
      intros E'; injection E' as <-. reflexivity.
    + cbn. rewrite (strptime_raises _ _ _ P). cbn.
      intros E; injection E as <-. cbn; tauto.
  - destruct (resolve_from strptime o) as [f |] eqn:Ef.
    2:{ apply resolve_from_raises in Ef. subst. cbn.
        intros E; injection E as <-. tauto. }
    cbn [bind]. destruct (resolve_to strptime o) as [t |] eqn:Et.
    2:{ apply resolve_to_raises in Et. cbn.
        intros E; injection E as <-. destruct Et as [-> | ->]; tauto. }
    cbn [bind]. destruct f as [f |], t as [t |]; try discriminate.
    destruct (datetime_ltb t f); [| discriminate].
    intros E; injection E as <-. cbn; tauto.
Qed.

(** A bound given explicitly comes back as parsed, whichever the consumer:
    the start is the value of [--from], and the end is the value of a
    [--to] that has a time. *)
Theorem explicit_bounds_as_parsed (o : options) (f t : option datetime) :
  _parse_dates strptime o = Ok (f, t) ->
  (forall s d,
      truthy (from_date o) = Some s ->
      strptime s (if contains_T s then "%Y-%m-%dT%H:%M" else "%Y-%m-%d")
      = Ok d ->
      f = Some d)
  /\ (forall s d,
         truthy (to_date o) = Some s -> contains_T s = true ->
         strptime s "%Y-%m-%dT%H:%M" = Ok d ->
         t = Some d).
Proof.
  intros H.
  assert (R : forall f0 t0,
             match f0, t0 with
             | Some f1, Some t1 =>
                 if datetime_ltb t1 f1
                 then Raise (ViolatedPrecondition
                               "--from value is later than --to value.")
                 else Ok (f0, t0)
             | _, _ => Ok (f0, t0)
             end = Ok (f, t) -> f = f0 /\ t = t0).
  { intros [f1 |] [t1 |]; try destruct (datetime_ltb t1 f1);
      try discriminate; intros E; injection E as <- <-; auto. }
  split; intros s d Hs.
  - intros Hp. revert H. unfold _parse_dates.
    destruct (truthy (date o)) as [ds |].
    { assert (B : is_true (from_date o) = true)
        by (unfold is_true; rewrite Hs; reflexivity).
      rewrite B. discriminate. }
    assert (Ef : resolve_from strptime o = Ok (Some d)).
    { unfold resolve_from. rewrite Hs.
      destruct (contains_T s); rewrite Hp; reflexivity. }
    rewrite Ef. cbn [bind].
    destruct (resolve_to strptime o) as [t0 |]; [| discriminate].
    cbn [bind]. intros E. apply (R (Some d) t0) in E. apply E.
  - intros HT Hp. revert H. unfold _parse_dates.
    destruct (truthy (date o)) as [ds |].
    { assert (B : is_true (to_date o) = true)
        by (unfold is_true; rewrite Hs; reflexivity).
      rewrite B, orb_true_r. discriminate. }
    destruct (resolve_from strptime o) as [f0 |]; [| discriminate].
    assert (Et : resolve_to strptime o = Ok (Some d)).
    { unfold resolve_to. rewrite Hs, HT, Hp. reflexivity. }
    rewrite Et. cbn [bind]. intros E. apply (R f0 (Some d)) in E. apply E.
Qed.

(** Date-only bounds a day apart in the wrong order, [--from] on the day
    after [--to]: rebuild-daily and reweight reject them, while for
    calc-missing (and any other consumer) the end moves to the next
    midnight, which is the start, and an empty window is returned. *)
Theorem from_day_after_to (o : options) (fs ts : string) (f t : datetime) :
  truthy (date o) = None ->
  truthy (from_date o) = Some fs -> contains_T fs = false ->
  strptime fs "%Y-%m-%d" = Ok f ->
  truthy (to_date o) = Some ts -> contains_T ts = false ->
  strptime ts "%Y-%m-%d" = Ok t ->
  ordinal f = ordinal t + 1 ->
  _parse_dates strptime o
  = if (rebuild_daily o || reweight o)%bool
    then Raise (ViolatedPrecondition "--from value is later than --to value.")
    else Ok (Some f, Some f).
Proof.
  intros Hd Hf HfT Pf Ht HtT Pt Ho.
  pose proof (strptime_normal _ _ _ Pf) as (Nf & _).
  destruct (strptime_date_midnight _ _ Pf) as [Sf Uf].
  destruct (strptime_date_midnight _ _ Pt) as [St Ut].
  unfold _parse_dates. rewrite Hd.
  assert (Ef : resolve_from strptime o = Ok (Some f)).
  { unfold resolve_from. rewrite Hf, HfT, Pf. reflexivity. }
  rewrite Ef, (resolve_to_date_only strptime strptime_normal
                 strptime_date_midnight o ts t Ht HtT Pt).
  cbn [bind].
  destruct (rebuild_daily o || reweight o)%bool; cbn [bind].
  - replace (datetime_ltb t f) with true; [reflexivity |].
    unfold datetime_ltb. lia.
  - replace (ordinal t <? _MAXORDINAL) with true by lia. cbn [bind].
    replace (mk_datetime (ordinal t + 1) 0 0) with f
      by (destruct f; cbn in *; subst; reflexivity).
    replace (datetime_ltb f f) with false; [reflexivity |].
    unfold datetime_ltb. lia.
Qed.

(** A date-only [--to] on the last day of the calendar, for a consumer
    other than rebuild-daily and reweight: the day added to it is out of
    range, and the [OverflowError] is not turned into the "Invalid --to"
    error, which is for [ValueError] only. *)
Theorem to_last_day_overflows (o : options) (s : string) (d : datetime)
    (f : option datetime) :
  truthy (date o) = None -> resolve_from strptime o = Ok f ->
  truthy (to_date o) = Some s -> contains_T s = false ->
  strptime s "%Y-%m-%d" = Ok d -> ordinal d = _MAXORDINAL ->
  (rebuild_daily o || reweight o)%bool = false ->
  _parse_dates strptime o = Raise (OverflowError "date value out of range").
Proof.
  intros Hd Hf Ht HT Hp Ho Hv. unfold _parse_dates.
  rewrite Hd, Hf, (resolve_to_date_only strptime strptime_normal
                     strptime_date_midnight o s d Ht HT Hp), Hv, Ho.
  reflexivity.
Qed.


(** [--date=D] against [--from=D --to=D], for a date [D] before the last
    day.  The end is the same in both: the day's midnight for
    rebuild-daily and reweight, the next midnight otherwise.  The start is
    the day's midnight in both, except that [--date] with calc-missing
    starts one second later. *)
Theorem date_versus_from_to (s : string) (d : datetime)
    (rebuild reweigh calc dry : bool) :
  s <> "" -> contains_T s = false ->
  strptime s "%Y-%m-%d" = Ok d -> ordinal d < _MAXORDINAL ->
  let e := if (rebuild || reweigh)%bool then d
           else mk_datetime (ordinal d + 1) 0 0 in
  _parse_dates strptime
    (mk_options None (Some s) (Some s) rebuild reweigh calc dry)
  = Ok (Some d, Some e)
  /\ _parse_dates strptime
       (mk_options (Some s) None None rebuild reweigh calc dry)
     = Ok (Some (if negb (rebuild || reweigh) && calc
                 then mk_datetime (ordinal d) 1 0 else d),
           Some e).
Proof.
  intros Hne HT Hp Ho e.
  pose proof (strptime_normal _ _ _ Hp) as Hn.
  destruct (strptime_date_midnight _ _ Hp) as [Hs Hu].
  assert (Tr : truthy (Some s) = Some s).
  { cbn. destruct (String.eqb_spec s ""); [contradiction | reflexivity]. }
  assert (Ed : d = mk_datetime (ordinal d) 0 0)
    by (destruct d; cbn in *; subst; reflexivity).
  split.
  - unfold _parse_dates. cbn [date truthy].
    assert (Ef : resolve_from strptime
                   (mk_options None (Some s) (Some s) rebuild reweigh calc dry)
                 = Ok (Some d)).
    { unfold resolve_from. cbn [from_date]. rewrite Tr, HT, Hp. reflexivity. }
    rewrite Ef, (resolve_to_date_only strptime strptime_normal
                   strptime_date_midnight
                   (mk_options None (Some s) (Some s) rebuild reweigh calc dry)
                   s d Tr HT Hp).
    cbn [bind rebuild_daily reweight]. subst e.
    destruct (rebuild || reweigh)%bool; cbn [bind].
    + replace (datetime_ltb d d) with false; [reflexivity |].
      unfold datetime_ltb. lia.
    + replace (ordinal d <? _MAXORDINAL) with true by lia. cbn [bind].
      replace (datetime_ltb (mk_datetime (ordinal d + 1) 0 0) d) with false;
        [reflexivity |].
      unfold datetime_ltb. cbn [ordinal second_of_day microsecond]. lia.
  - unfold _parse_dates. cbn [date from_date to_date]. rewrite Tr.
    unfold is_true. cbn [truthy orb]. rewrite Hp.
    cbn [try_except_ValueError bind rebuild_daily reweight calc_missing].
    subst e. destruct (rebuild || reweigh)%bool; cbn [negb andb];
      [reflexivity |].
    rewrite add_one_day by assumption.
    replace (ordinal d <? _MAXORDINAL) with true by lia.
    destruct calc; cbn [bind].
    + rewrite add_one_second by assumption. rewrite Hs, Hu. reflexivity.
    + rewrite Hs, Hu. reflexivity.
Qed.

End ParseDatesEdges.

(** Python's [strptime] on an invalid date: the error is the one about
    [--date]. *)
Lemma parse_dates_raises_only_witness :
  In (ValueError "Invalid --date option specified.")
     [ValueError
        "Specify either --date or a --from and --to combination; not both";
      ValueError "Invalid --date option specified.";
      ValueError "Invalid --from option specified.";
      ValueError "Invalid --to option specified.";
      ViolatedPrecondition "--from value is later than --to value.";
      OverflowError "date value out of range"].
Proof.
  apply (parse_dates_raises_only strptime_ascii strptime_ascii_raises
           (mk_options (Some "2023-02-30") None None false false true false)).
  vm_compute. reflexivity.
Defined.

(** [--calc-missing --from=2023-06-01T10:30 --to=2023-06-30T12:00]: the
    bounds are the two times given. *)
Lemma explicit_bounds_as_parsed_witness :
  Some (mk_datetime 738672 37800 0) = Some (mk_datetime 738672 37800 0)
  /\ Some (mk_datetime 738701 43200 0) = Some (mk_datetime 738701 43200 0).
Proof.
  pose proof (explicit_bounds_as_parsed strptime_ascii
                (mk_options None (Some "2023-06-01T10:30")
                            (Some "2023-06-30T12:00") false false true false)
                (Some (mk_datetime 738672 37800 0))
                (Some (mk_datetime 738701 43200 0))
                ltac:(vm_compute; reflexivity)) as [Hf Ht].
  split.
  - apply (Hf "2023-06-01T10:30"); vm_compute; reflexivity.
  - apply (Ht "2023-06-30T12:00"); vm_compute; reflexivity.
Defined.

(** [--from=2023-07-01 --to=2023-06-30]: an empty window at
    2023-07-01T00:00:00 for calc-missing. *)
Lemma from_day_after_to_witness :
  _parse_dates strptime_ascii
    (mk_options None (Some "2023-07-01") (Some "2023-06-30")
                false false true false)
  = Ok (Some (mk_datetime 738702 0 0), Some (mk_datetime 738702 0 0)).
Proof.
  apply (from_day_after_to strptime_ascii strptime_ascii_normal
           strptime_ascii_date_midnight
           (mk_options None (Some "2023-07-01") (Some "2023-06-30")
                       false false true false)
           "2023-07-01" "2023-06-30"
           (mk_datetime 738702 0 0) (mk_datetime 738701 0 0));
    vm_compute; reflexivity.
Defined.

(** The same bounds are rejected for rebuild-daily. *)
Example from_day_after_to_rebuild :
  _parse_dates strptime_ascii
    (mk_options None (Some "2023-07-01") (Some "2023-06-30")
                true false false false)
  = Raise (ViolatedPrecondition "--from value is later than --to value.").
Proof. vm_compute. reflexivity. Qed.

(** [--calc-missing --to=9999-12-31] *)
Lemma to_last_day_overflows_witness :
  _parse_dates strptime_ascii
    (mk_options None None (Some "9999-12-31") false false true false)
  = Raise (OverflowError "date value out of range").
Proof.
  apply (to_last_day_overflows strptime_ascii strptime_ascii_normal
           strptime_ascii_date_midnight
           (mk_options None None (Some "9999-12-31") false false true false)
           "9999-12-31" (mk_datetime _MAXORDINAL 0 0) None);
    vm_compute; reflexivity.
Defined.


(** The same bounds for calc-missing: from 10:30 to the next midnight. *)
Example from_time_on_day_of_to_calc_missing :
  _parse_dates strptime_ascii
    (mk_options None (Some "2023-06-15T10:30") (Some "2023-06-15")
                false false true false)
  = Ok (Some (mk_datetime 738686 37800 0), Some (mk_datetime 738687 0 0)).
Proof. vm_compute. reflexivity. Qed.

(** [--calc-missing --from=2023-06-15 --to=2023-06-15] starts at midnight,
    [--calc-missing --date=2023-06-15] one second after it. *)
Lemma date_versus_from_to_witness :
  _parse_dates strptime_ascii
    (mk_options None (Some "2023-06-15") (Some "2023-06-15")
                false false true false)
  = Ok (Some (mk_datetime 738686 0 0), Some (mk_datetime 738687 0 0))
  /\ _parse_dates strptime_ascii
       (mk_options (Some "2023-06-15") None None false false true false)
     = Ok (Some (mk_datetime 738686 1 0), Some (mk_datetime 738687 0 0)).
Proof.
  apply (date_versus_from_to strptime_ascii strptime_ascii_normal
           strptime_ascii_date_midnight "2023-06-15"
           (mk_datetime 738686 0 0) false false true false);
    solve [discriminate | vm_compute; reflexivity].
Defined.

(** ** More on the type test and the coercion *)

Section CoercionFacts.
Context {text : TextConversions}.

(** Whatever [set_type] returns passes [check_type] for the same type
    name. *)
Theorem coerced_value_passes_test (val v : pyval) (t : string) :
  set_type val t = Ok v -> check_type v t = Ok true.
Proof. apply set_type_check_type. Qed.

(** A value that passes the type test is left as it is by the coercion. *)
Lemma set_type_of_well_typed (v : pyval) (t : string) :
  check_type v t = Ok true -> set_type v t = Ok v.
Proof.
  unfold check_type, set_type.
  destruct (t =? "INTEGER")%string.
  { destruct v; cbn; intros E; try discriminate. reflexivity. }
  destruct (t =? "REAL")%string.
  { destruct v; cbn; intros E; try discriminate. reflexivity. }
  destruct ((t =? "STR")%string || (t =? "TEXT")%string)%bool; [| discriminate].
  destruct v; cbn; intros E; try discriminate. reflexivity.
Qed.

(** Coercing a coerced value changes nothing: [set_type] is idempotent. *)
Theorem set_type_idempotent (val v : pyval) (t : string) :
  set_type val t = Ok v -> set_type v t = Ok v.
Proof.
  intros E. apply set_type_of_well_typed. eapply set_type_check_type, E.
Qed.

End CoercionFacts.

Lemma coerced_value_passes_test_witness :
  check_type (PyFloat float_72_3) "REAL" = Ok true.
Proof.
  apply (coerced_value_passes_test (text := ascii_text) (PyStr "72.3")).
  vm_compute. reflexivity.
Defined.

Lemma set_type_idempotent_witness :
  set_type (text := ascii_text) (PyFloat float_72_3) "REAL"
  = Ok (PyFloat float_72_3).
Proof.
  apply (set_type_idempotent (text := ascii_text) (PyStr "72.3")).
  vm_compute. reflexivity.
Defined.

(** *** Integers written as text *)




Lemma lstrip_no_space s :
  Forall (fun c => AsciiText.is_space c = false) s -> AsciiText.lstrip s = s.
Proof. destruct 1 as [| c s Hc _]; cbn; [| rewrite Hc]; reflexivity. Qed.

Lemma strip_no_space s :
  Forall (fun c => AsciiText.is_space c = false) s -> AsciiText.strip s = s.
Proof.
  intros H. unfold AsciiText.strip. rewrite (lstrip_no_space s H).
  rewrite lstrip_no_space by (apply Forall_rev, H). apply rev_involutive.
Qed.





(** ** More on the scan *)

Lemma check_type_unknown val t :
  known_type t = false ->
  check_type val t = Raise (ValueError ("Unknown type " ++ t)).
Proof.
  unfold known_type, check_type. intros H.
  repeat (apply orb_false_elim in H; destruct H as [H ?]).
  repeat match goal with E : (_ =? _)%string = false |- _ => rewrite E; clear E end.
  reflexivity.
Qed.

Section ScanCases.
Context {text : TextConversions}.

(** One iteration over a cell that the record and the schema have: every
    way it can go. *)
Lemma check_column_cases fix_ dry sch record icol found db val obs declared :
  schema db = sch ->
  nth_error record icol = Some val ->
  nth_error sch icol = Some (obs, declared) ->
  check_column fix_ dry (map fst sch) (map snd sch) record icol found db
  = if is_None val then (Ok found, db)
    else if negb (known_type declared) then
      (Raise (ValueError ("Unknown type " ++ declared)), db)
    else if negb (spec_violation val declared) then (Ok found, db)
    else if fix_ then
      match set_type val declared with
      | Ok v =>
          (Ok (found ++ [Found4 (hd PyNone record) obs val v])%list,
           if dry then db else snd (updateValue (hd PyNone record) obs v db))
      | Raise e =>
          if is_ValueError e then
            (Ok (found ++ [Found4 (hd PyNone record) obs val PyNone])%list,
             if dry then db
             else snd (updateValue (hd PyNone record) obs PyNone db))
          else (Raise e, db)
      end
    else (Ok (found ++ [Found3 (hd PyNone record) obs val])%list, db).
Proof.
  intros Hs Hv Hc.
  destruct (is_None val) eqn:N.
  { unfold check_column, bindM, lift, ret.
    rewrite (index_Some _ _ _ Hv), N. reflexivity. }
  destruct (known_type declared) eqn:K; cbn [negb].
  2:{ unfold check_column, bindM, lift, ret.
      rewrite (index_Some _ _ _ Hv), N.
      rewrite (index_Some _ _ declared)
        by (rewrite nth_error_map, Hc; reflexivity).
      rewrite (check_type_unknown _ _ K). reflexivity. }
  destruct (spec_violation val declared) eqn:V; cbn [negb].
  2:{ unfold check_column, bindM, lift, ret.
      rewrite (index_Some _ _ _ Hv), N.
      rewrite (index_Some _ _ declared)
        by (rewrite nth_error_map, Hc; reflexivity).
      rewrite (check_type_known _ _ K N), V. reflexivity. }
  destruct fix_.
  - apply repair_records_coercion; try assumption.
    rewrite (check_type_known _ _ K N), V. reflexivity.
  - unfold check_column, bindM, lift, ret.
    rewrite (index_Some _ _ _ Hv), N.
    rewrite (index_Some _ _ declared)
      by (rewrite nth_error_map, Hc; reflexivity).
    rewrite (check_type_known _ _ K N), V. cbn [negb].
    assert (H0 : index record 0 = Ok (hd PyNone record)).
    { destruct record as [| x r]; [destruct icol; discriminate | reflexivity]. }
    rewrite H0.
    rewrite (index_Some _ _ obs) by (rewrite nth_error_map, Hc; reflexivity).
    reflexivity.
Qed.

(** *** A table without violations *)



(** *** A check of a table with unknown type names *)




End ScanCases.



(** *** The exceptions of a repair *)



Section RepairExceptions.
Context {text : TextConversions}.



End RepairExceptions.


(** *** What a repair writes *)

Lemma firstn_S_nth_error {A} (l : list A) : forall k a,
  nth_error l k = Some a -> firstn (S k) l = (firstn k l ++ [a])%list.
Proof.
  induction l as [| x l IH]; intros [| k] a; cbn; try discriminate.
  - intros E; injection E as ->. reflexivity.
  - intros E. f_equal. apply IH, E.
Qed.

Lemma nth_error_combine {A B} (l1 : list A) : forall (l2 : list B) k a b,
  nth_error l1 k = Some a -> nth_error l2 k = Some b ->
  nth_error (combine l1 l2) k = Some (a, b).
Proof.
  induction l1 as [| x l1 IH]; intros [| y l2] [| k] a b; cbn;
    try discriminate.
  - intros E1 E2; injection E1 as ->; injection E2 as ->. reflexivity.
  - apply IH.
Qed.

Lemma list_set_middle {A} (pre : list A) x post k v :
  List.length pre = k ->
  list_set (pre ++ x :: post) k v = (pre ++ v :: post)%list.
Proof.
  intros <-. induction pre as [| y pre IH]; cbn; [| rewrite IH]; reflexivity.
Qed.

Lemma pyval_eqb_int_refl key : pyval_eqb (PyInt key) (PyInt key) = true.
Proof. apply Z.eqb_refl. Qed.

(** A point write leaves the rows with other keys as they are. *)
Lemma update_other_rows key i v rows :
  Forall has_int_key rows -> ~ In (PyInt key) (time_keys rows) ->
  map (update_row (PyInt key) i v) rows = rows.
Proof.
  induction 1 as [| r rows (k' & rest & ->) _ IH]; [reflexivity |].
  cbn [time_keys map hd In]. intros H.
  rewrite IH by tauto. cbn [update_row pyval_eqb].
  destruct (Z.eqb_spec k' key) as [-> | _]; [tauto | reflexivity].
Qed.

Section RepairWrites.
Context {text : TextConversions}.

Variable sch : list (string * string).
Hypothesis names_distinct : NoDup (map fst sch).
Hypothesis types_known : Forall (fun col => known_type (snd col) = true) sch.
Hypothesis key_column : exists obs rest, sch = (obs, "INTEGER") :: rest.

Lemma partly_repaired_cells k record :
  partly_repaired sch k record
  = (map repaired_cell (firstn k (combine record sch)) ++ skipn k record)%list.
Proof.
  unfold partly_repaired, repaired_row. rewrite combine_firstn. reflexivity.
Qed.

Lemma partly_repaired_S k record val col :
  nth_error record k = Some val -> nth_error sch k = Some col ->
  partly_repaired sch (S k) record
  = list_set (partly_repaired sch k record) k (repaired_cell (val, col)).
Proof.
  intros Hv Hc. rewrite !partly_repaired_cells.
  rewrite (firstn_S_nth_error _ _ _ (nth_error_combine _ _ _ _ _ Hv Hc)).
  rewrite (skipn_nth_error _ _ _ Hv), map_app, <- app_assoc. cbn [map app].
  assert (L : List.length (map repaired_cell (firstn k (combine record sch)))
              = k).
  { rewrite length_map, length_firstn, length_combine.
    assert (k < List.length record)%nat by (apply nth_error_Some; congruence).
    assert (k < List.length sch)%nat by (apply nth_error_Some; congruence).
    lia. }
  rewrite (list_set_middle _ _ _ k) by exact L. reflexivity.
Qed.

Lemma partly_repaired_same k record val col :
  nth_error record k = Some val -> nth_error sch k = Some col ->
  repaired_cell (val, col) = val ->
  partly_repaired sch (S k) record = partly_repaired sch k record.
Proof.
  intros Hv Hc E. rewrite (partly_repaired_S k record val col Hv Hc), E.
  rewrite !partly_repaired_cells, (skipn_nth_error _ _ _ Hv).
  assert (L : List.length (map repaired_cell (firstn k (combine record sch)))
              = k).
  { rewrite length_map, length_firstn, length_combine.
    assert (k < List.length record)%nat by (apply nth_error_Some; congruence).
    assert (k < List.length sch)%nat by (apply nth_error_Some; congruence).
    lia. }
  apply list_set_middle, L.
Qed.

Lemma partly_repaired_all record :
  (List.length record <= List.length sch)%nat ->
  partly_repaired sch (List.length record) record = repaired_row sch record.
Proof.
  intros L. rewrite partly_repaired_cells, skipn_all, app_nil_r.
  unfold repaired_row. rewrite firstn_all2; [reflexivity |].
  rewrite length_combine. lia.
Qed.

(** The time key is never a violation, so it stays. *)
Lemma partly_repaired_key k key rest :
  hd PyNone (partly_repaired sch k (PyInt key :: rest)) = PyInt key.
Proof.
  destruct key_column as (obs & cols & ->).
  destruct k; reflexivity.
Qed.

Lemma repaired_row_key record :
  has_int_key record ->
  has_int_key (repaired_row sch record)
  /\ hd PyNone (repaired_row sch record) = hd PyNone record.
Proof.
  intros (key & rest & ->). destruct key_column as (obs & cols & ->).
  split; [eexists _, _ |]; reflexivity.
Qed.

Lemma repaired_rows_keys rows :
  Forall has_int_key rows ->
  Forall has_int_key (map (repaired_row sch) rows)
  /\ time_keys (map (repaired_row sch) rows) = time_keys rows.
Proof.
  induction 1 as [| r rows Hr _ [IH1 IH2]]; [split; [constructor | reflexivity] |].
  destruct (repaired_row_key r Hr) as [K1 K2].
  split; [constructor; assumption |].
  cbn [map time_keys] in *. rewrite K2. f_equal. exact IH2.
Qed.

(** One iteration of the repair: the entry it adds and the write it makes. *)
Lemma repair_writes_column sdone key rest spend k found found' db' val col :
  let srow := PyInt key :: rest in
  Forall has_int_key sdone -> Forall has_int_key spend ->
  ~ In (PyInt key) (time_keys sdone) -> ~ In (PyInt key) (time_keys spend) ->
  nth_error srow k = Some val -> nth_error sch k = Some col ->
  check_column true false (map fst sch) (map snd sch) srow k found
    (mk_dbmanager sch (map (repaired_row sch) sdone
                       ++ partly_repaired sch k srow :: spend))
  = (Ok found', db') ->
  found' = (found ++ repair_entry srow (val, col))%list
  /\ db' = mk_dbmanager sch (map (repaired_row sch) sdone
                             ++ partly_repaired sch (S k) srow :: spend).
Proof.
  intros srow Kd Kp Nd Np Hv Hc. destruct col as [obs declared].
  rewrite (check_column_cases true false sch srow k found
             (mk_dbmanager sch _) val obs declared eq_refl Hv Hc).
  assert (Kt : known_type declared = true).
  { rewrite Forall_forall in types_known.
    apply (types_known (obs, declared)). eapply nth_error_In; eassumption. }
  assert (Same : spec_violation val declared = false ->
                 (Ok found,
                  mk_dbmanager sch (map (repaired_row sch) sdone
                                    ++ partly_repaired sch k srow :: spend))
                 = (Ok found', db') ->
                 found' = (found ++ repair_entry srow (val, (obs, declared)))%list
                 /\ db' = mk_dbmanager sch
                            (map (repaired_row sch) sdone
                             ++ partly_repaired sch (S k) srow :: spend)).
  { intros V E. injection E as <- <-. unfold repair_entry. rewrite V.
    rewrite app_nil_r. split; [reflexivity |].
    rewrite (partly_repaired_same k srow val (obs, declared) Hv Hc);
      [reflexivity |].
    unfold repaired_cell. rewrite V. reflexivity. }
  destruct (is_None val) eqn:N.
  { apply Same. unfold spec_violation. rewrite N. reflexivity. }
  rewrite Kt. cbn [negb].
  destruct (spec_violation val declared) eqn:V; cbn [negb];
    [| apply Same; reflexivity].
  clear Same.
  assert (W : forall v,
             repaired_cell (val, (obs, declared)) = v ->
             (Ok (found ++ [Found4 (hd PyNone srow) obs val v])%list,
              snd (updateValue (hd PyNone srow) obs v
                     (mk_dbmanager sch
                        (map (repaired_row sch) sdone
                         ++ partly_repaired sch k srow :: spend))))
             = (Ok found', db') ->
             found' = (found ++ repair_entry srow (val, (obs, declared)))%list
             /\ db' = mk_dbmanager sch
                        (map (repaired_row sch) sdone
                         ++ partly_repaired sch (S k) srow :: spend)).
  { intros v Ev E. injection E as <- <-.
    unfold repair_entry. rewrite V, Ev. split; [reflexivity |].
    unfold updateValue. cbn [schema archive hd srow].
    rewrite (index_of_nth_error (map fst sch) k obs names_distinct)
      by (rewrite nth_error_map, Hc; reflexivity).
    cbn [snd]. f_equal. rewrite map_app. cbn [map].
    destruct (repaired_rows_keys sdone Kd) as [Kd' Ed].
    rewrite update_other_rows by (rewrite ?Ed; assumption).
    rewrite update_other_rows by assumption.
    f_equal. f_equal.
    rewrite (partly_repaired_S k srow val (obs, declared) Hv Hc), Ev.
    pose proof (partly_repaired_key k key rest) as Hk. fold srow in Hk.
    unfold update_row.
    destruct (partly_repaired sch k srow) as [| c0 cs] eqn:Ep.
    - reflexivity.
    - cbn [hd] in Hk. subst c0. rewrite pyval_eqb_int_refl. reflexivity. }
  destruct (set_type val declared) as [v | e] eqn:E.
  - apply W. unfold repaired_cell. rewrite V, E. reflexivity.
  - destruct (is_ValueError e); [| discriminate].
    apply W. unfold repaired_cell. rewrite V, E. reflexivity.
Qed.

(** The loop over the columns of a row. *)
Lemma repair_writes_columns sdone key rest spend :
  let srow := PyInt key :: rest in
  Forall has_int_key sdone -> Forall has_int_key spend ->
  ~ In (PyInt key) (time_keys sdone) -> ~ In (PyInt key) (time_keys spend) ->
  (List.length srow <= List.length sch)%nat ->
  forall n k found found' db',
    (k + n = List.length srow)%nat ->
    for_each (seq k n)
             (check_column true false (map fst sch) (map snd sch) srow) found
             (mk_dbmanager sch (map (repaired_row sch) sdone
                                ++ partly_repaired sch k srow :: spend))
    = (Ok found', db') ->
    found' = (found ++ flat_map (repair_entry srow)
                                (combine (skipn k srow) (skipn k sch)))%list
    /\ db' = mk_dbmanager sch (map (repaired_row sch) sdone
                               ++ repaired_row sch srow :: spend).
Proof.
  intros srow Kd Kp Nd Np L.
  induction n as [| n IH]; intros k found found' db' Hk.
  - cbn [seq for_each ret]. intros E; injection E as <- <-.
    rewrite skipn_all2 by lia. cbn [combine flat_map]. rewrite app_nil_r.
    split; [reflexivity |].
    replace k with (List.length srow) by lia.
    rewrite partly_repaired_all by exact L. reflexivity.
  - cbn [seq for_each]. intros E. apply bindM_Ok in E.
    destruct E as (f1 & db1 & E1 & E2).
    destruct (nth_error srow k) as [val |] eqn:Hv;
      [| apply nth_error_None in Hv; lia].
    destruct (nth_error sch k) as [col |] eqn:Hc;
      [| apply nth_error_None in Hc; lia].
    apply (repair_writes_column sdone key rest spend k found f1 db1 val col
             Kd Kp Nd Np Hv Hc) in E1.
    destruct E1 as (-> & ->).
    apply IH in E2; [| lia]. destruct E2 as (-> & ->).
    split; [| reflexivity].
    rewrite (skipn_nth_error _ _ _ Hv), (skipn_nth_error _ _ _ Hc).
    cbn [combine flat_map]. rewrite app_assoc. reflexivity.
Qed.

(** The loop over the records. *)
Lemma repair_writes_records : forall spend sdone n found n' found' db',
  Forall has_int_key sdone ->
  Forall (fun record => (List.length record <= List.length sch)%nat
                        /\ has_int_key record) spend ->
  NoDup (time_keys (sdone ++ spend)) ->
  for_each spend (check_record true false (map fst sch) (map snd sch))
           (n, found)
           (mk_dbmanager sch (map (repaired_row sch) sdone ++ spend))
  = (Ok (n', found'), db') ->
  n' = (n + List.length spend)%nat
  /\ found' = (found ++ repair_found sch spend)%list
  /\ db' = mk_dbmanager sch (map (repaired_row sch) (sdone ++ spend)).
Proof.
  induction spend as [| srow spend IH];
    intros sdone n found n' found' db' Kd Hwf ND.
  - cbn. intros E; injection E as <- <- <-.
    rewrite Nat.add_0_r, !app_nil_r. auto.
  - apply Forall_cons_iff in Hwf. destruct Hwf as ((L & key & rest & ->) & Hwf).
    assert (Kp : Forall has_int_key spend)
      by (eapply Forall_impl; [| exact Hwf]; intros r Hr; apply Hr).
    unfold time_keys in ND. rewrite map_app in ND. cbn [map hd] in ND.
    pose proof ND as ND0.
    apply NoDup_remove in ND. destruct ND as (ND & Nin).
    rewrite in_app_iff in Nin.
    cbn [for_each]. intros E. apply bindM_Ok in E.
    destruct E as ([n1 f1] & db1 & E1 & E2).
    unfold check_record in E1. apply bindM_Ok in E1.
    destruct E1 as (f1' & db1' & E1 & E1').
    unfold ret in E1'. injection E1' as <- <- <-.
    apply (repair_writes_columns sdone key rest spend Kd Kp
             ltac:(tauto) ltac:(tauto) L (List.length (PyInt key :: rest)) O
             found f1' db1' eq_refl) in E1.
    destruct E1 as (-> & ->). cbn [skipn] in E2.
    replace (map (repaired_row sch) sdone
             ++ repaired_row sch (PyInt key :: rest) :: spend)%list
      with (map (repaired_row sch) (sdone ++ [PyInt key :: rest]) ++ spend)%list
      in E2 by (rewrite map_app, <- app_assoc; reflexivity).
    apply IH in E2; try assumption.
    + destruct E2 as (-> & -> & ->). rewrite <- !app_assoc.
      cbn [List.length app]. unfold repair_found. cbn [flat_map].
      rewrite Nat.add_succ_r, app_assoc. auto.
    + apply Forall_app. split; [exact Kd |].
      constructor; [eexists _, _; reflexivity | constructor].
    + unfold time_keys. rewrite <- app_assoc, map_app. exact ND0.
Qed.

End RepairWrites.

(** A repair that ends without an exception, on a well-formed table whose
    time keys are distinct.  Every cell that is a violation holds the
    coerced value, or [None] when the coercion raised [ValueError]; every
    other cell, the schema and the order of the rows are as they were; and
    the report has one entry for each of those violations, in the order of
    the scan, with the value that was written. *)
Theorem repair_writes_coerced_values {text : TextConversions} (o : options)
    (db db' : dbmanager) (rep : report) :
  wf_table db -> NoDup (time_keys (archive db)) -> dry_run o = false ->
  check_strings o true db = (Ok rep, db') ->
  db' = mk_dbmanager (schema db)
                     (map (repaired_row (schema db)) (archive db))
  /\ records rep = List.length (archive db)
  /\ _found rep = repair_found (schema db) (archive db).
Proof.
  intros (ND & K & Hkey & Hrows) Keys Hdry E.
  unfold check_strings, genSchemaOf, genBatchRows in E. rewrite Hdry in E.
  apply bindM_Ok in E. destruct E as ([n found] & db1 & E1 & E2).
  unfold ret in E2. destruct (summarise true false found) as [fx line].
  injection E2 as <- <-. cbn [records _found].
  destruct db as [sch rows]. cbn [schema archive] in *.
  apply (repair_writes_records sch ND K Hkey rows [] O [] n found db1
           (Forall_nil _) Hrows Keys) in E1.
  destruct E1 as (-> & -> & ->). auto.
Qed.

(** The repair of [two_violations_db]: the text that is a number becomes
    the number, the text that is not becomes [None]. *)
Lemma repair_writes_coerced_values_witness :
  mk_dbmanager
    [("dateTime", "INTEGER"); ("outTemp", "REAL")]
    [[PyInt 1000; PyFloat float_72_3]; [PyInt 1300; PyNone]]
  = mk_dbmanager (schema two_violations_db)
      (map (repaired_row (text := ascii_text) (schema two_violations_db))
           (archive two_violations_db))
  /\ 2%nat = List.length (archive two_violations_db)
  /\ [Found4 (PyInt 1000) "outTemp" (PyStr "72.3") (PyFloat float_72_3);
      Found4 (PyInt 1300) "outTemp" (PyStr "abc") PyNone]
     = repair_found (text := ascii_text) (schema two_violations_db)
         (archive two_violations_db).
Proof.
  apply (repair_writes_coerced_values (text := ascii_text) no_options
           two_violations_db _
           (mk_report 2
              [Found4 (PyInt 1000) "outTemp" (PyStr "72.3") (PyFloat float_72_3);
               Found4 (PyInt 1300) "outTemp" (PyStr "abc") PyNone]
              2 (AllFixed false 2 2))).
  - repeat split.
    + repeat constructor; cbn; intuition discriminate.
    + repeat constructor.
    + eexists _, _. reflexivity.
    + repeat constructor; eexists _, _; reflexivity.
  - repeat constructor; cbn; intuition discriminate.
  - reflexivity.
  - vm_compute. reflexivity.
Defined.

(** ** The names to drop *)

Lemma split_words_name sep (w s : string) :
  ~ In sep (list_ascii_of_string w) ->
  split_words sep (w ++ s)
  = let (w', ws) := split_words sep s in (w ++ w', ws).
Proof.
  induction w as [| c w IH]; cbn [append list_ascii_of_string In split_words].
  - intros _. destruct (split_words sep s). reflexivity.
  - intros H. rewrite IH by tauto.
    destruct (split_words sep s) as [w' ws].
    destruct (Ascii.eqb_spec c sep) as [-> | _]; [tauto | reflexivity].
Qed.

Lemma append_empty_r (s : string) : s ++ "" = s.
Proof. induction s as [| c s IH]; cbn; [| rewrite IH]; reflexivity. Qed.

Lemma append_assoc (a b c : string) : (a ++ b) ++ c = a ++ (b ++ c).
Proof. induction a as [| x a IH]; cbn; [| rewrite IH]; reflexivity. Qed.

(** [",".join(names).split(",") == names] *)
Lemma split_concat (names : list string) :
  names <> [] ->
  Forall (fun n => ~ In ","%char (list_ascii_of_string n)) names ->
  split "," (String.concat "," names) = names.
Proof.
  intros Hn F. induction F as [| n ns Hc F IH]; [contradiction |].
  unfold split in *. destruct ns as [| n' ns].
  - cbn [String.concat]. rewrite <- (append_empty_r n) at 1.
    rewrite (split_words_name _ _ _ Hc). cbn. rewrite append_empty_r.
    reflexivity.
  - change (String.concat "," (n :: n' :: ns))
      with (n ++ String "," (String.concat "," (n' :: ns))).
    rewrite (split_words_name _ _ _ Hc). cbn [split_words].
    destruct (split_words "," (String.concat "," (n' :: ns))) as [w ws].
    rewrite Ascii.eqb_refl, append_empty_r.
    rewrite IH by discriminate. reflexivity.
Qed.

(** [(s + ",").split(",") == s.split(",") + [""]] *)
Lemma split_trailing (s : string) :
  split "," (s ++ ",") = (split "," s ++ [""])%list.
Proof.
  unfold split. induction s as [| c s IH]; [reflexivity |].
  cbn [append split_words].
  destruct (split_words "," (s ++ ",")) as [w ws],
           (split_words "," s) as [w' ws'].
  injection IH as -> ->.
  destruct (Ascii.eqb c ","); reflexivity.
Qed.

Lemma list_remove_absent x l :
  ~ In x l -> list_remove x l = Raise (ValueError "list.remove(x): x not in list").
Proof.
  induction l as [| y l IH]; cbn [list_remove In]; [reflexivity |].
  intros H. destruct (String.eqb_spec y x) as [-> | _]; [tauto |].
  rewrite IH by tauto. reflexivity.
Qed.

Lemma list_remove_last x l :
  ~ In x l -> list_remove x (l ++ [x]) = Ok l.
Proof.
  induction l as [| y l IH]; cbn [list_remove In app].
  - rewrite String.eqb_refl. reflexivity.
  - intros H. destruct (String.eqb_spec y x) as [-> | _]; [tauto |].
    rewrite IH by tauto. reflexivity.
Qed.

(** The names given with commas between them come back as given, and a
    comma after the last name is forgiven: both texts yield the list of
    the names. *)
Theorem drop_list_of_names (names : list string) :
  names <> [] -> Forall column_name names ->
  drop_list_of (String.concat "," names) = Ok names
  /\ drop_list_of (String.concat "," names ++ ",") = Ok names.
Proof.
  intros Hn F.
  assert (Fc : Forall (fun n => ~ In ","%char (list_ascii_of_string n)) names)
    by (eapply Forall_impl; [| exact F]; intros n Hc; apply Hc).
  assert (Fe : ~ In "" names).
  { rewrite Forall_forall in F. intros H. apply F in H.
    destruct H as [H _]. apply H. reflexivity. }
  unfold drop_list_of. split.
  - rewrite (split_concat names Hn Fc), (list_remove_absent _ _ Fe).
    reflexivity.
  - rewrite split_trailing, (split_concat names Hn Fc),
      (list_remove_last _ _ Fe).
    reflexivity.
Qed.

(** ['outTemp,inTemp,'] *)
Lemma drop_list_of_names_witness :
  drop_list_of "outTemp,inTemp" = Ok ["outTemp"; "inTemp"]
  /\ drop_list_of "outTemp,inTemp," = Ok ["outTemp"; "inTemp"].
Proof.
  apply (drop_list_of_names ["outTemp"; "inTemp"]); [discriminate |].
  repeat constructor; cbn; intuition discriminate.
Defined.



Example drop_list_with_two_empty_names :
  drop_list_of "a,,b," = Ok ["a"; "b"; ""].
Proof. reflexivity. Qed.

(** ** The checks of [main] and the action it takes *)

Lemma b2n_zero b : Nat.b2n b = O -> b = false.
Proof. destruct b; [discriminate | reflexivity]. Qed.

Lemma truthy_None_cases o :
  truthy o = None -> o = None \/ o = Some "".
Proof.
  destruct o as [s |]; [| auto]. cbn.
  destruct (String.eqb_spec s ""); [subst; auto | discriminate].
Qed.

(** The count of the verbs, when the checks pass. *)
Lemma check_options_verbs o nargs :
  Main.check_options o nargs = None -> Main.verbs o = 1%nat.
Proof.
  unfold Main.check_options. destruct (1 <? nargs)%nat; [discriminate |].
  destruct (Nat.eqb_spec (Main.verbs o) 1); [auto | discriminate].
Qed.

Ltac flag_off H f :=
  let E := fresh "E" in
  assert (E : f = false) by (apply b2n_zero; lia);
  rewrite E in *; clear E.

(** When the checks pass, exactly one verb is given, and [main] calls the
    function of that verb, with one exception: a verb that takes a name
    ([--add-column], [--rename-column], [--drop-columns]) and is given the
    empty text counts as the verb, and then nothing is called at all. *)
Theorem empty_verb_does_nothing (o : Main.cli) (nargs : nat) :
  Main.check_options o nargs = None ->
  (Main.dispatch o = None
   <-> Main.add_column o = Some "" \/ Main.rename_column o = Some ""
       \/ Main.drop_columns o = Some "").
Proof.
  intros H. apply check_options_verbs in H.
  unfold Main.verbs, list_sum in H. cbn [map fold_right] in H.
  unfold Main.dispatch. split.
  - destruct (Main.create o); [discriminate |].
    destruct (Main.reconfigure o); [discriminate |].
    destruct (Main.transfer o); [discriminate |].
    destruct (truthy (Main.add_column o)) eqn:Ea; [discriminate |].
    destruct (truthy (Main.rename_column o)) eqn:Er; [discriminate |].
    destruct (truthy (Main.drop_columns o)) eqn:Ed; [discriminate |].
    destruct (Main.check o); [discriminate |].
    destruct (Main.update o); [discriminate |].
    destruct (Main.calc_missing o); [discriminate |].
    destruct (Main.check_strings o); [discriminate |].
    destruct (Main.fix_strings o); [discriminate |].
    destruct (Main.drop_daily o); [discriminate |].
    destruct (Main.rebuild_daily o); [discriminate |].
    destruct (Main.reweight o); [discriminate |].
    intros _.
    destruct (truthy_None_cases _ Ea) as [Ha | Ha]; [| auto].
    destruct (truthy_None_cases _ Er) as [Hr | Hr]; [| auto].
    destruct (truthy_None_cases _ Ed) as [Hd | Hd]; [| auto].
    rewrite Ha, Hr, Hd in H. discriminate.
  - intros E.
    assert (T : truthy (Main.add_column o) = None
                /\ truthy (Main.rename_column o) = None
                /\ truthy (Main.drop_columns o) = None).
    { destruct E as [E | [E | E]]; rewrite E in H |- *; cbn in H;
        repeat split; try reflexivity;
        match goal with
        | |- truthy ?x = None =>
            destruct x; [cbn in H; lia | reflexivity]
        end. }
    destruct T as (-> & -> & ->).
    assert (S : (Nat.b2n (Main.is_not_None (Main.add_column o))
                 + Nat.b2n (Main.is_not_None (Main.rename_column o))
                 + Nat.b2n (Main.is_not_None (Main.drop_columns o)) >= 1)%nat).
    { destruct E as [E | [E | E]]; rewrite E; cbn; lia. }
    flag_off H (Main.create o). flag_off H (Main.reconfigure o).
    flag_off H (Main.transfer o). flag_off H (Main.check o).
    flag_off H (Main.update o). flag_off H (Main.calc_missing o).
    flag_off H (Main.check_strings o). flag_off H (Main.fix_strings o).
    flag_off H (Main.drop_daily o). flag_off H (Main.rebuild_daily o).
    flag_off H (Main.reweight o).
    reflexivity.
Qed.

(** [--add-column=]: the checks pass and nothing is called. *)
Lemma empty_verb_does_nothing_witness :
  Main.dispatch cli_add_column_empty = None.
Proof.
  apply (proj2 (empty_verb_does_nothing cli_add_column_empty 0 eq_refl)).
  left. reflexivity.
Defined.

(** The date options are accepted only with one of the three verbs that
    use them. *)
Lemma check_options_dates o nargs :
  Main.check_options o nargs = None ->
  (is_true (Main.date o) || is_true (Main.from_date o)
   || is_true (Main.to_date o))%bool = true ->
  (Main.calc_missing o || Main.rebuild_daily o || Main.reweight o)%bool = true.
Proof.
  unfold Main.check_options.
  repeat match goal with
         | |- (if ?c then Some _ else _) = None -> _ =>
             destruct c eqn:?; [discriminate |]
         end.
  intros _.
  destruct (Main.calc_missing o || Main.rebuild_daily o || Main.reweight o)%bool;
    [reflexivity |].
  destruct (is_true (Main.date o)), (is_true (Main.from_date o)),
           (is_true (Main.to_date o)); cbn in *; congruence.
Qed.

(** The action for a command line whose one verb is among calc-missing,
    rebuild-daily and reweight. *)
Lemma window_consumers o nargs :
  Main.check_options o nargs = None ->
  ((Main.calc_missing o || Main.rebuild_daily o || Main.reweight o)%bool = true
   -> Main.resolves_window (Main.dispatch o) = true)
  /\ (Main.resolves_window (Main.dispatch o) = true ->
      (Nat.b2n (Main.rebuild_daily o) + Nat.b2n (Main.reweight o)
       + Nat.b2n (Main.calc_missing o) = 1)%nat).
Proof.
  intros H. apply check_options_verbs in H.
  unfold Main.verbs, list_sum in H. cbn [map fold_right] in H.
  unfold Main.dispatch. split.
  - intros V.
    assert (S : (Nat.b2n (Main.rebuild_daily o) + Nat.b2n (Main.reweight o)
                 + Nat.b2n (Main.calc_missing o) >= 1)%nat).
    { destruct (Main.calc_missing o), (Main.rebuild_daily o),
               (Main.reweight o); cbn in *; try lia; discriminate. }
    flag_off H (Main.create o). flag_off H (Main.reconfigure o).
    flag_off H (Main.transfer o).
    assert (Ea : Main.add_column o = None)
      by (destruct (Main.add_column o); [cbn in H; lia | reflexivity]).
    assert (Er : Main.rename_column o = None)
      by (destruct (Main.rename_column o); [cbn in H; lia | reflexivity]).
    assert (Ed : Main.drop_columns o = None)
      by (destruct (Main.drop_columns o); [cbn in H; lia | reflexivity]).
    rewrite Ea, Er, Ed. cbn [truthy].
    flag_off H (Main.check o). flag_off H (Main.update o).
    destruct (Main.calc_missing o); [reflexivity |].
    flag_off H (Main.check_strings o). flag_off H (Main.fix_strings o).
    flag_off H (Main.drop_daily o).
    destruct (Main.rebuild_daily o); [reflexivity |].
    destruct (Main.reweight o); [reflexivity | discriminate].
  - revert H.
    destruct (Main.create o); [discriminate |].
    destruct (Main.reconfigure o); [discriminate |].
    destruct (Main.transfer o); [discriminate |].
    destruct (truthy (Main.add_column o)); [discriminate |].
    destruct (truthy (Main.rename_column o)); [discriminate |].
    destruct (truthy (Main.drop_columns o)); [discriminate |].
    destruct (Main.check o); [discriminate |].
    destruct (Main.update o); [discriminate |].
    destruct (Main.calc_missing o); [cbn; lia |].
    destruct (Main.check_strings o); [discriminate |].
    destruct (Main.fix_strings o); [discriminate |].
    destruct (Main.drop_daily o); [discriminate |].
    destruct (Main.rebuild_daily o); [cbn; lia |].
    destruct (Main.reweight o); [cbn; lia | discriminate].
Qed.

(** The functions that resolve a date window ([calc_missing],
    [rebuildDaily], [reweight]) are called with exactly one of the three
    flags [calc_missing], [rebuild_daily], [reweight] set in the options;
    and a command line with [--date], [--from] or [--to] that passes the
    checks calls one of them. *)
Theorem window_actions_have_one_consumer (o : Main.cli) (nargs : nat) :
  Main.check_options o nargs = None ->
  ((is_true (Main.date o) || is_true (Main.from_date o)
    || is_true (Main.to_date o))%bool = true ->
   Main.resolves_window (Main.dispatch o) = true)
  /\ (Main.resolves_window (Main.dispatch o) = true ->
      (Nat.b2n (Main.rebuild_daily o) + Nat.b2n (Main.reweight o)
       + Nat.b2n (Main.calc_missing o) = 1)%nat).
Proof.
  intros H. destruct (window_consumers o nargs H) as [W1 W2].
  split; [| exact W2].
  intros D. apply W1. eapply check_options_dates; eassumption.
Qed.

Lemma window_actions_have_one_consumer_witness :
  Main.resolves_window (Main.dispatch cli_calc_missing_date) = true
  /\ (Nat.b2n (Main.rebuild_daily cli_calc_missing_date)
      + Nat.b2n (Main.reweight cli_calc_missing_date)
      + Nat.b2n (Main.calc_missing cli_calc_missing_date) = 1)%nat.
Proof.
  pose proof (window_actions_have_one_consumer cli_calc_missing_date 0 eq_refl)
    as [W1 W2].
  split; [apply W1 | apply W2; apply W1]; reflexivity.
Defined.

Section MainWindow.

Variable strptime : string -> string -> result datetime.
Hypothesis strptime_normal :
  forall s fmt d, strptime s fmt = Ok d -> normal d.
Hypothesis strptime_date_midnight :
  forall s d, strptime s "%Y-%m-%d" = Ok d -> is_midnight d.

(** From the command line to the window.  For a command line that passes
    the checks of [main] and has a valid [--date] (and neither [--from]
    nor [--to]), the function called is one that resolves the window, and
    the window it gets is the day's midnight twice for rebuild-daily and
    reweight, and from one second after midnight to the next midnight for
    calc-missing (out of range on the calendar's last day).  The
    midnight-to-midnight default of [_parse_dates] is never returned. *)
Theorem main_date_window (o : Main.cli) (nargs : nat) (s : string)
    (d : datetime) :
  Main.check_options o nargs = None ->
  truthy (Main.date o) = Some s ->
  is_true (Main.from_date o) = false -> is_true (Main.to_date o) = false ->
  strptime s "%Y-%m-%d" = Ok d ->
  Main.resolves_window (Main.dispatch o) = true
  /\ _parse_dates strptime (Main.options_of o)
     = if Main.calc_missing o
       then if ordinal d <? _MAXORDINAL
            then Ok (Some (mk_datetime (ordinal d) 1 0),
                     Some (mk_datetime (ordinal d + 1) 0 0))
            else Raise (OverflowError "date value out of range")
       else Ok (Some d, Some d).
Proof.
  intros H Hd Hf Ht Hp.
  destruct (window_consumers o nargs H) as [W1 W2].
  assert (D : is_true (Main.date o) = true)
    by (unfold is_true; rewrite Hd; reflexivity).
  assert (R : Main.resolves_window (Main.dispatch o) = true).
  { apply W1. apply (check_options_dates o nargs H). rewrite D. reflexivity. }
  split; [exact R |]. specialize (W2 R).
  pose proof (strptime_normal _ _ _ Hp) as Hn.
  destruct (strptime_date_midnight _ _ Hp) as [Hs Hu].
  unfold _parse_dates, Main.options_of.
  cbn [date from_date to_date rebuild_daily reweight calc_missing].
  rewrite Hd, Hf, Ht, Hp. cbn [orb try_except_ValueError bind].
  revert W2. destruct (Main.calc_missing o); intros W2.
  - cbn [Nat.b2n] in W2.
    flag_off W2 (Main.rebuild_daily o). flag_off W2 (Main.reweight o).
    cbn [orb]. rewrite add_one_day by assumption.
    destruct (ordinal d <? _MAXORDINAL); [| reflexivity].
    cbn [bind]. rewrite add_one_second by assumption.
    rewrite Hs, Hu. reflexivity.
  - destruct (Main.rebuild_daily o), (Main.reweight o); cbn in W2;
      try reflexivity; lia.
Qed.

End MainWindow.

(** [--calc-missing --date=2023-06-15] *)
Lemma main_date_window_witness :
  Main.resolves_window (Main.dispatch cli_calc_missing_date) = true
  /\ _parse_dates strptime_ascii (Main.options_of cli_calc_missing_date)
     = Ok (Some (mk_datetime 738686 1 0), Some (mk_datetime 738687 0 0)).
Proof.
  apply (main_date_window strptime_ascii strptime_ascii_normal
           strptime_ascii_date_midnight cli_calc_missing_date 0
           "2023-06-15" (mk_datetime 738686 0 0));
    vm_compute; reflexivity.
Defined.

(** ** Dates written as [YYYY-mm-dd] are accepted *)

Ltac div_lia := Z.to_euclidean_division_equations; lia.

Lemma digit_char_digit n :
  0 <= n <= 9 ->
  AsciiText.is_digit (DateText.digit_char n) = true
  /\ AsciiText.digit_value (DateText.digit_char n) = n
  /\ AsciiText.is_space (DateText.digit_char n) = false
  /\ (forall rest,
         AsciiText.split_sign (DateText.digit_char n :: rest)
         = (false, DateText.digit_char n :: rest)).
Proof.
  intros H. rewrite <- (Z2Nat.id n) by lia.
  assert (K : (Z.to_nat n < 10)%nat) by lia.
  revert K. generalize (Z.to_nat n). intros k K.
  do 10 (destruct k as [| k]; [repeat split; reflexivity |]). lia.
Qed.

(** The table of the months and days, by evaluation. *)
Lemma month_day_table :
  all_from (fun m => all_from (DateText.month_day_ok m) 1 31) 1 12 = true.
Proof. vm_compute. reflexivity. Qed.

Lemma month_day_matched m d :
  1 <= m <= 12 -> 1 <= d <= 31 -> DateText.month_day_ok m d = true.
Proof.
  intros Hm Hd.
  assert (T : all_from (DateText.month_day_ok m) 1 31 = true).
  { apply (all_from_spec
             (fun m => all_from (DateText.month_day_ok m) 1 31) 12 1 m
             month_day_table). lia. }
  apply (all_from_spec _ 31 1 d T). lia.
Qed.

Lemma match_year tail c1 c2 c3 c4 rest :
  AsciiText.is_digit c1 = true -> AsciiText.is_digit c2 = true ->
  AsciiText.is_digit c3 = true -> AsciiText.is_digit c4 = true ->
  match_tokens
    (Group "Y" [[AsciiText.is_digit; AsciiText.is_digit; AsciiText.is_digit;
                 AsciiText.is_digit]] :: tail)
    (c1 :: c2 :: c3 :: c4 :: rest)
  = match match_tokens tail rest with
    | Some (gs, r) => Some (("Y"%char, [c1; c2; c3; c4]) :: gs, r)
    | None => None
    end.
Proof.
  intros H1 H2 H3 H4. cbn [match_tokens match_seq].
  rewrite H1, H2, H3, H4.
  destruct (match_tokens tail rest) as [[gs r] |]; reflexivity.
Qed.

Lemma int_of_four_digits y :
  0 <= y <= 9999 ->
  AsciiText.int_of_text
    (list_ascii_of_string (DateText.four_digits_text y)) = Some y.
Proof.
  intros Hy. unfold DateText.four_digits_text.
  cbn [list_ascii_of_string].
  destruct (digit_char_digit (y / 1000)) as (D1 & V1 & S1 & G1); [div_lia |].
  destruct (digit_char_digit (y / 100 mod 10)) as (D2 & V2 & S2 & _); [div_lia |].
  destruct (digit_char_digit (y / 10 mod 10)) as (D3 & V3 & S3 & _); [div_lia |].
  destruct (digit_char_digit (y mod 10)) as (D4 & V4 & S4 & _); [div_lia |].
  unfold AsciiText.int_of_text.
  rewrite strip_no_space by (repeat constructor; assumption).
  rewrite G1. cbn [AsciiText.digitpart]. rewrite D1, D2, D3, D4.
  cbn [option_map AsciiText.decimal_value fold_left].
  rewrite V1, V2, V3, V4. f_equal. div_lia.
Qed.

(** [strptime] on the text of a date gives what the constructor gives for
    the date: the midnight of a day the calendar has, [ValueError]
    otherwise. *)
Lemma strptime_date_text y m d :
  0 <= y <= 9999 -> 1 <= m <= 12 -> 1 <= d <= 31 ->
  strptime_ascii (DateText.date_text y m d) "%Y-%m-%d"
  = datetime_new y m d 0 0 0 0.
Proof.
  intros Hy Hm Hd.
  pose proof (month_day_matched m d Hm Hd) as T.
  unfold DateText.month_day_ok in T.
  destruct (compile (list_ascii_of_string "-%m-%d")) as [tail |] eqn:Ct;
    [| discriminate].
  set (rest := "-" ++ DateText.two_digits_text m
               ++ "-" ++ DateText.two_digits_text d) in *.
  destruct (match_tokens tail (list_ascii_of_string rest))
    as [[gs [| c r]] |] eqn:Mt; try discriminate.
  destruct (group "Y" gs) eqn:GY; [discriminate |].
  destruct (field "m" 1 gs) as [m' |] eqn:Fm; [| discriminate].
  destruct (field "d" 1 gs) as [d' |] eqn:Fd; [| discriminate].
  destruct (field "H" 0 gs) as [[| |] |] eqn:FH; try discriminate.
  destruct (field "M" 0 gs) as [[| |] |] eqn:FM; try discriminate.
  apply andb_prop in T. destruct T as [Em Ed].
  apply Z.eqb_eq in Em, Ed. subst m' d'.
  unfold strptime_ascii.
  assert (C : compile (list_ascii_of_string "%Y-%m-%d")
              = option_map
                  (cons (Group "Y" [[AsciiText.is_digit; AsciiText.is_digit;
                                     AsciiText.is_digit; AsciiText.is_digit]]))
                  (compile (list_ascii_of_string "-%m-%d")))
    by reflexivity.
  rewrite C, Ct. cbn [option_map].
  pose proof (int_of_four_digits y Hy) as IY.
  unfold DateText.date_text. fold rest.
  unfold DateText.four_digits_text in *.
  cbn [append list_ascii_of_string] in *.
  destruct (digit_char_digit (y / 1000)) as (D1 & _); [div_lia |].
  destruct (digit_char_digit (y / 100 mod 10)) as (D2 & _); [div_lia |].
  destruct (digit_char_digit (y / 10 mod 10)) as (D3 & _); [div_lia |].
  destruct (digit_char_digit (y mod 10)) as (D4 & _); [div_lia |].
  rewrite (match_year tail _ _ _ _ _ D1 D2 D3 D4), Mt.
  assert (FY : field "Y" 1900
                 (("Y"%char,
                   [DateText.digit_char (y / 1000);
                    DateText.digit_char (y / 100 mod 10);
                    DateText.digit_char (y / 10 mod 10);
                    DateText.digit_char (y mod 10)]) :: gs) = Ok y).
  { unfold field. cbn [group]. rewrite Ascii.eqb_refl, IY. reflexivity. }
  rewrite FY. cbn [bind].
  change (field "m" 1 (("Y"%char, ?x) :: gs)) with (field "m" 1 gs).
  change (field "d" 1 (("Y"%char, ?x) :: gs)) with (field "d" 1 gs).
  change (field "H" 0 (("Y"%char, ?x) :: gs)) with (field "H" 0 gs).
  change (field "M" 0 (("Y"%char, ?x) :: gs)) with (field "M" 0 gs).
  rewrite Fm, Fd, FH, FM. reflexivity.
Qed.

(** A [--date] written as [YYYY-mm-dd], with a month from 01 to 12 and a
    day from 01 to 31, is accepted exactly when the calendar has that day
    (the year is not 0000 and the day is within the month): the window for
    rebuild-daily is then the midnight of that day, twice; otherwise the
    result is the "Invalid --date" error. *)
Theorem date_option_accepts_calendar_days (y m d : Z) (reweigh calc dry : bool) :
  0 <= y <= 9999 -> 1 <= m <= 12 -> 1 <= d <= 31 ->
  _parse_dates strptime_ascii
    (mk_options (Some (DateText.date_text y m d)) None None
                true reweigh calc dry)
  = if (1 <=? y) && (d <=? _days_in_month y m)
    then Ok (Some (mk_datetime (_ymd2ord y m d) 0 0),
             Some (mk_datetime (_ymd2ord y m d) 0 0))
    else Raise (ValueError "Invalid --date option specified.").
Proof.
  intros Hy Hm Hd. unfold _parse_dates. cbn [date from_date to_date].
  assert (Tr : truthy (Some (DateText.date_text y m d))
               = Some (DateText.date_text y m d)) by reflexivity.
  rewrite Tr. unfold is_true. cbn [truthy orb].
  rewrite (strptime_date_text y m d Hy Hm Hd).
  unfold datetime_new, in_range.
  replace (y <=? 9999) with true by lia.
  replace (1 <=? m) with true by lia. replace (m <=? 12) with true by lia.
  replace (1 <=? d) with true by lia.
  destruct (1 <=? y); [| reflexivity].
  destruct (d <=? _days_in_month y m); reflexivity.
Qed.

(** [--rebuild-daily --date=2023-06-15] *)
Lemma date_option_accepts_calendar_days_witness :
  _parse_dates strptime_ascii
    (mk_options (Some "2023-06-15") None None true false false false)
  = Ok (Some (mk_datetime 738686 0 0), Some (mk_datetime 738686 0 0)).
Proof.
  apply (date_option_accepts_calendar_days 2023 6 15 false false false); lia.
Defined.

(** [--rebuild-daily --date=2023-02-30] *)
Example date_option_rejects_february_30 :
  _parse_dates strptime_ascii
    (mk_options (Some "2023-02-30") None None true false false false)
  = Raise (ValueError "Invalid --date option specified.").
Proof. vm_compute. reflexivity. Qed.

(** ** A repair that ends with an exception *)

Section RepairStopsFacts.
Context {text : TextConversions}.

Variable sch : list (string * string).
Hypothesis names_distinct : NoDup (map fst sch).
Hypothesis types_known : Forall (fun col => known_type (snd col) = true) sch.
Hypothesis key_column : exists obs rest, sch = (obs, "INTEGER") :: rest.






End RepairStopsFacts.



(** ** Dates with a time, written as [YYYY-mm-ddTHH:MM], are accepted *)

(** A group whose first accepting alternative takes the two characters
    at the start of the text, before a rest that the rest of the format
    matches. *)
Lemma match_group_takes_both name ts c1 c2 rest gs r :
  match_tokens ts rest = Some (gs, r) ->
  forall alts,
    DateText.takes_both alts c1 c2 = true ->
    match_tokens (Group name alts :: ts) (c1 :: c2 :: rest)
    = Some ((name, [c1; c2]) :: gs, r).
Proof.
  intros Mt. induction alts as [| a alts IH]; [discriminate |].
  cbn [DateText.takes_both]. cbn [match_tokens] in *.
  destruct a as [| p1 [| p2 [| p3 a]]]; try discriminate.
  - intros H. apply andb_prop in H. destruct H as [H1 H2].
    apply negb_true_iff in H1. cbn [match_seq]. rewrite H1. apply IH, H2.
  - intros H. cbn [match_seq].
    destruct (p1 c1); cbn [andb orb] in H |- *; [| apply IH, H].
    destruct (p2 c2); cbn [orb] in H |- *; [| apply IH, H].
    rewrite Mt. reflexivity.
Qed.

Lemma match_lit c ts x s :
  eqb_nocase c x = true ->
  match_tokens (Lit c :: ts) (x :: s) = match_tokens ts s.
Proof. intros H. cbn [match_tokens]. rewrite H. reflexivity. Qed.

(** The tables of the months, days, hours and minutes, by evaluation. *)
Lemma two_digits_tables :
  all_from (DateText.two_digits_ok "m") 1 12
  && all_from (DateText.two_digits_ok "d") 1 31
  && all_from (DateText.two_digits_ok "H") 0 24
  && all_from (DateText.two_digits_ok "M") 0 60 = true.
Proof. vm_compute. reflexivity. Qed.

Lemma two_digits_matched c lo n (count : nat) :
  all_from (DateText.two_digits_ok c) lo count = true ->
  lo <= n < lo + Z.of_nat count ->
  DateText.takes_both (DateText.alts_of c)
    (DateText.digit_char (n / 10)) (DateText.digit_char (n mod 10)) = true
  /\ AsciiText.int_of_text
       [DateText.digit_char (n / 10); DateText.digit_char (n mod 10)] = Some n.
Proof.
  intros T Hn. pose proof (all_from_spec _ _ _ n T Hn) as H.
  unfold DateText.two_digits_ok in H. apply andb_prop in H.
  destruct H as [H1 H2]. split; [exact H1 |].
  destruct (AsciiText.int_of_text _) as [n' |]; [| discriminate].
  apply Z.eqb_eq in H2. subst. reflexivity.
Qed.

Lemma field_here name default m gs z :
  AsciiText.int_of_text m = Some z ->
  field name default ((name, m) :: gs) = Ok z.
Proof.
  intros H. unfold field. cbn [group]. rewrite Ascii.eqb_refl, H. reflexivity.
Qed.

Lemma field_skip name default n m gs :
  Ascii.eqb n name = false ->
  field name default ((n, m) :: gs) = field name default gs.
Proof. intros H. unfold field. cbn [group]. rewrite H. reflexivity. Qed.

(** [strptime] on the text of a date and a time gives what the
    constructor gives for them. *)
Lemma strptime_date_time_text y m d hh mm :
  0 <= y <= 9999 -> 1 <= m <= 12 -> 1 <= d <= 31 ->
  0 <= hh <= 23 -> 0 <= mm <= 59 ->
  strptime_ascii (DateText.date_time_text y m d hh mm) "%Y-%m-%dT%H:%M"
  = datetime_new y m d hh mm 0 0.
Proof.
  intros Hy Hm Hd Hh Hmi.
  pose proof two_digits_tables as T.
  apply andb_prop in T. destruct T as [T TM].
  apply andb_prop in T. destruct T as [T TH].
  apply andb_prop in T. destruct T as [Tm Td].
  destruct (two_digits_matched "m" 1 m 12 Tm) as [Bm Im]; [lia |].
  destruct (two_digits_matched "d" 1 d 31 Td) as [Bd Id]; [lia |].
  destruct (two_digits_matched "H" 0 hh 24 TH) as [Bh Ih]; [lia |].
  destruct (two_digits_matched "M" 0 mm 60 TM) as [Bmi Imi]; [lia |].
  pose proof (int_of_four_digits y Hy) as Iy.
  destruct (digit_char_digit (y / 1000)) as (D1 & _); [div_lia |].
  destruct (digit_char_digit (y / 100 mod 10)) as (D2 & _); [div_lia |].
  destruct (digit_char_digit (y / 10 mod 10)) as (D3 & _); [div_lia |].
  destruct (digit_char_digit (y mod 10)) as (D4 & _); [div_lia |].
  unfold strptime_ascii.
  assert (C : compile (list_ascii_of_string "%Y-%m-%dT%H:%M")
              = Some [Group "Y" [[AsciiText.is_digit; AsciiText.is_digit;
                                  AsciiText.is_digit; AsciiText.is_digit]];
                      Lit "-"; Group "m" (DateText.alts_of "m");
                      Lit "-"; Group "d" (DateText.alts_of "d");
                      Lit "T"; Group "H" (DateText.alts_of "H");
                      Lit ":"; Group "M" (DateText.alts_of "M")])
    by reflexivity.
  rewrite C. clear C.
  unfold DateText.date_time_text, DateText.date_text,
    DateText.four_digits_text, DateText.two_digits_text in *.
  cbn [append list_ascii_of_string] in *.
  rewrite (match_year _ _ _ _ _ _ D1 D2 D3 D4).
  rewrite (match_lit "-") by reflexivity.
  assert (E : match_tokens [] [] = Some ([], @nil ascii)) by reflexivity.
  apply (match_group_takes_both "M" _ _ _ _ _ _ E _) in Bmi.
  rewrite <- (match_lit ":" _ ":") in Bmi by reflexivity.
  apply (match_group_takes_both "H" _ _ _ _ _ _ Bmi _) in Bh.
  rewrite <- (match_lit "T" _ "T") in Bh by reflexivity.
  apply (match_group_takes_both "d" _ _ _ _ _ _ Bh _) in Bd.
  rewrite <- (match_lit "-" _ "-") in Bd by reflexivity.
  apply (match_group_takes_both "m" _ _ _ _ _ _ Bd _) in Bm.
  rewrite Bm.
  rewrite (field_here "Y" _ _ _ y Iy). cbn [bind].
  rewrite (field_skip "m" _ "Y") by reflexivity.
  rewrite (field_here "m" _ _ _ m Im). cbn [bind].
  rewrite !(field_skip "d" _ "Y"), !(field_skip "d" _ "m") by reflexivity.
  rewrite (field_here "d" _ _ _ d Id). cbn [bind].
  rewrite (field_skip "H" _ "Y"), (field_skip "H" _ "m"),
    (field_skip "H" _ "d") by reflexivity.
  rewrite (field_here "H" _ _ _ hh Ih). cbn [bind].
  rewrite (field_skip "M" _ "Y"), (field_skip "M" _ "m"),
    (field_skip "M" _ "d"), (field_skip "M" _ "H") by reflexivity.
  rewrite (field_here "M" _ _ _ mm Imi). reflexivity.
Qed.

Lemma days_in_month_le_31 y m : 1 <= m <= 12 -> _days_in_month y m <= 31.
Proof.
  intros H. unfold _days_in_month.
  destruct ((m =? 2) && _is_leap y)%bool; [lia |].
  rewrite <- (Z2Nat.id m) by lia.
  assert (K : (Z.to_nat m < 13)%nat) by lia.
  revert K. generalize (Z.to_nat m). intros k K. rewrite Nat2Z.id.
  do 13 (destruct k as [| k]; [cbn; lia |]). lia.
Qed.

Lemma datetime_new_valid y m d hh mm :
  valid_date y m d -> 0 <= hh <= 23 -> 0 <= mm <= 59 ->
  datetime_new y m d hh mm 0 0
  = Ok (mk_datetime (_ymd2ord y m d) (hh * 3600 + mm * 60) 0).
Proof.
  intros (Hy & Hm & Hd) Hh Hmi. unfold datetime_new, in_range.
  replace (1 <=? y) with true by lia. replace (y <=? 9999) with true by lia.
  replace (1 <=? m) with true by lia. replace (m <=? 12) with true by lia.
  replace (1 <=? d) with true by lia.
  replace (d <=? _days_in_month y m) with true by lia.
  replace (0 <=? hh) with true by lia. replace (hh <=? 23) with true by lia.
  replace (0 <=? mm) with true by lia. replace (mm <=? 59) with true by lia.
  cbn. rewrite Z.add_0_r. reflexivity.
Qed.

Lemma date_time_text_has_T y m d hh mm :
  contains_T (DateText.date_time_text y m d hh mm) = true.
Proof.
  unfold contains_T. apply existsb_exists. exists "T"%char.
  split; [| reflexivity].
  unfold DateText.date_time_text, DateText.date_text,
    DateText.four_digits_text, DateText.two_digits_text.
  cbn [append list_ascii_of_string In]. tauto.
Qed.

(** Bounds written as [YYYY-mm-ddTHH:MM], for days the calendar has, are
    taken as they are written, whichever the consumer: the window runs
    from the minute given by [--from] to the minute given by [--to], and
    is rejected when that is the wrong way round. *)
Theorem bounds_with_time_accepted (y m d hh mm y' m' d' hh' mm' : Z)
    (rebuild reweigh calc dry : bool) :
  valid_date y m d -> 0 <= hh <= 23 -> 0 <= mm <= 59 ->
  valid_date y' m' d' -> 0 <= hh' <= 23 -> 0 <= mm' <= 59 ->
  _parse_dates strptime_ascii
    (mk_options None (Some (DateText.date_time_text y m d hh mm))
                (Some (DateText.date_time_text y' m' d' hh' mm'))
                rebuild reweigh calc dry)
  = if datetime_ltb
         (mk_datetime (_ymd2ord y' m' d') (hh' * 3600 + mm' * 60) 0)
         (mk_datetime (_ymd2ord y m d) (hh * 3600 + mm * 60) 0)
    then Raise (ViolatedPrecondition "--from value is later than --to value.")
    else Ok (Some (mk_datetime (_ymd2ord y m d) (hh * 3600 + mm * 60) 0),
             Some (mk_datetime (_ymd2ord y' m' d') (hh' * 3600 + mm' * 60) 0)).
Proof.
  intros V Hh Hmi V' Hh' Hmi'.
  assert (S : forall y m d hh mm,
             valid_date y m d -> 0 <= hh <= 23 -> 0 <= mm <= 59 ->
             strptime_ascii (DateText.date_time_text y m d hh mm)
                            "%Y-%m-%dT%H:%M"
             = Ok (mk_datetime (_ymd2ord y m d) (hh * 3600 + mm * 60) 0)).
  { clear. intros y m d hh mm V Hh Hmi.
    rewrite <- (datetime_new_valid y m d hh mm V Hh Hmi).
    destruct V as (Hy & Hm & Hd).
    pose proof (days_in_month_le_31 y m Hm).
    apply strptime_date_time_text; lia. }
  unfold _parse_dates, resolve_from, resolve_to.
  cbn [date from_date to_date].
  assert (Tr : forall y m d hh mm,
             truthy (Some (DateText.date_time_text y m d hh mm))
             = Some (DateText.date_time_text y m d hh mm)) by reflexivity.
  rewrite !Tr, !date_time_text_has_T.
  rewrite (S y m d hh mm V Hh Hmi), (S y' m' d' hh' mm' V' Hh' Hmi').
  reflexivity.
Qed.

(** [--from=2023-06-01T10:30 --to=2023-06-30T12:00] *)
Lemma bounds_with_time_accepted_witness :
  _parse_dates strptime_ascii
    (mk_options None (Some "2023-06-01T10:30") (Some "2023-06-30T12:00")
                false false true false)
  = Ok (Some (mk_datetime 738672 37800 0), Some (mk_datetime 738701 43200 0)).
Proof.
  apply (bounds_with_time_accepted 2023 6 1 10 30 2023 6 30 12 0
           false false true false);
    repeat split; vm_compute; discriminate.
Defined.
